(* ===== verification/_CoqProject ===== *)
-Q . S2P
Prelude.v
Model.v
Repository.v
DragDrop.v
IdGen.v
Json.v
JsonFuel.v
Persistence.v
Bootstrap.v
Session.v
Render.v
Progress.v
Refinement.v
Modal.v
