(* ===== verification/Prelude.v ===== *)
(** * A verification development for the bookmark dashboard (src/Dashboard/script.js)

    The program is a single-page dashboard: links grouped into categories,
    categories grouped into panels (tabs), all kept in three module-level
    arrays of the script ([panels], [categories], [links]) plus the scalars
    [currentPanelId] and [currentTheme], and persisted to [localStorage]
    under five keys as JSON.  Everything the user does is an event handler
    of [script.js] that mutates the arrays, calls [saveData()] and
    re-renders.  The rendering reads the state and never changes it; it is
    modelled as a function from the state to what the page shows.

    ** Files (in dependency order) and what they model

    - [Prelude] (this file): the notation scope [dash_scope], JavaScript's
      strict equality [===] on strings and on nullable strings as the
      class [StrictEq], the ECMAScript semantics of the array builtins the
      script uses ([Array.prototype.findIndex], [find], [splice] with
      negative and out-of-range indices, [push]) and of
      [String.prototype.trim] / [startsWith], with the list lemmas every
      component shares and the hint database [dash].
    - [Model]: the records [Panel], [Category], [Link], the [Theme], the
      in-memory [Dashboard] (the five globals of lines 2-12) and the
      well-formedness predicates of the data model: unique ids,
      referential integrity of [panelId] / [categoryId], a current panel
      that exists (decidable, so they evaluate on examples).
    - [Repository]: the mutating handlers of the data model, each as a
      function on [Dashboard]: panel tab click (lines 107-113),
      [handlePanelSubmit], [handleCategorySubmit], [handleLinkSubmit]
      (lines 493-562, with the URL coercion of lines 496-499), the panel
      delete with its cascade (lines 313-333), the category delete with its
      cascade (lines 364-375), the link delete (351-356), the theme toggle
      (244-248), the texts the cascading deletes ask [confirm] with
      (lines 314-318 and 364-368), and the edit forms [openModal] fills
      from a stored item (lines 576-615).  Identifiers produced by [generateId()] (line 644,
      [Date.now] plus [Math.random]) are an input of each creating
      handler: the model is correct for every id the environment supplies,
      and the invariant theorems assume the supplied id is fresh, which is
      what the timestamp-and-random construction is meant to provide.
    - [DragDrop]: the drag-and-drop controller (lines 382-489): the drop
      resolution for a dragged category (splice out, recompute the target
      index, splice in) and for a dragged link (the three branches of
      lines 471-484), over the JavaScript [splice] semantics of [Prelude],
      the arming / drag state machine of [mousedown], [mouseup],
      [dragstart], [dragend] as a step function, and the highlight the
      [dragover] listener (lines 420-442) leaves as [onDragOver].
    - [IdGen]: [generateId()] (lines 644-646): [Date.now().toString(36)]
      as the digit loop [digits36] on binary numbers, with the fuel
      [S (N.size n)] (a number of [k] bits has at most [k] base-36
      digits), followed by the random digits; [Date.now()] and the text of
      [Math.random().toString(36)] are inputs.
    - [Json]: [JSON.stringify] and [JSON.parse] on the values the script
      stores: [stringify] follows ECMA-262's QuoteJSONString escapes,
      [parse_json] is a recursive-descent parser on fuel.  The fuel
      [S (length text)] is enough: every call consumes a character or
      descends into a strictly smaller value ([json_size_le]), which the
      round trip theorem uses.
    - [JsonFuel]: the adequacy of that fuel, proved separately: a parse
      that succeeds with any fuel consumes fewer characters than
      [S (length text)] and succeeds with it.
    - [Persistence]: [localStorage] as a [gmap string string]; the five
      keys; the objects [JSON.stringify] sees for each record and their
      decoding; [saveData()] (lines 648-652) and the [setItem] calls as
      the interpretation [apply_writes] of a handler's [StorageWrite]s, in
      program order; the module-level loads of lines 2-12 with their
      [|| []] / [|| null] fallbacks and the [SyntaxError] of malformed
      text as a [LoadResult].
    - [Bootstrap]: [init()] (lines 40-79) without its rendering: the
      first-run seeding, the legacy migration under a "Main" panel, and
      the self-healing of the current panel.  The ids [generateId()]
      returns during [init] are a parameter [gen].
    - [Session]: the page as a [World] (model, store, drag globals, system
      colour preference); the single-threaded event loop as [step], which
      runs the event's handler ([react]) to completion and then its
      storage writes; a page load [boot] (loads, then [init]) and
      [reload]; the predicate [enabled] of the events the rendered page
      can send (only rendered ids, existing categories in the selects,
      fresh non-empty generated ids); and the inductive [reachable] of the
      worlds a session reaches by a first load, events and reloads.
    - [Render]: [escapeHTML] (lines 663-667) as the HTML serialisation of
      a text node, [extractDomain] (654-661) with the platform's URL
      parser as a parameter and [String.prototype.replace] written out,
      [renderPanels] (88-117) and [renderDashboard] (120-226) as functions
      from the state to a view: tabs with their class, the empty states,
      category blocks, link rows with their text, [href], favicon URL and
      fallback of the favicon's [onerror] handler as the HTML and
      JavaScript parsers read the handler's text (a glyph, U+FFFD, or the
      broken image when the handler does not compile); [applyTheme]
      (669-679) as the theme attribute and the visible icon.
    - [Progress]: runs of enabled events as stdpp's [rtc] of
      [enabled_step], and the schedule of form submissions by which the
      user reaches a shown link from any reachable world.
    - [Refinement]: the specification's hierarchical model (panels owning
      categories owning links, and a current panel) with its CRUD
      contract as a relation on trees ([t_spec]: a function for every
      command but the link edit, whose moved link may land anywhere in its
      new category); [abs] reads the tree off the flat arrays; every
      sequence of user commands the handlers of [Repository] run is
      allowed by the contract.
    - [Modal]: [openModal], [closeModal], [updateCategorySelect] (lines
      564-641) over the state of the overlay and the three forms, with the
      HTML rules of the category [<select>]; the guards of the Add Link and
      Add Category buttons (250-265); the user's typing, choice of an
      option and the URL blur autofill (286-297) as inputs.

    ** How the components interact

    A handler of [Repository] or [DragDrop] returns the new [Dashboard]
    and its writes; [Persistence.apply_writes] turns those into a new
    store; [Session.step] composes the two, and [Session.boot] composes
    [Persistence.load] with [Bootstrap.init].  [Render] reads the
    [Dashboard] a session reaches; [Refinement] runs the [Repository]
    handlers as commands; [Progress] schedules [Session] events and reads the
    result through [Render].  The session theorems are
    proved from the per-handler lemmas ([deletePanel_wf], [dropLink_wf],
    [dropLink_saves], ...) and the store lemmas ([coll_synced_writes],
    [load_synced]).

    ** What the theorems show (groups)

    - Array builtins: [splice] / [findIndex] behave as list surgery at the
      found index, and their JavaScript treatment of index -1 (the "not
      found" result) is written out.
    - Repository: each handler's behaviour on every branch (create
      appends last, edit keeps position, unknown id is a no-op), the
      cascade of the deletes, the counts their confirmation texts
      announce, saving an edit form unchanged is a no-op, the reassignment of the current panel, and the
      preservation of the well-formedness invariant by every handler.
    - Drag and drop: the moved item lands immediately before the target;
      the others keep their relative order; a drop on the immediate
      successor is a no-op; a link dropped on another link takes the
      target's category; a link dropped in a category block is displayed
      last in it; a drop outside every zone is reverted; the drop never
      throws for rendered elements and preserves the invariant; the
      [dragover] highlight names exactly the element the drop acts on.
    - JSON and persistence: [JSON.parse (JSON.stringify v) = v] for every
      value; saving then loading gives back the three arrays exactly;
      a stored text that begins with no JSON value throws, whatever the
      rest of the store holds.
    - Bootstrap: the first-run and legacy scenarios exactly, the
      self-healing rule, and the invariant after [init].
    - Session: every reachable world satisfies the invariant (well-formed
      model, consistent drag globals, store holding the arrays, stored
      current panel and theme loading back as the ones in memory); a
      reload restores the session exactly whenever a panel exists, and
      re-seeds the default panels when none does.
    - Ids: [toString(36)] prints the base-36 representation (read back by
      [value36], the reference [parseInt]) with no leading zero, and ids of
      two different milliseconds between 1973 and 2059 differ, whatever
      their random parts.
    - JSON fuel: [JSON.parse] accepts a text exactly when the unbounded
      recursive-descent parser does (the fuel is never what stops it).
    - Rendering: escaped text contains no [<] or [>] and decodes back to
      itself; in every reachable world with a panel exactly one tab is
      active; the rows shown are exactly the links of the current panel's
      categories; the favicon fallback shows the name's first character
      except for the characters that break the handler; the [www.]
      stripping and a custom stored theme behave as the findings
      describe.
    - Progress (liveness): from every reachable world, at most three
      submissions the page allows add a link with any URL, name and
      description, and the page then shows its row.
    - Refinement: every command sequence the page can issue from a
      well-formed state (creates, edits of panels, categories and links,
      deletes) is allowed by the contract on trees.
    - Dialogs: a submitted link form names a category of the current
      panel, which discharges the precondition [Session.enabled] places
      on link submissions; an edit dialog submitted unchanged leaves the
      dashboard as it was; the autofill never overwrites a typed name.

    ** Bounds and fuel

    [parse_json] runs with fuel [S (length text)], enough by the
    adequacy theorem of [JsonFuel]; [toString36] with fuel
    [S (N.size n)], enough because [n < 2^(size n)] and each step divides
    by 36; the distinctness of ids is stated for times in
    [[36^7, 36^8)] milliseconds (1973 to 2059), where every time prints
    with eight digits.

    ** Plan

    Done: repository, drag and drop, ids, JSON, persistence, bootstrap,
    session, rendering, dialogs, refinement of the CRUD contract (link
    edits included), drag-over highlight, progress.  Further work:
    code units above 255; the edit of a link that changes its category in
    the refinement (the tree position then depends on the flat order).

    ** Not modelled

    The clock (updateClock, lines 82-86 and the interval of lines 42-43:
    its text depends on the locale and the wall clock) and the focus
    timers of the dialogs: they write to the DOM and never to the state,
    and their output is not a function of the state.  [new URL(u).hostname]
    is the platform's URL parser, a parameter of [extractDomain]; the
    constant SVG markup of the templates is not part of the view.
    Strings are Rocq strings whose characters stand for UTF-16 code units
    below 256 (the Latin-1 range); code units above are not modelled.
    [parse_json] has no numbers: the script never stores one, but a
    stored number text (["0"]) is a syntax error in the model where
    [JSON.parse] accepts it, so the theorem on malformed text is stated
    for texts that begin with no JSON value, which every parser rejects.
    A [Link]'s description is a string: a stored link without one reads
    as [""] and is saved back with ["description":""], which every
    reader of the field (lines 197, 581) treats as the missing one.
    Of an object with a repeated key, property reads see the last
    member, as after [JSON.parse] ([Persistence.get_field]).  The session theorems
    assume of the environment what the page and the browser provide:
    events come from rendered elements ([Session.enabled]), stored data
    is well formed except for the legacy shape [init] migrates
    ([Bootstrap.loaded_ok]), and the ids [generateId()] returns are
    fresh and non-empty ([Session.gen_ok]), which [IdGen] justifies for
    ids generated in different milliseconds. *)

From Stdlib Require Export ZArith Ascii Lia String List.
From stdpp Require Export base list strings decidable.
Export stdpp.list.

Declare Scope dash_scope.
Delimit Scope dash_scope with dash.
Open Scope dash_scope.

Create HintDb dash.
Create Rewrite HintDb dash_rw.

(** ** JavaScript strict equality *)

(** [a === b] on the values the script compares: ids (strings) and
    nullable ids ([currentPanelId], a category's [panelId]). *)
Class StrictEq (A : Type) := {
  strict_eq : A -> A -> bool;
  strict_eq_spec : forall a b, strict_eq a b = true <-> a = b
}.

Notation "a === b" := (strict_eq a b) (at level 70, no associativity) : dash_scope.
Notation "a !== b" := (negb (strict_eq a b)) (at level 70, no associativity) : dash_scope.

#[export] Instance StrictEq_string : StrictEq string := {
  strict_eq := String.eqb;
  strict_eq_spec := String.eqb_eq
}.

(** [null === null] holds, [null === "x"] does not. *)
Definition opt_strict_eq (a b : option string) : bool :=
  match a, b with
  | None, None => true
  | Some x, Some y => String.eqb x y
  | _, _ => false
  end.

Lemma opt_strict_eq_spec a b : opt_strict_eq a b = true <-> a = b.
Proof.
  destruct a as [x|], b as [y|]; simpl;
    rewrite ?String.eqb_eq; split; congruence.
Qed.

#[export] Instance StrictEq_option : StrictEq (option string) := {
  strict_eq := opt_strict_eq;
  strict_eq_spec := opt_strict_eq_spec
}.

Section StrictEqLemmas.
Context `{StrictEq A}.

Lemma strict_eq_refl (a : A) : (a === a) = true.
Proof. by apply strict_eq_spec. Qed.

Lemma strict_eq_false (a b : A) : (a === b) = false <-> a <> b.
Proof.
  destruct (a === b) eqn:E; split; try congruence.
  - apply strict_eq_spec in E. tauto.
  - intros _ Hab. apply strict_eq_spec in Hab. congruence.
Qed.

Lemma strict_eq_reflect (a b : A) : reflect (a = b) (a === b).
Proof. apply iff_reflect. symmetry. apply strict_eq_spec. Qed.

Lemma strict_eq_sym (a b : A) : (a === b) = (b === a).
Proof. destruct (strict_eq_reflect a b), (strict_eq_reflect b a); congruence. Qed.
End StrictEqLemmas.

#[export] Hint Rewrite @strict_eq_refl : dash_rw.

(** Case analysis on a [===] in the goal or a hypothesis. *)
Ltac case_strict_eq :=
  match goal with
  | |- context [?a === ?b] =>
      destruct (strict_eq_reflect a b); subst
  | H : context [?a === ?b] |- _ =>
      destruct (strict_eq_reflect a b); subst
  end.

(** Turn [a === b = true] and [a !== b = true] into [a = b] and [a <> b],
    in the hypotheses and the goal. *)
Ltac strict_simpl :=
  repeat match goal with
  | H : (_ === _) = true |- _ => apply strict_eq_spec in H
  | H : negb (_ === _) = true |- _ => apply negb_true_iff, strict_eq_false in H
  | |- (_ === _) = true => apply strict_eq_spec
  | |- negb (_ === _) = true => apply negb_true_iff, strict_eq_false
  end.

(** JavaScript truthiness of a string ([""] is falsy) and of a nullable
    string ([null] and [""] are falsy), as in [if (id)] and
    [if (!c.panelId)]. *)
Definition truthy (s : string) : bool := negb (String.eqb s "").
Definition truthy_opt (o : option string) : bool :=
  match o with Some s => truthy s | None => false end.

(** ** ECMAScript array builtins used by the script *)

Section JsArray.
Context {A : Type}.
Implicit Types (l pre post : list A) (p : A -> bool) (x y : A).

(** [arr.findIndex(p)]: the index of the first element satisfying [p],
    or [-1]. *)
Fixpoint find_index_nat p l : option nat :=
  match l with
  | [] => None
  | x :: l' => if p x then Some 0 else S <$> find_index_nat p l'
  end.

Definition findIndex p l : Z :=
  match find_index_nat p l with
  | Some i => Z.of_nat i
  | None => (-1)%Z
  end.

(** [relativeStart] of [Array.prototype.splice]: a negative start counts
    from the end (clamped at 0), a start past the end is clamped to the
    length. *)
Definition js_start (len : nat) (start : Z) : nat :=
  if (start <? 0)%Z then Z.to_nat (Z.max (Z.of_nat len + start) 0)
  else Z.to_nat (Z.min start (Z.of_nat len)).

(** [const [removed] = arr.splice(start, 1)]: the removed element
    ([undefined] when there is none) and the array afterwards. *)
Definition splice_remove1 l (start : Z) : option A * list A :=
  let s := js_start (length l) start in
  (l !! s, take s l ++ drop (S s) l).

(** [arr.splice(start, 0, x)]. *)
Definition splice_insert l (start : Z) x : list A :=
  let s := js_start (length l) start in
  take s l ++ x :: drop s l.

(** [arr.push(x)]. *)
Definition push l x : list A := l ++ [x].

(** *** Lemmas *)

Lemma find_index_nat_app_first pre x post p :
  Forall (fun y => p y = false) pre -> p x = true ->
  find_index_nat p (pre ++ x :: post) = Some (length pre).
Proof.
  induction 1 as [|y pre Hy _ IH]; intros Hx; simpl.
  - by rewrite Hx.
  - by rewrite Hy, IH.
Qed.

Lemma find_index_nat_none p l :
  Forall (fun y => p y = false) l -> find_index_nat p l = None.
Proof. induction 1 as [|y l Hy _ IH]; simpl; [done|by rewrite Hy, IH]. Qed.

Lemma findIndex_app_first pre x post p :
  Forall (fun y => p y = false) pre -> p x = true ->
  findIndex p (pre ++ x :: post) = Z.of_nat (length pre).
Proof.
  intros Hpre Hx. unfold findIndex. by rewrite find_index_nat_app_first.
Qed.

Lemma findIndex_none p l :
  Forall (fun y => p y = false) l -> findIndex p l = (-1)%Z.
Proof. intros H. unfold findIndex. by rewrite find_index_nat_none. Qed.

Lemma find_app_first pre x post p :
  Forall (fun y => p y = false) pre -> p x = true ->
  List.find p (pre ++ x :: post) = Some x.
Proof.
  induction 1 as [|y pre Hy _ IH]; intros Hx; simpl.
  - by rewrite Hx.
  - by rewrite Hy, IH.
Qed.

Lemma js_start_of_nat len i : i <= len -> js_start len (Z.of_nat i) = i.
Proof.
  intros Hi. unfold js_start.
  destruct (Z.ltb_spec (Z.of_nat i) 0); [lia|]. lia.
Qed.

Lemma js_start_minus_one len : 0 < len -> js_start len (-1) = pred len.
Proof. intros Hl. unfold js_start. simpl. lia. Qed.

Lemma splice_remove1_at pre x post :
  splice_remove1 (pre ++ x :: post) (Z.of_nat (length pre)) = (Some x, pre ++ post).
Proof.
  unfold splice_remove1. rewrite length_app, js_start_of_nat by (simpl; lia).
  rewrite lookup_app_r, Nat.sub_diag by lia.
  rewrite take_app_length.
  replace (S (length pre)) with (length (pre ++ [x])) by (rewrite length_app; simpl; lia).
  by rewrite (cons_middle x pre post), app_assoc, drop_app_length.
Qed.

Lemma splice_insert_at pre post x :
  splice_insert (pre ++ post) (Z.of_nat (length pre)) x = pre ++ x :: post.
Proof.
  unfold splice_insert. rewrite length_app, js_start_of_nat by lia.
  by rewrite take_app_length, drop_app_length.
Qed.

(** The "not found" index [-1] of [findIndex] makes [splice] act on the
    last element. *)
Lemma splice_remove1_minus_one pre y :
  splice_remove1 (pre ++ [y]) (-1) = (Some y, pre).
Proof.
  pose proof (splice_remove1_at pre y []) as H.
  unfold splice_remove1 in *. rewrite length_app, js_start_minus_one by (simpl; lia).
  rewrite app_nil_r, length_app, js_start_of_nat in H by (simpl; lia).
  simpl. rewrite Nat.add_1_r. exact H.
Qed.

Lemma splice_insert_minus_one pre y x :
  splice_insert (pre ++ [y]) (-1) x = pre ++ [x; y].
Proof.
  pose proof (splice_insert_at pre [y] x) as H.
  unfold splice_insert in *. rewrite length_app, js_start_minus_one by (simpl; lia).
  simpl. rewrite Nat.add_1_r. simpl. rewrite length_app in H. simpl in H.
  rewrite js_start_of_nat in H by lia. exact H.
Qed.

Lemma splice_remove1_length l s :
  length (snd (splice_remove1 l s)) = length l - (if bool_decide (js_start (length l) s < length l) then 1 else 0).
Proof.
  unfold splice_remove1. simpl. rewrite length_app, length_take, length_drop.
  case_bool_decide; lia.
Qed.

Lemma splice_insert_length l s x : length (splice_insert l s x) = S (length l).
Proof.
  unfold splice_insert. rewrite length_app. simpl. rewrite length_take, length_drop.
  unfold js_start. destruct (Z.ltb_spec s 0); lia.
Qed.
End JsArray.

(** ** Lists keyed by a unique field *)

Section Keyed.
Context {A B : Type} `{StrictEq B} (f : A -> B).
Implicit Types (l pre post : list A) (x : A) (k : B).

(** An element of a list whose keys are unique splits the list, and no
    other element carries its key. *)
Lemma split_at_key l x :
  NoDup (f <$> l) -> x ∈ l ->
  exists pre post, l = pre ++ x :: post /\
    Forall (fun z => f z <> f x) pre /\ Forall (fun z => f z <> f x) post.
Proof.
  intros Hnd Hx. apply list_elem_of_split in Hx as (pre & post & ->).
  exists pre, post. split; [done|].
  rewrite map_app in Hnd. simpl in Hnd.
  apply NoDup_app in Hnd as (_ & Hdis & Hnd). apply NoDup_cons in Hnd as [Hpost _].
  split; apply Forall_forall; intros z Hz Heq.
  - apply (Hdis (f x)); [|by left]. apply list_elem_of_fmap. eauto.
  - apply Hpost. apply list_elem_of_fmap. eauto.
Qed.

Lemma Forall_key_false k l :
  Forall (fun z => f z <> k) l -> Forall (fun z => (f z === k) = false) l.
Proof. intros Hl. eapply Forall_impl; [exact Hl|]. intros z. apply strict_eq_false. Qed.

Lemma findIndex_key pre x post :
  Forall (fun z => f z <> f x) pre ->
  findIndex (fun z => f z === f x) (pre ++ x :: post) = Z.of_nat (length pre).
Proof.
  intros Hpre. apply findIndex_app_first; [by apply Forall_key_false|].
  apply strict_eq_refl.
Qed.

Lemma find_key pre x post :
  Forall (fun z => f z <> f x) pre ->
  List.find (fun z => f z === f x) (pre ++ x :: post) = Some x.
Proof.
  intros Hpre. apply find_app_first; [by apply Forall_key_false|].
  apply strict_eq_refl.
Qed.

Lemma findIndex_key_none k l :
  Forall (fun z => f z <> k) l -> findIndex (fun z => f z === k) l = (-1)%Z.
Proof. intros Hl. by apply findIndex_none, Forall_key_false. Qed.

(** Keeping the elements whose key differs from [k]. *)
Lemma filter_key_all k l :
  Forall (fun z => f z <> k) l -> List.filter (fun z => f z !== k) l = l.
Proof.
  induction 1 as [|z l Hz _ IH]; simpl; [done|].
  apply strict_eq_false in Hz. by rewrite Hz, IH.
Qed.

Lemma NoDup_map_sublist l1 l2 :
  l1 `sublist_of` l2 -> NoDup (f <$> l2) -> NoDup (f <$> l1).
Proof.
  intros Hs Hnd. eapply sublist_NoDup; [exact Hnd|].
  change (f <$> l1 `sublist_of` f <$> l2). by apply fmap_sublist.
Qed.
End Keyed.

#[export] Hint Resolve Forall_key_false : dash.

(** ** ECMAScript string builtins used by the script *)

(** WhiteSpace and LineTerminator code units below 256: TAB, LF, VT, FF,
    CR, SPACE and NO-BREAK SPACE. *)
Definition js_whitespace (c : ascii) : bool :=
  let n := nat_of_ascii c in
  ((9 <=? n) && (n <=? 13)) || (n =? 32) || (n =? 160).

Fixpoint drop_whitespace (cs : list ascii) : list ascii :=
  match cs with
  | [] => []
  | c :: cs' => if js_whitespace c then drop_whitespace cs' else cs
  end.

(** [s.trim()]. *)
Definition js_trim (s : string) : string :=
  string_of_list_ascii
    (rev (drop_whitespace (rev (drop_whitespace (list_ascii_of_string s))))).

(** [s.startsWith(p)]. *)
Definition startsWith (s p : string) : bool := String.prefix p s.

(** [new Set(xs).has(x)] on strings. *)
Definition set_has (xs : list string) (x : string) : bool :=
  existsb (fun y => y === x) xs.

Lemma set_has_spec xs x : set_has xs x = true <-> x ∈ xs.
Proof.
  unfold set_has. rewrite existsb_exists, list_elem_of_In.
  split.
  - intros (y & Hy & Heq). apply strict_eq_spec in Heq. by subst.
  - intros Hx. exists x. split; [done|]. apply strict_eq_refl.
Qed.

(** ** [Array.prototype.filter] and updates at an index *)

Section FilterAlter.
Context {A B : Type}.
Implicit Types (l : list A) (p : A -> bool).

Lemma elem_of_js_filter p l x : x ∈ List.filter p l <-> x ∈ l /\ p x = true.
Proof. rewrite !list_elem_of_In. apply filter_In. Qed.

Lemma js_filter_sublist p l : List.filter p l `sublist_of` l.
Proof.
  induction l as [|x l IH]; simpl; [done|].
  destruct (p x); [by apply sublist_skip|by apply sublist_cons].
Qed.

Lemma js_filter_none p l : Forall (fun z => p z = false) l -> List.filter p l = [].
Proof. induction 1 as [|z l Hz _ IH]; simpl; [done|]. by rewrite Hz. Qed.

(** A filter that holds of exactly one element of a duplicate-free list
    keeps that element alone. *)
Lemma js_filter_unique p l x :
  NoDup l -> x ∈ l -> (forall y, p y = true <-> y = x) -> List.filter p l = [x].
Proof.
  intros Hnd Hx Hp. induction Hnd as [|y l Hy Hnd IH]; [by apply elem_of_nil in Hx|].
  simpl. apply elem_of_cons in Hx as [->|Hx].
  - rewrite (proj2 (Hp y) eq_refl). f_equal. apply js_filter_none, Forall_forall.
    intros z Hz. destruct (p z) eqn:E; [|done]. apply Hp in E. by subst.
  - destruct (p y) eqn:E; [apply Hp in E; by subst|]. by apply IH.
Qed.

(** A second filter implied by the first changes nothing; two filters
    commute. *)
Lemma js_filter_filter_implied p q l :
  (forall x, x ∈ l -> p x = true -> q x = true) -> List.filter p (List.filter q l) = List.filter p l.
Proof.
  induction l as [|x l IH]; intros Hpq; simpl; [done|].
  assert (IH' : List.filter p (List.filter q l) = List.filter p l)
    by (apply IH; intros y Hy; apply Hpq; by right).
  destruct (p x) eqn:Ep.
  - rewrite (Hpq x (list_elem_of_here _ _) Ep). simpl. by rewrite Ep, IH'.
  - destruct (q x); simpl; [rewrite Ep|]; done.
Qed.

Lemma js_filter_comm p q l : List.filter p (List.filter q l) = List.filter q (List.filter p l).
Proof.
  induction l as [|x l IH]; simpl; [done|].
  destruct (q x) eqn:Eq, (p x) eqn:Ep; simpl; rewrite ?Eq, ?Ep; by rewrite IH.
Qed.

(** The elements a filter keeps and the ones it drops add up to the
    list. *)
Lemma length_filter_negb p l :
  length (List.filter p l) = length l - length (List.filter (fun x => negb (p x)) l).
Proof.
  induction l as [|x l IH]; simpl; [done|].
  pose proof (List.filter_length_le (fun x => negb (p x)) l).
  pose proof (List.filter_length_le p l).
  destruct (p x); simpl; lia.
Qed.

(** Updating an element in a way that keeps its key keeps the keys. *)
Lemma map_alter_key (f : A -> B) (g : A -> A) i l :
  (forall x, f (g x) = f x) -> f <$> (alter g i l) = f <$> l.
Proof.
  intros Hg. revert i. induction l as [|x l IH]; intros [|i]; simpl; [done..| |].
  - by rewrite Hg.
  - f_equal. apply IH.
Qed.

Lemma map_insert_key (f : A -> B) i y l :
  l !! i = Some y -> forall y', f y' = f y -> f <$> (<[i:=y']> l) = f <$> l.
Proof.
  revert i. induction l as [|x l IH]; intros [|i] Hi y' Hy; simpl in *; try done.
  - injection Hi as ->. by rewrite Hy.
  - f_equal. exact (IH i Hi y' Hy).
Qed.

(** Filtering on a key commutes with taking the keys. *)
Lemma fmap_filter_key (f : A -> B) (q : B -> bool) l :
  f <$> List.filter (fun x => q (f x)) l = List.filter q (f <$> l).
Proof.
  induction l as [|x l IH]; [done|]. rewrite fmap_cons. cbn [List.filter].
  destruct (q (f x)); [rewrite fmap_cons|]; by rewrite IH.
Qed.

(** An update that leaves the element at its index as it is changes
    nothing. *)
Lemma alter_id_at (g : A -> A) i l x : l !! i = Some x -> g x = x -> alter g i l = l.
Proof.
  intros Hi Hg. apply list_eq. intros j. destruct (decide (i = j)) as [<-|Hne].
  - rewrite list_lookup_alter, decide_True, Hi by done. simpl. by rewrite Hg.
  - by rewrite list_lookup_alter_ne.
Qed.

Lemma elem_of_alter (g : A -> A) i l y :
  y ∈ alter g i l -> y ∈ l \/ exists x, x ∈ l /\ y = g x.
Proof.
  intros Hy. apply list_elem_of_lookup in Hy as [j Hj].
  destruct (decide (i = j)) as [->|Hne].
  - rewrite list_lookup_alter, decide_True in Hj by done.
    destruct (l !! j) as [x|] eqn:E; simplify_eq/=.
    right. exists x. split; [eapply list_elem_of_lookup_2; exact E|done].
  - rewrite list_lookup_alter_ne in Hj by done.
    left. eapply list_elem_of_lookup_2; exact Hj.
Qed.
(** Extensionality on the elements of the list only. *)
Lemma fmap_ext_in (f g : A -> B) l : (forall x, x ∈ l -> f x = g x) -> f <$> l = g <$> l.
Proof. intros Hfg. apply Forall_fmap_ext_1, Forall_forall. exact Hfg. Qed.

Lemma js_filter_ext_in p q l : (forall x, x ∈ l -> p x = q x) -> List.filter p l = List.filter q l.
Proof. intros Hpq. apply filter_ext_in. intros x Hx. apply Hpq, list_elem_of_In, Hx. Qed.

(** A filter on a property the map keeps commutes with the map. *)
Lemma js_filter_fmap_inv (g : A -> A) p l :
  (forall x, p (g x) = p x) -> List.filter p (g <$> l) = g <$> List.filter p l.
Proof.
  intros Hg. induction l as [|x l IH]; [done|]. rewrite fmap_cons. cbn [List.filter].
  rewrite Hg. destruct (p x); [rewrite fmap_cons|]; by rewrite IH.
Qed.

(** Updating the element at the only index where a test holds is
    mapping the update over the elements that pass the test. *)
Lemma alter_unique (g : A -> A) (t : A -> bool) i l x :
  l !! i = Some x -> t x = true -> (forall j y, l !! j = Some y -> t y = true -> j = i) ->
  alter g i l = (fun y => if t y then g y else y) <$> l.
Proof.
  intros Hi Ht Hu. apply list_eq. intros j. rewrite list_lookup_fmap.
  destruct (decide (j = i)) as [->|Hne].
  - rewrite list_lookup_alter, Hi. simpl. by rewrite decide_True, Ht.
  - rewrite list_lookup_alter_ne by done. destruct (l !! j) as [y|] eqn:E; [simpl|done].
    destruct (t y) eqn:Ty; [|done]. by destruct (Hne (Hu j y E Ty)).
Qed.

(** Mapping an update guarded by a test no element passes is the
    identity. *)
Lemma fmap_guard_none (g : A -> A) (t : A -> bool) l :
  (forall y, y ∈ l -> t y = false) -> (fun y => if t y then g y else y) <$> l = l.
Proof.
  intros Hn. rewrite <- (list_fmap_id l) at 2. apply Forall_fmap_ext_1, Forall_forall.
  intros y Hy. by rewrite Hn.
Qed.

End FilterAlter.

Lemma elem_of_set_has_map {A} (f : A -> string) xs x :
  set_has (f <$> xs) x = true <-> exists y, y ∈ xs /\ f y = x.
Proof.
  rewrite set_has_spec, list_elem_of_In, in_map_iff.
  split; intros (y & ? & ?); exists y; rewrite ?list_elem_of_In in *; tauto.
Qed.

Section FindIndexFound.
Context {A : Type}.

Lemma find_index_nat_Some (p : A -> bool) l i :
  find_index_nat p l = Some i -> exists x, l !! i = Some x /\ p x = true.
Proof.
  revert i. induction l as [|y l IH]; intros i; simpl; [done|].
  destruct (p y) eqn:Hy.
  - intros [= <-]. eauto.
  - destruct (find_index_nat p l) as [j|] eqn:E; simpl; [|done].
    intros [= <-]. by apply IH.
Qed.

(** When [findIndex] does not answer [-1], it points at an element
    satisfying the predicate. *)
Lemma findIndex_found (p : A -> bool) l :
  findIndex p l <> (-1)%Z ->
  exists x, l !! Z.to_nat (findIndex p l) = Some x /\ p x = true.
Proof.
  unfold findIndex. destruct (find_index_nat p l) as [i|] eqn:E; [|done].
  intros _. rewrite Nat2Z.id. by apply find_index_nat_Some.
Qed.
End FindIndexFound.

Section InsertPush.
Context {A B : Type}.

Lemma elem_of_insert_inv (l : list A) i x y :
  y ∈ <[i:=x]> l -> y = x \/ y ∈ l.
Proof.
  intros Hy. apply list_elem_of_lookup in Hy as [j Hj].
  apply list_lookup_insert_Some in Hj as [(_ & -> & _)|(_ & Hj)]; [by left|].
  right. eapply list_elem_of_lookup_2. exact Hj.
Qed.

(** Appending an element with a fresh key keeps the keys unique. *)
Lemma NoDup_push_key (f : A -> B) (l : list A) x :
  NoDup (f <$> l) -> f x ∉ f <$> l -> NoDup (f <$> push l x).
Proof.
  intros Hnd Hx. unfold push. rewrite fmap_app. simpl.
  apply NoDup_app. split_and!; [done| |by apply NoDup_singleton].
  intros y Hy ->%list_elem_of_singleton. done.
Qed.

Lemma elem_of_push (l : list A) x y : y ∈ push l x <-> y ∈ l \/ y = x.
Proof. unfold push. rewrite elem_of_app, list_elem_of_singleton. done. Qed.
End InsertPush.

Section FindIndexUnique.
Context {A B : Type} `{StrictEq B} (f : A -> B).

(** With unique keys, [findIndex] on a key finds the index of the
    element carrying it. *)
Lemma findIndex_unique (l : list A) i x :
  NoDup (f <$> l) -> l !! i = Some x ->
  findIndex (fun z => f z === f x) l = Z.of_nat i.
Proof.
  unfold findIndex. intros Hnd Hi.
  enough (find_index_nat (fun z => f z === f x) l = Some i) as -> by done.
  revert i Hi. induction l as [|y l IH]; intros [|i] Hi; simpl in *; try done.
  - injection Hi as ->. by rewrite strict_eq_refl.
  - apply NoDup_cons in Hnd as [Hy Hnd].
    assert (f y <> f x) as Hne.
    { intros Heq. apply Hy. rewrite Heq. apply list_elem_of_fmap_2.
      by eapply list_elem_of_lookup_2. }
    apply strict_eq_false in Hne. rewrite Hne, (IH Hnd i Hi). done.
Qed.

Lemma findIndex_absent (l : list A) k :
  k ∉ f <$> l -> findIndex (fun z => f z === k) l = (-1)%Z.
Proof.
  intros Hk. apply findIndex_key_none, Forall_forall.
  intros z Hz <-. apply Hk. by apply list_elem_of_fmap_2.
Qed.
(** The "findIndex, then update if found" pattern of the submit
    handlers, with unique keys: the update applies to the element with
    the key, wherever it is, and to nothing when no element has it. *)
Lemma edit_by_key (g : A -> A) (l : list A) k :
  NoDup (f <$> l) ->
  (if negb (findIndex (fun z => f z === k) l =? -1)%Z
   then alter g (Z.to_nat (findIndex (fun z => f z === k) l)) l else l) =
  (fun y => if f y === k then g y else y) <$> l.
Proof.
  intros Hnd. destruct (existsb (fun y => f y === k) l) eqn:E.
  - apply existsb_exists in E as (x & Hx & Hk). strict_simpl. subst k.
    apply list_elem_of_In, list_elem_of_lookup_1 in Hx as [i Hi].
    rewrite (findIndex_unique l i x Hnd Hi), (proj2 (Z.eqb_neq _ _)) by lia.
    cbn [negb]. rewrite Nat2Z.id.
    apply (alter_unique g _ i l x Hi); [apply strict_eq_refl|]. intros j y Hj Hy. strict_simpl.
    apply (NoDup_lookup _ j i (f x) Hnd); rewrite list_lookup_fmap; [rewrite Hj|rewrite Hi]; simpl; congruence.
  - assert (Hn : forall y, y ∈ l -> (f y === k) = false).
    { intros y Hy. destruct (f y === k) eqn:Ey; [|done]. rewrite <- E. symmetry.
      apply existsb_exists. exists y. by rewrite <- list_elem_of_In. }
    rewrite findIndex_key_none.
    + cbn [negb Z.eqb Z.opp]. symmetry. by apply fmap_guard_none.
    + apply Forall_forall. intros y Hy. apply strict_eq_false, Hn, Hy.
Qed.
End FindIndexUnique.

(** ** Lemmas on [trim] *)

Definition ws_head (cs : list ascii) : bool :=
  match cs with [] => false | c :: _ => js_whitespace c end.

(** A list of characters is trimmed when it neither starts nor ends with
    whitespace. *)
Definition trimmed (cs : list ascii) : Prop := ws_head cs = false /\ ws_head (rev cs) = false.

Lemma drop_whitespace_id cs : ws_head cs = false -> drop_whitespace cs = cs.
Proof. destruct cs as [|c cs]; simpl; [done|]. by intros ->. Qed.

Lemma ws_head_drop_whitespace cs : ws_head (drop_whitespace cs) = false.
Proof.
  induction cs as [|c cs IH]; simpl; [done|].
  destruct (js_whitespace c) eqn:E; [done|]. simpl. done.
Qed.

Lemma drop_whitespace_suffix cs : exists pre, cs = pre ++ drop_whitespace cs.
Proof.
  induction cs as [|c cs [pre IH]]; simpl; [by exists []|].
  destruct (js_whitespace c); [exists (c :: pre); simpl; by f_equal|by exists []].
Qed.

Lemma ws_head_app cs1 cs2 : cs1 <> [] -> ws_head (cs1 ++ cs2) = ws_head cs1.
Proof. by destruct cs1. Qed.

Lemma trimmed_js_trim s : trimmed (list_ascii_of_string (js_trim s)).
Proof.
  unfold js_trim. rewrite list_ascii_of_string_of_list_ascii.
  set (r0 := drop_whitespace (list_ascii_of_string s)).
  set (r1 := drop_whitespace (rev r0)).
  split; [|rewrite rev_involutive; apply ws_head_drop_whitespace].
  destruct (drop_whitespace_suffix (rev r0)) as [x Hx]. fold r1 in Hx.
  destruct r1 as [|c r1'] eqn:E; [done|].
  assert (r0 = rev (c :: r1') ++ rev x) as Hr0.
  { rewrite <- rev_app_distr, <- Hx. by rewrite rev_involutive. }
  rewrite <- (ws_head_app _ (rev x)) by (simpl; destruct (rev r1'); discriminate).
  rewrite <- Hr0. apply ws_head_drop_whitespace.
Qed.

Lemma js_trim_trimmed cs :
  trimmed cs -> js_trim (string_of_list_ascii cs) = string_of_list_ascii cs.
Proof.
  intros [H1 H2]. unfold js_trim. rewrite list_ascii_of_string_of_list_ascii.
  rewrite (drop_whitespace_id cs H1), (drop_whitespace_id _ H2). by rewrite rev_involutive.
Qed.

(** [trim] is idempotent. *)
Lemma js_trim_idem s : js_trim (js_trim s) = js_trim s.
Proof.
  rewrite <- (string_of_list_ascii_of_string (js_trim s)) at 1 2.
  apply js_trim_trimmed, trimmed_js_trim.
Qed.

Lemma trimmed_app cs1 cs2 : cs1 <> [] -> trimmed cs1 -> trimmed cs2 -> trimmed (cs1 ++ cs2).
Proof.
  intros Hne [H1 H1'] [H2 H2']. split; [by rewrite ws_head_app|].
  rewrite rev_app_distr. destruct (rev cs2) as [|c cs] eqn:E; simpl; [done|].
  done.
Qed.

Lemma list_ascii_of_string_app s1 s2 :
  list_ascii_of_string (s1 ++ s2) = list_ascii_of_string s1 ++ list_ascii_of_string s2.
Proof. induction s1 as [|c s1 IH]; simpl; [done|]. by rewrite IH. Qed.

(** ** [splice] moves elements: permutation and sublist facts *)

Section SplicePerm.
Context {A : Type}.
Implicit Types (l : list A) (x r : A).

Lemma splice_remove1_perm l s r l1 :
  splice_remove1 l s = (Some r, l1) -> l ≡ₚ r :: l1.
Proof.
  unfold splice_remove1. intros [= Hr <-].
  rewrite <- (take_drop_middle l _ r Hr) at 1. by rewrite Permutation_middle.
Qed.

Lemma splice_remove1_none l s l1 :
  splice_remove1 l s = (None, l1) -> l1 = l.
Proof.
  unfold splice_remove1. intros [= Hr <-]. apply lookup_ge_None in Hr.
  rewrite take_ge, drop_ge by lia. apply app_nil_r.
Qed.

Lemma splice_remove1_sublist l s : snd (splice_remove1 l s) `sublist_of` l.
Proof.
  destruct (splice_remove1 l s) as [[r|] l1] eqn:E; simpl.
  - unfold splice_remove1 in E. injection E as Hr <-.
    transitivity (take (js_start (length l) s) l ++ r :: drop (S (js_start (length l) s)) l).
    + apply sublist_app; [done|by apply sublist_cons].
    + by rewrite (take_drop_middle l _ r Hr).
  - by rewrite (splice_remove1_none _ _ _ E).
Qed.

Lemma splice_insert_perm l s x : splice_insert l s x ≡ₚ x :: l.
Proof.
  unfold splice_insert. rewrite <- Permutation_middle.
  by rewrite take_drop.
Qed.

Lemma push_perm l x : push l x ≡ₚ x :: l.
Proof. unfold push. by rewrite Permutation_app_comm. Qed.
End SplicePerm.

(** Keys at the two sides of an element of a list with unique keys. *)
Lemma NoDup_key_middle {A B} (f : A -> B) pre x post :
  NoDup (f <$> pre ++ x :: post) ->
  Forall (fun z => f z <> f x) pre /\ Forall (fun z => f z <> f x) post.
Proof.
  rewrite fmap_app. simpl. intros Hnd.
  apply NoDup_app in Hnd as (_ & Hdis & Hnd). apply NoDup_cons in Hnd as [Hpost _].
  split; apply Forall_forall; intros z Hz Heq.
  - apply (Hdis (f x)); [|by left]. apply list_elem_of_fmap. eauto.
  - apply Hpost. apply list_elem_of_fmap. eauto.
Qed.

(** Prove a decidable proposition about concrete data by evaluation. *)
Ltac decide_true := apply (bool_decide_unpack _); vm_compute; first [exact I | reflexivity].
