(* ===== verification/Model.v ===== *)
(** The data model of src/Dashboard/script.js: the three record shapes
    the script stores in its arrays, the theme, the in-memory state (the
    module-level [let] bindings of lines 2-12), the storage writes a
    handler performs, and the well-formedness invariant of the data model
    (unique ids, referential integrity, an existing current panel). *)

From S2P Require Import Prelude.

(** [{ id, name }] (line 49, 60, 553). *)
Record Panel := mkPanel {
  panel_id : string;
  panel_name : string
}.

(** [{ id, name, panelId }] (lines 63, 532).  [panelId] is nullable: it is
    [currentPanelId] at creation and may be absent in legacy data. *)
Record Category := mkCategory {
  cat_id : string;
  cat_name : string;
  panelId : option string
}.

(** [{ id, name, description, url, categoryId }] (lines 509, 512). *)
Record Link := mkLink {
  link_id : string;
  link_name : string;
  description : string;
  url : string;
  categoryId : string
}.

(** The values of [currentTheme] (lines 12, 245): ['light'], ['dark'], or
    any other non-empty string found under [dashboard_theme], which line
    12 keeps as it is (it displays as light, line 670). *)
Inductive Theme := light | dark | custom (s : string).

(** The module-level state of the script (lines 2-5 and 12). *)
Record Dashboard := mkDashboard {
  panels : list Panel;
  categories : list Category;
  links : list Link;
  currentPanelId : option string;
  currentTheme : Theme
}.

#[export] Instance Panel_eq_dec : EqDecision Panel.
Proof. solve_decision. Defined.
#[export] Instance Category_eq_dec : EqDecision Category.
Proof. solve_decision. Defined.
#[export] Instance Link_eq_dec : EqDecision Link.
Proof. solve_decision. Defined.
#[export] Instance Theme_eq_dec : EqDecision Theme.
Proof. solve_decision. Defined.

(** Writes to [localStorage] a handler performs, in program order:
    [saveData()] (lines 648-652, the three collections) and the single
    [setItem] calls for the current panel and the theme. *)
Inductive StorageWrite :=
  | WSaveData
  | WSetCurrentPanel (v : string)
  | WSetTheme (t : Theme).

(** ** Updating one field of the state *)

Definition set_panels (d : Dashboard) (ps : list Panel) : Dashboard :=
  mkDashboard ps (categories d) (links d) (currentPanelId d) (currentTheme d).
Definition set_categories (d : Dashboard) (cs : list Category) : Dashboard :=
  mkDashboard (panels d) cs (links d) (currentPanelId d) (currentTheme d).
Definition set_links (d : Dashboard) (ls : list Link) : Dashboard :=
  mkDashboard (panels d) (categories d) ls (currentPanelId d) (currentTheme d).
Definition set_current (d : Dashboard) (cur : option string) : Dashboard :=
  mkDashboard (panels d) (categories d) (links d) cur (currentTheme d).
Definition set_theme (d : Dashboard) (t : Theme) : Dashboard :=
  mkDashboard (panels d) (categories d) (links d) (currentPanelId d) t.

Definition rename_panel (name : string) (p : Panel) : Panel :=
  mkPanel (panel_id p) name.
Definition rename_category (name : string) (c : Category) : Category :=
  mkCategory (cat_id c) name (panelId c).
Definition move_link (cid : string) (l : Link) : Link :=
  mkLink (link_id l) (link_name l) (description l) (url l) cid.

(** ** Views the script computes by filtering *)

Definition panel_ids (d : Dashboard) : list string := panel_id <$> (panels d).
Definition cat_ids (d : Dashboard) : list string := cat_id <$> (categories d).
Definition link_ids (d : Dashboard) : list string := link_id <$> (links d).

(** [categories.filter(c => c.panelId === currentPanelId)] (lines 133,
    252, 587, 634): the categories shown under the current tab, in
    order. *)
Definition panelCategories (d : Dashboard) : list Category :=
  List.filter (fun c => panelId c === currentPanelId d) (categories d).

(** [links.filter(link => link.categoryId === category.id)] (line 146):
    the links shown in a category, in order. *)
Definition catLinks (ls : list Link) (cid : string) : list Link :=
  List.filter (fun l => categoryId l === cid) ls.

(** ** Well-formedness of the data model *)

Definition ids_unique (d : Dashboard) : Prop :=
  NoDup (panel_ids d) /\ NoDup (cat_ids d) /\ NoDup (link_ids d).

(** A category belongs to an existing panel; a link to an existing
    category. *)
Definition cat_ref_ok (ps : list Panel) (c : Category) : Prop :=
  panelId c ∈ (fun p => Some (panel_id p)) <$> ps.
Definition link_ref_ok (cs : list Category) (l : Link) : Prop :=
  categoryId l ∈ cat_id <$> cs.

Definition refs_ok (d : Dashboard) : Prop :=
  Forall (cat_ref_ok (panels d)) (categories d) /\
  Forall (link_ref_ok (categories d)) (links d).

(** The current panel exists, and is [null] only when there is none. *)
Definition current_ok (d : Dashboard) : Prop :=
  match currentPanelId d with
  | None => panels d = []
  | Some id => id ∈ panel_ids d
  end.

Definition wf (d : Dashboard) : Prop := ids_unique d /\ refs_ok d /\ current_ok d.

#[export] Instance cat_ref_ok_dec ps c : Decision (cat_ref_ok ps c).
Proof. unfold cat_ref_ok. apply _. Defined.
#[export] Instance link_ref_ok_dec cs l : Decision (link_ref_ok cs l).
Proof. unfold link_ref_ok. apply _. Defined.
#[export] Instance current_ok_dec d : Decision (current_ok d).
Proof. unfold current_ok. destruct (currentPanelId d); apply _. Defined.
#[export] Instance wf_dec d : Decision (wf d).
Proof. unfold wf, ids_unique, refs_ok. apply _. Defined.

(** Split the invariant into its four parts: unique ids, category
    references, link references, current panel. *)
Ltac split_wf := refine (conj _ (conj (conj _ _) _)).

Lemma cat_ref_ok_app ps ps' c : cat_ref_ok ps c -> cat_ref_ok (ps ++ ps') c.
Proof. unfold cat_ref_ok. rewrite fmap_app, elem_of_app. by left. Qed.

Lemma link_ref_ok_app cs cs' l : link_ref_ok cs l -> link_ref_ok (cs ++ cs') l.
Proof. unfold link_ref_ok. rewrite fmap_app, elem_of_app. by left. Qed.

#[export] Hint Resolve cat_ref_ok_app link_ref_ok_app : dash.

(** Reduce field accesses of updated states without unfolding [===]. *)
Ltac simpl_dash :=
  cbn [fst snd panels categories links currentPanelId currentTheme
       set_panels set_categories set_links set_current set_theme] in *.

(** ** The invariant only depends on the ids and the references *)

Lemma cat_ref_ok_keys ps ps' c :
  panel_id <$> ps = panel_id <$> ps' -> cat_ref_ok ps c -> cat_ref_ok ps' c.
Proof.
  intros Heq. unfold cat_ref_ok.
  rewrite !(list_fmap_compose panel_id Some), Heq. done.
Qed.

Lemma wf_set_panels d ps :
  panel_id <$> ps = panel_id <$> panels d -> wf d -> wf (set_panels d ps).
Proof.
  intros Heq (Hu & [Hrc Hrl] & Hcur). split_wf.
  - unfold ids_unique, panel_ids in *. simpl_dash. by rewrite Heq.
  - simpl_dash. eapply Forall_impl; [exact Hrc|]. intros c. by apply cat_ref_ok_keys.
  - done.
  - unfold current_ok, panel_ids in *. simpl_dash. rewrite Heq.
    destruct (currentPanelId d); [done|]. rewrite Hcur in Heq. by apply fmap_nil_inv in Heq.
Qed.

Lemma wf_set_categories d cs :
  cat_id <$> cs = cat_id <$> categories d -> Forall (cat_ref_ok (panels d)) cs ->
  wf d -> wf (set_categories d cs).
Proof.
  intros Heq Hcs (Hu & [Hrc Hrl] & Hcur). split_wf; try done.
  - unfold ids_unique, cat_ids in *. simpl_dash. by rewrite Heq.
  - simpl_dash. unfold link_ref_ok. by rewrite Heq.
Qed.

Lemma wf_set_links d ls :
  NoDup (link_id <$> ls) -> Forall (link_ref_ok (categories d)) ls ->
  wf d -> wf (set_links d ls).
Proof.
  intros Hnd Hls (Hu & [Hrc Hrl] & Hcur). split_wf; try done.
  unfold ids_unique in *. tauto.
Qed.

(** Reordering the categories or the links keeps the invariant. *)
Lemma wf_set_categories_perm d cs : cs ≡ₚ categories d -> wf d -> wf (set_categories d cs).
Proof.
  intros Hp (Hu & [Hrc Hrl] & Hcur). split_wf; try done.
  - unfold ids_unique, panel_ids, cat_ids, link_ids in *. simpl_dash. by rewrite Hp.
  - simpl_dash. by rewrite Hp.
  - simpl_dash. eapply Forall_impl; [exact Hrl|]. intros l. unfold link_ref_ok. by rewrite Hp.
Qed.

Lemma wf_links_sublist d ls : ls `sublist_of` links d -> wf d -> wf (set_links d ls).
Proof.
  intros Hs Hwf. apply wf_set_links; [| |done].
  - eapply NoDup_map_sublist; [exact Hs|apply Hwf].
  - destruct Hwf as (_ & [_ Hrl] & _). apply Forall_forall. intros l Hl.
    eapply Forall_forall in Hrl; [exact Hrl|]. by eapply elem_of_sublist.
Qed.

(** Taking one link out and putting it back anywhere, possibly under
    another existing category, keeps the invariant. *)
Lemma wf_links_moved d r ls1 c ls :
  wf d -> links d ≡ₚ r :: ls1 -> ls ≡ₚ move_link c r :: ls1 -> c ∈ cat_ids d ->
  wf (set_links d ls).
Proof.
  intros Hwf Hd Hls Hc. apply wf_set_links; [| |done].
  - rewrite Hls. destruct Hwf as ((_ & _ & Hul) & _). unfold link_ids in Hul.
    rewrite Hd in Hul. exact Hul.
  - rewrite Hls. destruct Hwf as (_ & [_ Hrl] & _). rewrite Hd in Hrl.
    apply Forall_cons in Hrl as [_ Hrl]. by constructor.
Qed.

Lemma move_link_same l : move_link (categoryId l) l = l.
Proof. by destruct l. Qed.

(** A small well-formed dashboard used by the examples: two panels, a
    category under each, three links. *)
Definition sample : Dashboard :=
  mkDashboard [mkPanel "w" "Work"; mkPanel "h" "Home"]
              [mkCategory "c1" "Projects" (Some "w"); mkCategory "c2" "Favorites" (Some "h")]
              [mkLink "l1" "Docs" "" "https://docs.example" "c1";
               mkLink "l2" "Board" "" "https://board.example" "c1";
               mkLink "l3" "News" "" "https://news.example" "c2"]
              (Some "w") light.
