(* ===== verification/Repository.v ===== *)
(** The repository of src/Dashboard/script.js: every handler that
    creates, edits or deletes a panel, a category or a link, selects the
    current panel or toggles the theme, as a function from the state to the
    new state and the list of [localStorage] writes it performs, in
    program order.  Form fields are the handlers' inputs (the values of the
    [<input>] elements the modal filled in); [generateId()] is the input
    [newId]; the answer of [confirm(...)] is the input [confirmed]. *)

From stdpp Require Import pretty.
From S2P Require Import Prelude Model.

(** The submitted fields of the three modal forms. *)
Record PanelForm := mkPanelForm {
  panel_form_name : string;   (** #panel-name *)
  panel_form_id : string      (** #panel-id, [""] when adding *)
}.

Record CategoryForm := mkCategoryForm {
  category_form_name : string;  (** #category-name *)
  category_form_id : string     (** #category-id *)
}.

Record LinkForm := mkLinkForm {
  link_form_url : string;          (** #link-url *)
  link_form_name : string;         (** #link-name *)
  link_form_description : string;  (** #link-description *)
  link_form_category : string;     (** #link-category (a select) *)
  link_form_id : string            (** #link-id *)
}.

(** Line 245: [currentTheme === 'light' ? 'dark' : 'light']. *)
Definition toggle (t : Theme) : Theme :=
  match t with light => dark | _ => light end.

(** Lines 107-113: a click on a panel tab makes it current and persists
    the choice. *)
Definition selectPanel (d : Dashboard) (id : string) : Dashboard * list StorageWrite :=
  (set_current d (Some id), [WSetCurrentPanel id]).

(** Lines 244-248: the theme toggle. *)
Definition toggleTheme (d : Dashboard) : Dashboard * list StorageWrite :=
  let t := toggle (currentTheme d) in
  (set_theme d t, [WSetTheme t]).

(** Lines 496-499: a URL without an [http://] or [https://] prefix is
    given [https://]. *)
Definition normalizeUrl (raw : string) : string :=
  let u := js_trim raw in
  if negb (startsWith u "http://") && negb (startsWith u "https://")
  then "https://" ++ u else u.

(** Lines 540-562: [handlePanelSubmit]. *)
Definition handlePanelSubmit (d : Dashboard) (f : PanelForm) (newPanelId : string)
    : Dashboard * list StorageWrite :=
  let name := js_trim (panel_form_name f) in
  let id := panel_form_id f in
  if truthy id then
    let index := findIndex (fun p => panel_id p === id) (panels d) in
    let ps := if negb (index =? -1)%Z
              then alter (rename_panel name) (Z.to_nat index) (panels d)
              else panels d in
    (set_panels d ps, [WSaveData])
  else
    (set_current (set_panels d (push (panels d) (mkPanel newPanelId name))) (Some newPanelId),
     [WSetCurrentPanel newPanelId; WSaveData]).

(** Lines 520-538: [handleCategorySubmit]; a new category goes to the
    current panel. *)
Definition handleCategorySubmit (d : Dashboard) (f : CategoryForm) (newId : string)
    : Dashboard * list StorageWrite :=
  let name := js_trim (category_form_name f) in
  let id := category_form_id f in
  if truthy id then
    let index := findIndex (fun c => cat_id c === id) (categories d) in
    let cs := if negb (index =? -1)%Z
              then alter (rename_category name) (Z.to_nat index) (categories d)
              else categories d in
    (set_categories d cs, [WSaveData])
  else
    (set_categories d (push (categories d) (mkCategory newId name (currentPanelId d))),
     [WSaveData]).

(** Lines 493-518: [handleLinkSubmit]; an edit replaces the whole record
    at its index. *)
Definition handleLinkSubmit (d : Dashboard) (f : LinkForm) (newId : string)
    : Dashboard * list StorageWrite :=
  let u := normalizeUrl (link_form_url f) in
  let name := js_trim (link_form_name f) in
  let desc := js_trim (link_form_description f) in
  let cid := link_form_category f in
  let id := link_form_id f in
  if truthy id then
    let index := findIndex (fun l => link_id l === id) (links d) in
    let ls := if negb (index =? -1)%Z
              then <[Z.to_nat index := mkLink id name desc u cid]> (links d)
              else links d in
    (set_links d ls, [WSaveData])
  else
    (set_links d (push (links d) (mkLink newId name desc u cid)), [WSaveData]).

(** Lines 319-329: deleting a panel once confirmed.  Categories of the
    panel go, then every link whose category is not among the remaining
    ones; a deleted current panel is replaced by the first remaining one. *)
Definition deletePanel (d : Dashboard) (id : string) (confirmed : bool)
    : Dashboard * list StorageWrite :=
  if confirmed then
    let ps := List.filter (fun p => panel_id p !== id) (panels d) in
    let cs := List.filter (fun c => panelId c !== Some id) (categories d) in
    let remainingCatIds := cat_id <$> cs in
    let ls := List.filter (fun l => set_has remainingCatIds (categoryId l)) (links d) in
    let d1 := mkDashboard ps cs ls (currentPanelId d) (currentTheme d) in
    if currentPanelId d === Some id then
      let cur := match ps with p :: _ => Some (panel_id p) | [] => None end in
      (set_current d1 cur, [WSetCurrentPanel (default "" cur); WSaveData])
    else (d1, [WSaveData])
  else (d, []).

(** Lines 370-375: deleting a category once confirmed, with its links. *)
Definition deleteCategory (d : Dashboard) (id : string) (confirmed : bool)
    : Dashboard * list StorageWrite :=
  if confirmed then
    (set_links (set_categories d (List.filter (fun c => cat_id c !== id) (categories d)))
               (List.filter (fun l => categoryId l !== id) (links d)),
     [WSaveData])
  else (d, []).

(** Lines 352-356: deleting a link once confirmed. *)
Definition deleteLink (d : Dashboard) (id : string) (confirmed : bool)
    : Dashboard * list StorageWrite :=
  if confirmed then
    (set_links d (List.filter (fun l => link_id l !== id) (links d)), [WSaveData])
  else (d, []).

(** ** The confirmation texts of the cascading deletes *)

(** [${n}] in a template literal, for an array length: its decimal
    digits. *)
Definition js_count (n : nat) : string := pretty n.

Definition newline : string := String (ascii_of_nat 10) EmptyString.

(** [msg += `\nIt contains ${count}...`] when [count > 0] (lines 315-318
    and 365-368). *)
Definition cascade_message (question : string) (count : nat) (what : string) : string :=
  if (0 <? count)%nat then question ++ newline ++ "It contains " ++ js_count count ++ what
  else question.

(** Lines 314-318: the text of the panel delete's [confirm]. *)
Definition deletePanelMessage (d : Dashboard) (id : string) : string :=
  let panelCats := List.filter (fun c => panelId c === Some id) (categories d) in
  cascade_message "Are you sure you want to delete this panel?" (length panelCats)
                  " category(ies) which will also be deleted.".

(** Lines 364-368: the text of the category delete's [confirm]. *)
Definition deleteCategoryMessage (d : Dashboard) (id : string) : string :=
  let catLinks := List.filter (fun l => categoryId l === id) (links d) in
  cascade_message "Are you sure you want to delete this category?" (length catLinks)
                  " link(s) which will also be deleted.".

(** ** The edit forms as [openModal] fills them *)

(** Lines 576-582: [openModal('link', link)]. *)
Definition linkFormOf (l : Link) : LinkForm :=
  mkLinkForm (url l) (link_name l) (description l) (categoryId l) (link_id l).

(** Lines 598-601: [openModal('category', category)]. *)
Definition categoryFormOf (c : Category) : CategoryForm :=
  mkCategoryForm (cat_name c) (cat_id c).

(** Lines 612-615: [openModal('panel', panel)]. *)
Definition panelFormOf (p : Panel) : PanelForm :=
  mkPanelForm (panel_name p) (panel_id p).

(** The fields as the submit handlers store them: names and description
    trimmed, the URL coerced. *)
Definition link_canonical (l : Link) : Prop :=
  js_trim (link_name l) = link_name l /\ js_trim (description l) = description l /\
  normalizeUrl (url l) = url l.

(** ** Deleting a panel *)

Section DeletePanel.
Variables (d : Dashboard) (id : string).

(** The collections after the delete do not depend on whether the
    deleted panel was the current one. *)
Lemma deletePanel_panels :
  panels (fst (deletePanel d id true)) = List.filter (fun p => panel_id p !== id) (panels d).
Proof. unfold deletePanel. by case_match. Qed.

Lemma deletePanel_categories :
  categories (fst (deletePanel d id true)) =
  List.filter (fun c => panelId c !== Some id) (categories d).
Proof. unfold deletePanel. by case_match. Qed.

Lemma deletePanel_links :
  links (fst (deletePanel d id true)) =
  List.filter (fun l => set_has (cat_id <$> List.filter (fun c => panelId c !== Some id)
                                                       (categories d))
                                (categoryId l)) (links d).
Proof. unfold deletePanel. by case_match. Qed.

Lemma deletePanel_sublists :
  panels (fst (deletePanel d id true)) `sublist_of` panels d /\
  categories (fst (deletePanel d id true)) `sublist_of` categories d /\
  links (fst (deletePanel d id true)) `sublist_of` links d.
Proof.
  rewrite deletePanel_panels, deletePanel_categories, deletePanel_links.
  split_and!; apply js_filter_sublist.
Qed.

Lemma elem_of_deletePanel_categories c :
  c ∈ categories (fst (deletePanel d id true)) <-> c ∈ categories d /\ panelId c <> Some id.
Proof.
  rewrite deletePanel_categories, elem_of_js_filter, negb_true_iff, strict_eq_false.
  done.
Qed.

Lemma elem_of_deletePanel_links l :
  l ∈ links (fst (deletePanel d id true)) <->
  l ∈ links d /\ link_ref_ok (categories (fst (deletePanel d id true))) l.
Proof.
  rewrite deletePanel_links, elem_of_js_filter, set_has_spec.
  unfold link_ref_ok. by rewrite deletePanel_categories.
Qed.
End DeletePanel.

(** C3: The panel delete cascades.  Once a panel is deleted, no panel has
    its id, no category belongs to it, and every remaining link belongs to
    a remaining category: the links of the deleted panel's categories are
    gone, whatever state the delete started from. *)
Theorem deletePanel_cascade d id :
  let d' := fst (deletePanel d id true) in
  (id ∉ panel_ids d') /\
  Forall (fun c => panelId c <> Some id) (categories d') /\
  Forall (link_ref_ok (categories d')) (links d').
Proof.
  cbv zeta. split_and!.
  - unfold panel_ids. rewrite deletePanel_panels, list_elem_of_fmap.
    intros (p & -> & Hp). apply elem_of_js_filter in Hp as [_ Hp].
    by rewrite strict_eq_refl in Hp.
  - apply Forall_forall. intros c Hc. apply elem_of_deletePanel_categories in Hc. tauto.
  - apply Forall_forall. intros l Hl. apply elem_of_deletePanel_links in Hl. tauto.
Qed.

(** C30: The panel delete removes exactly the links that have no category
    outside the deleted panel: a link survives if and only if some
    category of another panel carries its [categoryId].  In particular a
    link whose category is missing altogether is removed by the delete of
    any panel. *)
Theorem deletePanel_links_kept d id l :
  l ∈ links d ->
  (l ∈ links (fst (deletePanel d id true)) <->
   exists c, c ∈ categories d /\ cat_id c = categoryId l /\ panelId c <> Some id).
Proof.
  intros Hl. rewrite elem_of_deletePanel_links. unfold link_ref_ok.
  rewrite list_elem_of_fmap. setoid_rewrite elem_of_deletePanel_categories.
  split.
  - intros [_ (c & Heq & Hc & Hp)]. eauto.
  - intros (c & Hc & Heq & Hp). eauto.
Qed.

Lemma deletePanel_current d id :
  currentPanelId (fst (deletePanel d id true)) =
  if currentPanelId d === Some id
  then head (panel_ids (fst (deletePanel d id true)))
  else currentPanelId d.
Proof.
  unfold deletePanel, panel_ids. case_match; simpl; [|done].
  by destruct (List.filter _ _).
Qed.

Lemma ids_unique_sublists d d' :
  panels d' `sublist_of` panels d -> categories d' `sublist_of` categories d ->
  links d' `sublist_of` links d -> ids_unique d -> ids_unique d'.
Proof.
  intros Hp Hc Hl (Hup & Huc & Hul). unfold ids_unique, panel_ids, cat_ids, link_ids.
  split_and!; by eapply NoDup_map_sublist.
Qed.

(** A category of a panel other than [id] still has its panel once [id]
    is filtered out. *)
Lemma cat_ref_ok_filter ps c id :
  cat_ref_ok ps c -> panelId c <> Some id ->
  cat_ref_ok (List.filter (fun p => panel_id p !== id) ps) c.
Proof.
  unfold cat_ref_ok. rewrite !list_elem_of_fmap. intros (p & Heq & Hp) Hne.
  exists p. split; [done|]. apply elem_of_js_filter. split; [done|].
  apply negb_true_iff, strict_eq_false. congruence.
Qed.

Lemma current_ok_deletePanel d id :
  current_ok d -> current_ok (fst (deletePanel d id true)).
Proof.
  unfold current_ok. rewrite deletePanel_current.
  unfold panel_ids. rewrite deletePanel_panels.
  case_strict_eq.
  - destruct (List.filter _ (panels d)) as [|p ps] eqn:E; simpl; [done|].
    intros _. apply list_elem_of_here.
  - destruct (currentPanelId d) as [cur|]; [|intros ->; done].
    rewrite !list_elem_of_fmap. intros (p & -> & Hp). exists p. split; [done|].
    apply elem_of_js_filter. split; [done|].
    apply negb_true_iff, strict_eq_false. congruence.
Qed.

(** Deleting a panel preserves the well-formedness of the data model:
    ids stay unique, every category keeps an existing panel, every link an
    existing category, and the current panel (reassigned to the first
    remaining one when it was the deleted one) exists. *)
Theorem deletePanel_wf d id confirmed :
  wf d -> wf (fst (deletePanel d id confirmed)).
Proof.
  destruct confirmed; [|done].
  intros (Hu & [Hrc Hrl] & Hcur).
  destruct (deletePanel_sublists d id) as (Hp & Hc & Hl).
  assert (Hl' : Forall (link_ref_ok (categories (fst (deletePanel d id true))))
                       (links (fst (deletePanel d id true))))
    by (apply Forall_forall; intros l Hl0; apply elem_of_deletePanel_links in Hl0; tauto).
  refine (conj _ (conj (conj _ _) _)).
  - by eapply ids_unique_sublists.
  - apply Forall_forall. intros c Hc'.
    apply elem_of_deletePanel_categories in Hc' as [Hc' Hne].
    rewrite deletePanel_panels. apply cat_ref_ok_filter; [|done].
    by eapply Forall_forall in Hrc.
  - done.
  - by apply current_ok_deletePanel.
Qed.

(** ** Deleting a category or a link *)

(** The category delete cascades to the category's links and to
    nothing else: afterwards no category has the id and no link refers to
    it, while every other category and every link of another category is
    still there. *)
Theorem deleteCategory_cascade d id :
  let d' := fst (deleteCategory d id true) in
  (id ∉ cat_ids d') /\ Forall (fun l => categoryId l <> id) (links d') /\
  (forall c, c ∈ categories d -> cat_id c <> id -> c ∈ categories d') /\
  (forall l, l ∈ links d -> categoryId l <> id -> l ∈ links d').
Proof.
  cbv zeta. unfold cat_ids. cbn [deleteCategory fst categories links set_links set_categories].
  split_and!.
  - rewrite list_elem_of_fmap. intros (c & -> & Hc).
    apply elem_of_js_filter in Hc as [_ Hc]. by rewrite strict_eq_refl in Hc.
  - apply Forall_forall. intros l Hl. apply elem_of_js_filter in Hl as [_ Hl].
    by apply negb_true_iff, strict_eq_false in Hl.
  - intros c Hc Hne. apply elem_of_js_filter. split; [done|].
    by apply negb_true_iff, strict_eq_false.
  - intros l Hl Hne. apply elem_of_js_filter. split; [done|].
    by apply negb_true_iff, strict_eq_false.
Qed.

(** Deleting a category preserves the well-formedness of the data
    model. *)
Theorem deleteCategory_wf d id confirmed :
  wf d -> wf (fst (deleteCategory d id confirmed)).
Proof.
  destruct confirmed; [|done].
  intros (Hu & [Hrc Hrl] & Hcur).
  cbn [deleteCategory] in *. split_wf; simpl_dash.
  - eapply ids_unique_sublists; [| | |exact Hu]; simpl_dash; [done|apply js_filter_sublist..].
  - apply Forall_forall. intros c Hc. apply elem_of_js_filter in Hc as [Hc _].
    by eapply Forall_forall in Hrc.
  - apply Forall_forall. intros l Hl.
    apply elem_of_js_filter in Hl as [Hl Hne%negb_true_iff%strict_eq_false].
    eapply Forall_forall in Hrl; [|exact Hl].
    unfold link_ref_ok in *. rewrite list_elem_of_fmap in Hrl |- *.
    destruct Hrl as (c & Heq & Hc). exists c. split; [done|].
    apply elem_of_js_filter. split; [done|].
    apply negb_true_iff, strict_eq_false. congruence.
  - done.
Qed.

(** Deleting a link preserves the well-formedness of the data model. *)
Theorem deleteLink_wf d id confirmed :
  wf d -> wf (fst (deleteLink d id confirmed)).
Proof.
  destruct confirmed; [|done].
  intros (Hu & [Hrc Hrl] & Hcur). cbn [deleteLink]. split_wf; simpl_dash; try done.
  - eapply ids_unique_sublists; [| | |exact Hu]; simpl_dash; [done..|apply js_filter_sublist].
  - apply Forall_forall. intros l Hl. apply elem_of_js_filter in Hl as [Hl _].
    by eapply Forall_forall in Hrl.
Qed.

(** ** The submit handlers *)

(** The three ways an edit-or-create handler chooses its branch. *)
Lemma edit_index_cases {A} (p : A -> bool) (l : list A) :
  findIndex p l = (-1)%Z \/
  exists x, l !! Z.to_nat (findIndex p l) = Some x /\ p x = true /\ findIndex p l <> (-1)%Z.
Proof.
  destruct (decide (findIndex p l = (-1)%Z)) as [|Hne]; [by left|right].
  destruct (findIndex_found p l Hne) as (x & ? & ?). eauto.
Qed.

(** Submitting the panel form preserves the well-formedness of the
    data model, provided [generateId()] returned an id no panel has: an
    edit renames in place, a creation appends and becomes current. *)
(** An edit renames in place: the ids do not change. *)
Lemma handlePanelSubmit_rename_wf d f newId :
  truthy (panel_form_id f) = true -> wf d -> wf (fst (handlePanelSubmit d f newId)).
Proof.
  intros Ht Hwf. unfold handlePanelSubmit. cbv zeta. rewrite Ht. simpl_dash.
  apply wf_set_panels; [|done]. case_match; [|done]. by apply map_alter_key.
Qed.

Theorem handlePanelSubmit_wf d f newId :
  wf d -> newId ∉ panel_ids d -> wf (fst (handlePanelSubmit d f newId)).
Proof.
  intros Hwf Hfresh. destruct (truthy (panel_form_id f)) eqn:Ht;
    [by apply handlePanelSubmit_rename_wf|].
  unfold handlePanelSubmit. cbv zeta. rewrite Ht. simpl_dash.
  - destruct Hwf as ((Hup & Huc & Hul) & [Hrc Hrl] & Hcur). split_wf.
    + split_and!; [by apply NoDup_push_key|done..].
    + simpl_dash. eapply Forall_impl; [exact Hrc|]. intros c. apply cat_ref_ok_app.
    + done.
    + unfold current_ok, panel_ids. simpl_dash. unfold push. rewrite fmap_app.
      apply elem_of_app. right. by left.
Qed.

(** An edit renames in place: the ids and panels do not change. *)
Lemma handleCategorySubmit_rename_wf d f newId :
  truthy (category_form_id f) = true -> wf d -> wf (fst (handleCategorySubmit d f newId)).
Proof.
  intros Ht Hwf. unfold handleCategorySubmit. cbv zeta. rewrite Ht. simpl_dash.
  destruct Hwf as (Hu & [Hrc Hrl] & Hc).
  apply wf_set_categories; [| |done]; case_match; try done.
  - by apply map_alter_key.
  - apply Forall_forall. intros c Hin. apply elem_of_alter in Hin as [Hin|Hin].
    + by eapply Forall_forall in Hrc.
    + destruct Hin as (c0 & Hin & ->).
      exact (proj1 (Forall_forall _ _) Hrc c0 Hin).
Qed.

(** Submitting the category form preserves the well-formedness of the
    data model when a panel is current (the "Add Category" button refuses
    to open the form otherwise, lines 262-265) and [generateId()] returned
    a fresh id: the new category belongs to the current panel. *)
Theorem handleCategorySubmit_wf d f newId :
  wf d -> currentPanelId d <> None -> newId ∉ cat_ids d ->
  wf (fst (handleCategorySubmit d f newId)).
Proof.
  intros Hwf Hcur Hfresh. destruct (truthy (category_form_id f)) eqn:Ht;
    [by apply handleCategorySubmit_rename_wf|].
  unfold handleCategorySubmit. cbv zeta. rewrite Ht. simpl_dash.
  - destruct Hwf as ((Hup & Huc & Hul) & [Hrc Hrl] & Hc). split_wf.
    + split_and!; [done|by apply NoDup_push_key|done].
    + simpl_dash. apply Forall_forall. intros c [Hin| ->]%elem_of_push.
      * by eapply Forall_forall in Hrc.
      * unfold current_ok, cat_ref_ok, panel_ids in *. simpl.
        destruct (currentPanelId d) as [cur|]; [|done].
        rewrite (list_fmap_compose panel_id Some). by apply list_elem_of_fmap_2.
    + simpl_dash. eapply Forall_impl; [exact Hrl|]. intros l. apply link_ref_ok_app.
    + done.
Qed.

(** Submitting the link form preserves the well-formedness of the data
    model when the selected category exists (the select only offers the
    current panel's categories, lines 632-641) and [generateId()] returned
    a fresh id; an edit keeps the link's id and position. *)
Theorem handleLinkSubmit_wf d f newId :
  wf d -> link_form_category f ∈ cat_ids d -> newId ∉ link_ids d ->
  wf (fst (handleLinkSubmit d f newId)).
Proof.
  intros Hwf Hcat Hfresh. unfold handleLinkSubmit. destruct (truthy _); simpl_dash.
  - destruct Hwf as ((Hup & Huc & Hul) & [Hrc Hrl] & Hc).
    apply wf_set_links; [| |split_wf; done].
    + destruct (edit_index_cases (fun l => link_id l === link_form_id f) (links d))
        as [->|(x & Hx & Hid & Hne)]; [done|].
      rewrite (proj2 (Z.eqb_neq _ _) Hne). cbn [negb].
      unfold link_ids in Hul. erewrite map_insert_key; [done|exact Hx|].
      simpl. symmetry. by apply strict_eq_spec.
    + apply Forall_forall. intros l Hl. case_match; [|by eapply Forall_forall in Hrl].
      apply elem_of_insert_inv in Hl as [-> | Hl]; [done|].
      by eapply Forall_forall in Hrl.
  - apply wf_set_links; [| |done].
    + by apply NoDup_push_key; [apply Hwf|].
    + destruct Hwf as (_ & [_ Hrl] & _).
      apply Forall_forall. intros l [Hin| ->]%elem_of_push; [|done].
      by eapply Forall_forall in Hrl.
Qed.

(** The "findIndex, then update if found" pattern of the three submit
    handlers (lines 507-510, 527-530, 547-550): once [findIndex] is known
    to answer the index [i], the branch reduces to the update at [i]. *)
Ltac found_index_branch :=
  rewrite (proj2 (Z.eqb_neq (Z.of_nat _) (-1))) by lia; cbn [negb]; rewrite ?Nat2Z.id.

Lemma set_panels_id d : set_panels d (panels d) = d.
Proof. by destruct d. Qed.
Lemma set_categories_id d : set_categories d (categories d) = d.
Proof. by destruct d. Qed.
Lemma set_links_id d : set_links d (links d) = d.
Proof. by destruct d. Qed.

(** Editing a panel renames, in place, the panel whose id the form
    carries (its index, its id and every other panel unchanged), and an
    edit of an id that no longer exists changes nothing; both save. *)
Theorem handlePanelSubmit_edit d f newId :
  truthy (panel_form_id f) = true -> NoDup (panel_ids d) ->
  (forall i p, panels d !! i = Some p -> panel_id p = panel_form_id f ->
     handlePanelSubmit d f newId =
     (set_panels d (alter (rename_panel (js_trim (panel_form_name f))) i (panels d)),
      [WSaveData])) /\
  (panel_form_id f ∉ panel_ids d -> handlePanelSubmit d f newId = (d, [WSaveData])).
Proof.
  intros Ht Hnd. unfold handlePanelSubmit. cbv zeta. rewrite Ht. split.
  - intros i p Hi <-. rewrite (findIndex_unique panel_id _ i p) by done. by found_index_branch.
  - intros Hn. by rewrite findIndex_absent, set_panels_id.
Qed.

(** Editing a category renames it in place and keeps its panel; an
    edit of an id that no longer exists changes nothing. *)
Theorem handleCategorySubmit_edit d f newId :
  truthy (category_form_id f) = true -> NoDup (cat_ids d) ->
  (forall i c, categories d !! i = Some c -> cat_id c = category_form_id f ->
     handleCategorySubmit d f newId =
     (set_categories d
        (alter (rename_category (js_trim (category_form_name f))) i (categories d)),
      [WSaveData])) /\
  (category_form_id f ∉ cat_ids d -> handleCategorySubmit d f newId = (d, [WSaveData])).
Proof.
  intros Ht Hnd. unfold handleCategorySubmit. cbv zeta. rewrite Ht. split.
  - intros i c Hi <-. rewrite (findIndex_unique cat_id _ i c) by done. by found_index_branch.
  - intros Hn. by rewrite findIndex_absent, set_categories_id.
Qed.

(** Editing a link replaces the record at the link's index by the
    submitted fields (trimmed, the URL coerced) under the same id, so the
    link keeps its position; an edit of an id that no longer exists
    changes nothing. *)
Theorem handleLinkSubmit_edit d f newId :
  truthy (link_form_id f) = true -> NoDup (link_ids d) ->
  (forall i l, links d !! i = Some l -> link_id l = link_form_id f ->
     handleLinkSubmit d f newId =
     (set_links d (<[i := mkLink (link_form_id f) (js_trim (link_form_name f))
                                 (js_trim (link_form_description f))
                                 (normalizeUrl (link_form_url f))
                                 (link_form_category f)]> (links d)),
      [WSaveData])) /\
  (link_form_id f ∉ link_ids d -> handleLinkSubmit d f newId = (d, [WSaveData])).
Proof.
  intros Ht Hnd. unfold handleLinkSubmit. cbv zeta. rewrite Ht. split.
  - intros i l Hi <-.
    rewrite (findIndex_unique link_id _ i l) by done. by found_index_branch.
  - intros Hn. by rewrite findIndex_absent, set_links_id.
Qed.

(** ** Saving an edit form unchanged *)

(** Submitting the edit form of a stored canonical link changes
    nothing. *)
Lemma linkFormOf_resubmit d l newId :
  NoDup (link_ids d) -> l ∈ links d -> truthy (link_id l) = true -> link_canonical l ->
  handleLinkSubmit d (linkFormOf l) newId = (d, [WSaveData]).
Proof.
  intros Hnd Hl Ht (Hn & Hds & Hu). apply list_elem_of_lookup in Hl as [i Hi].
  unfold handleLinkSubmit, linkFormOf. cbv zeta. cbn [link_form_url link_form_name
    link_form_description link_form_category link_form_id]. rewrite Ht, Hn, Hds, Hu.
  rewrite (findIndex_unique link_id _ i l) by done. found_index_branch.
  destruct l as [id n ds u c]. by rewrite list_insert_id, set_links_id.
Qed.


(** Opening a stored category or panel in its edit form and saving it
    unchanged leaves the dashboard as it was, when its id is non-empty and
    its name trimmed. *)
Theorem handleCategorySubmit_handlePanelSubmit_reopen d c p newId :
  (NoDup (cat_ids d) -> c ∈ categories d -> truthy (cat_id c) = true ->
   js_trim (cat_name c) = cat_name c ->
   handleCategorySubmit d (categoryFormOf c) newId = (d, [WSaveData])) /\
  (NoDup (panel_ids d) -> p ∈ panels d -> truthy (panel_id p) = true ->
   js_trim (panel_name p) = panel_name p ->
   handlePanelSubmit d (panelFormOf p) newId = (d, [WSaveData])).
Proof.
  split.
  - intros Hnd Hc Ht Hn. apply list_elem_of_lookup in Hc as [i Hi].
    unfold handleCategorySubmit, categoryFormOf. cbv zeta.
    cbn [category_form_name category_form_id]. rewrite Ht, Hn.
    rewrite (findIndex_unique cat_id _ i c) by done. found_index_branch.
    rewrite (alter_id_at _ i _ c Hi); [by rewrite set_categories_id|]. by destruct c.
  - intros Hnd Hp Ht Hn. apply list_elem_of_lookup in Hp as [i Hi].
    unfold handlePanelSubmit, panelFormOf. cbv zeta.
    cbn [panel_form_name panel_form_id]. rewrite Ht, Hn.
    rewrite (findIndex_unique panel_id _ i p) by done. found_index_branch.
    rewrite (alter_id_at _ i _ p Hi); [by rewrite set_panels_id|]. by destruct p.
Qed.

(** ** Creation: new items come last *)

(** A category created from the form is displayed last under the
    current panel: the current tab's categories are the previous ones, in
    the same order, followed by the new one. *)
Theorem handleCategorySubmit_create_last d f newId :
  truthy (category_form_id f) = false ->
  panelCategories (fst (handleCategorySubmit d f newId)) =
  panelCategories d ++ [mkCategory newId (js_trim (category_form_name f)) (currentPanelId d)].
Proof.
  intros Ht. unfold handleCategorySubmit, panelCategories. cbv zeta. rewrite Ht.
  simpl_dash. unfold push. rewrite List.filter_app. cbn [List.filter]. by rewrite strict_eq_refl.
Qed.

(** A link created from the form is displayed last in its category,
    and the links shown in every other category are unchanged. *)
Theorem handleLinkSubmit_create_last d f newId :
  truthy (link_form_id f) = false ->
  catLinks (links (fst (handleLinkSubmit d f newId))) (link_form_category f) =
    catLinks (links d) (link_form_category f) ++
      [mkLink newId (js_trim (link_form_name f)) (js_trim (link_form_description f))
              (normalizeUrl (link_form_url f)) (link_form_category f)] /\
  (forall cid, cid <> link_form_category f ->
     catLinks (links (fst (handleLinkSubmit d f newId))) cid = catLinks (links d) cid).
Proof.
  intros Ht. unfold handleLinkSubmit, catLinks. cbv zeta. rewrite Ht.
  simpl_dash. unfold push. split.
  - rewrite List.filter_app. cbn [List.filter]. by rewrite strict_eq_refl.
  - intros cid Hne. rewrite List.filter_app. cbn [List.filter categoryId].
    destruct (strict_eq_reflect (link_form_category f) cid); [congruence|].
    by rewrite app_nil_r.
Qed.

(** ** URL coercion (lines 496-499) *)

Definition https_prefix : list ascii := list_ascii_of_string "https://".

Lemma trimmed_https : trimmed https_prefix.
Proof. split; reflexivity. Qed.

Lemma normalizeUrl_startsWith raw :
  startsWith (normalizeUrl raw) "http://" || startsWith (normalizeUrl raw) "https://" = true.
Proof.
  unfold normalizeUrl. set (u := js_trim raw).
  destruct (startsWith u "http://") eqn:E1; simpl; [by rewrite E1|].
  destruct (startsWith u "https://") eqn:E2; simpl; [by rewrite E2, orb_true_r|].
  by destruct u.
Qed.

(** After the coercion the URL always starts with [http://] or
    [https://]: every stored link has a web scheme. *)
Theorem normalizeUrl_scheme raw :
  String.prefix "http://" (normalizeUrl raw) = true \/
  String.prefix "https://" (normalizeUrl raw) = true.
Proof. apply orb_true_iff, normalizeUrl_startsWith. Qed.

(** The coercion is idempotent: submitting a stored URL again (an
    edit re-submits the URL the form was filled with) never adds a second
    [https://]. *)
Theorem normalizeUrl_idem raw : normalizeUrl (normalizeUrl raw) = normalizeUrl raw.
Proof.
  assert (js_trim (normalizeUrl raw) = normalizeUrl raw) as Htrim.
  { unfold normalizeUrl. destruct (_ && _); [|apply js_trim_idem].
    rewrite <- (string_of_list_ascii_of_string (_ ++ _)).
    apply js_trim_trimmed. rewrite list_ascii_of_string_app.
    apply trimmed_app; [discriminate|apply trimmed_https|apply trimmed_js_trim]. }
  pose proof (normalizeUrl_startsWith raw) as Hs.
  unfold normalizeUrl at 1. rewrite Htrim.
  apply orb_true_iff in Hs as [-> | ->]; simpl; [done|].
  by rewrite andb_false_r.
Qed.

(** ** The confirmation texts *)

(** The category delete's confirmation counts exactly the links the
    cascade removes: the number in the text is the number of links the
    delete takes away. *)
Theorem deleteCategory_message_count d id :
  deleteCategoryMessage d id =
  cascade_message "Are you sure you want to delete this category?"
    (length (links d) - length (links (fst (deleteCategory d id true))))
    " link(s) which will also be deleted.".
Proof.
  unfold deleteCategoryMessage. cbn [deleteCategory fst links set_links set_categories].
  by rewrite length_filter_negb.
Qed.

(** The panel delete's confirmation counts exactly the categories the
    cascade removes. *)
Theorem deletePanel_message_count d id :
  deletePanelMessage d id =
  cascade_message "Are you sure you want to delete this panel?"
    (length (categories d) - length (categories (fst (deletePanel d id true))))
    " category(ies) which will also be deleted.".
Proof. unfold deletePanelMessage. rewrite deletePanel_categories. by rewrite length_filter_negb. Qed.

(** C35: The panel delete's confirmation counts categories only: for
    every links array it announces exactly the number of categories the
    delete removes, and the same text whatever links those categories
    hold, although the cascade removes them too. *)
Theorem deletePanel_message_omits_links d id ls :
  deletePanelMessage (set_links d ls) id =
  cascade_message "Are you sure you want to delete this panel?"
    (length (categories d) - length (categories (fst (deletePanel d id true))))
    " category(ies) which will also be deleted.".
Proof. rewrite deletePanel_message_count, !deletePanel_categories. done. Qed.

(** ** The handler theorems applied to the sample dashboard *)

Lemma deletePanel_links_kept_witness :
  mkLink "l3" "News" "" "https://news.example" "c2" ∈ links sample /\
  (mkLink "l3" "News" "" "https://news.example" "c2" ∈ links (fst (deletePanel sample "w" true)) <->
   exists c, c ∈ categories sample /\ cat_id c = "c2" /\ panelId c <> Some "w").
Proof.
  split; [decide_true|].
  apply (deletePanel_links_kept sample "w" (mkLink "l3" "News" "" "https://news.example" "c2")).
  decide_true.
Defined.

Lemma deletePanel_wf_witness : wf sample /\ wf (fst (deletePanel sample "w" true)).
Proof. split; [decide_true|apply deletePanel_wf; decide_true]. Defined.

Lemma deleteCategory_wf_witness : wf sample /\ wf (fst (deleteCategory sample "c1" true)).
Proof. split; [decide_true|apply deleteCategory_wf; decide_true]. Defined.

Lemma deleteLink_wf_witness : wf sample /\ wf (fst (deleteLink sample "l2" true)).
Proof. split; [decide_true|apply deleteLink_wf; decide_true]. Defined.

Lemma handlePanelSubmit_wf_witness :
  wf sample /\ ("p9" ∉ panel_ids sample) /\
  wf (fst (handlePanelSubmit sample (mkPanelForm " Travel " "") "p9")).
Proof. split_and!; [decide_true..|apply handlePanelSubmit_wf; decide_true]. Defined.

Lemma handleCategorySubmit_wf_witness :
  wf sample /\ currentPanelId sample <> None /\ ("c9" ∉ cat_ids sample) /\
  wf (fst (handleCategorySubmit sample (mkCategoryForm "Reading" "") "c9")).
Proof.
  split_and!; [decide_true|discriminate|decide_true|].
  apply handleCategorySubmit_wf; [decide_true|discriminate|decide_true].
Defined.

Lemma handleLinkSubmit_wf_witness :
  let f := mkLinkForm "example.org" "Ex" "" "c2" "" in
  wf sample /\ link_form_category f ∈ cat_ids sample /\ ("l9" ∉ link_ids sample) /\
  wf (fst (handleLinkSubmit sample f "l9")).
Proof. split_and!; [decide_true..|apply handleLinkSubmit_wf; decide_true]. Defined.

Lemma handlePanelSubmit_edit_witness :
  let f := mkPanelForm "Office" "w" in
  truthy (panel_form_id f) = true /\ NoDup (panel_ids sample) /\
  handlePanelSubmit sample f "unused" =
    (set_panels sample (alter (rename_panel (js_trim (panel_form_name f))) 0 (panels sample)),
     [WSaveData]).
Proof.
  split_and!; [reflexivity|decide_true|].
  apply (proj1 (handlePanelSubmit_edit sample (mkPanelForm "Office" "w") "unused"
                  eq_refl ltac:(decide_true)) 0 (mkPanel "w" "Work")); reflexivity.
Defined.

Lemma handleCategorySubmit_edit_witness :
  let f := mkCategoryForm "Archive" "nope" in
  truthy (category_form_id f) = true /\ NoDup (cat_ids sample) /\
  handleCategorySubmit sample f "unused" = (sample, [WSaveData]).
Proof.
  split_and!; [reflexivity|decide_true|].
  apply (proj2 (handleCategorySubmit_edit sample (mkCategoryForm "Archive" "nope") "unused"
                  eq_refl ltac:(decide_true))). decide_true.
Defined.

Lemma handleLinkSubmit_edit_witness :
  let f := mkLinkForm "board.example" "Board" "" "c2" "l2" in
  truthy (link_form_id f) = true /\ NoDup (link_ids sample) /\
  handleLinkSubmit sample f "unused" =
    (set_links sample (<[1 := mkLink "l2" "Board" "" (normalizeUrl "board.example") "c2"]>
                         (links sample)), [WSaveData]).
Proof.
  split_and!; [reflexivity|decide_true|].
  apply (proj1 (handleLinkSubmit_edit sample (mkLinkForm "board.example" "Board" "" "c2" "l2")
                  "unused" eq_refl ltac:(decide_true)) 1
                (mkLink "l2" "Board" "" "https://board.example" "c1")); reflexivity.
Defined.

Lemma handleCategorySubmit_create_last_witness :
  let f := mkCategoryForm "Reading" "" in
  truthy (category_form_id f) = false /\
  panelCategories (fst (handleCategorySubmit sample f "c9")) =
  panelCategories sample ++ [mkCategory "c9" (js_trim (category_form_name f)) (currentPanelId sample)].
Proof.
  split; [reflexivity|].
  apply (handleCategorySubmit_create_last sample (mkCategoryForm "Reading" "") "c9"). reflexivity.
Defined.

Lemma handleLinkSubmit_create_last_witness :
  let f := mkLinkForm "example.org" "Ex" "" "c1" "" in
  truthy (link_form_id f) = false /\
  catLinks (links (fst (handleLinkSubmit sample f "l9"))) "c1" =
    catLinks (links sample) "c1" ++
      [mkLink "l9" (js_trim "Ex") (js_trim "") (normalizeUrl "example.org") "c1"].
Proof.
  split; [reflexivity|].
  apply (handleLinkSubmit_create_last sample (mkLinkForm "example.org" "Ex" "" "c1" "") "l9").
  reflexivity.
Defined.

Lemma prefix_cons c s d t :
  String.prefix (String c s) (String d t) = if ascii_dec c d then String.prefix s t else false.
Proof. reflexivity. Qed.

Lemma string_app_cons c s t : (String c s ++ t)%string = String c (s ++ t).
Proof. reflexivity. Qed.

Lemma string_app_nil t : ("" ++ t)%string = t.
Proof. reflexivity. Qed.

(** A scheme written without a colon is read back from [scheme://rest]
    by a [startsWith] of [scheme'://]. *)
Lemma prefix_scheme b a r :
  ":"%char ∉ list_ascii_of_string a -> ":"%char ∉ list_ascii_of_string b ->
  String.prefix (b ++ "://") (a ++ "://" ++ r) = true -> a = b.
Proof.
  revert a. induction b as [|y b IH]; intros [|x a] Ha Hb H; try done;
    rewrite ?string_app_nil, ?string_app_cons, prefix_cons in H.
  - destruct (ascii_dec ":" x) as [<-|]; [|done]. destruct Ha. apply list_elem_of_here.
  - destruct (ascii_dec y ":") as [->|]; [|done]. destruct Hb. apply list_elem_of_here.
  - destruct (ascii_dec y x) as [<-|]; [|done].
    cbn [list_ascii_of_string] in Ha, Hb. rewrite not_elem_of_cons in Ha, Hb.
    f_equal. apply IH; tauto.
Qed.

(** C37: The coercion puts [https://] in front of every URL whose scheme
    is not written [http] or [https] in lower case, so that such a URL
    keeps its own scheme behind the added one: [HTTP://x] becomes
    [https://HTTP://x], [ftp://x] becomes [https://ftp://x]. *)
Theorem normalizeUrl_other_schemes raw scheme rest :
  js_trim raw = (scheme ++ "://" ++ rest)%string -> ":"%char ∉ list_ascii_of_string scheme ->
  scheme <> "http"%string -> scheme <> "https"%string ->
  normalizeUrl raw = ("https://" ++ scheme ++ "://" ++ rest)%string.
Proof.
  intros Ht Hs H1 H2. unfold normalizeUrl, startsWith. rewrite Ht.
  change "http://"%string with ("http" ++ "://")%string.
  change "https://"%string with ("https" ++ "://")%string at 1.
  destruct (String.prefix ("http" ++ "://") _) eqn:E1;
    [apply prefix_scheme in E1; [done|done|decide_true]|].
  destruct (String.prefix ("https" ++ "://") _) eqn:E2;
    [apply prefix_scheme in E2; [done|done|decide_true]|].
  done.
Qed.


Lemma handleCategorySubmit_handlePanelSubmit_reopen_witness :
  let c := mkCategory "c1" "Projects" (Some "w") in
  let p := mkPanel "h" "Home" in
  NoDup (cat_ids sample) /\ c ∈ categories sample /\ truthy (cat_id c) = true /\
  js_trim (cat_name c) = cat_name c /\
  NoDup (panel_ids sample) /\ p ∈ panels sample /\ truthy (panel_id p) = true /\
  js_trim (panel_name p) = panel_name p /\
  handleCategorySubmit sample (categoryFormOf c) "n1" = (sample, [WSaveData]) /\
  handlePanelSubmit sample (panelFormOf p) "n1" = (sample, [WSaveData]).
Proof.
  cbv zeta. split_and!; [decide_true|decide_true|reflexivity|reflexivity|
                         decide_true|decide_true|reflexivity|reflexivity| |].
  - apply (handleCategorySubmit_handlePanelSubmit_reopen sample _ (mkPanel "h" "Home"));
      [decide_true|decide_true|reflexivity|reflexivity].
  - apply (handleCategorySubmit_handlePanelSubmit_reopen sample (mkCategory "c1" "Projects" (Some "w")));
      [decide_true|decide_true|reflexivity|reflexivity].
Defined.

Lemma normalizeUrl_other_schemes_witness :
  js_trim " HTTP://example.com " = ("HTTP" ++ "://" ++ "example.com")%string /\
  ":"%char ∉ list_ascii_of_string "HTTP" /\ "HTTP"%string <> "http"%string /\
  "HTTP"%string <> "https"%string /\
  normalizeUrl " HTTP://example.com " = ("https://" ++ "HTTP" ++ "://" ++ "example.com")%string.
Proof.
  assert (Ht : js_trim " HTTP://example.com " = ("HTTP" ++ "://" ++ "example.com")%string)
    by reflexivity.
  assert (Hc : ":"%char ∉ list_ascii_of_string "HTTP") by decide_true.
  assert (H1 : "HTTP"%string <> "http"%string) by discriminate.
  assert (H2 : "HTTP"%string <> "https"%string) by discriminate.
  split_and!; [exact Ht|exact Hc|exact H1|exact H2|].
  exact (normalizeUrl_other_schemes " HTTP://example.com " "HTTP" "example.com" Ht Hc H1 H2).
Defined.
