(* ===== verification/DragDrop.v ===== *)
(** The drag-and-drop controller of src/Dashboard/script.js (lines
    379-489): the arming of a row by its handle ([mousedown] / [mouseup]),
    the drag state ([draggedItem], [dragType], set by [dragstart] and
    cleared by [dragend]), the highlight [dragover] leaves, and the drop
    handler, whose resolution for a
    dragged category and for a dragged link is modelled over the
    ECMAScript [findIndex] / [find] / [splice] / [push] of [Prelude],
    including their treatment of the "not found" index [-1]. *)

From S2P Require Import Prelude Model.

(** The DOM elements that take part in a drag: a category block
    ([.category], [data-id] = the category's id) or a link row
    ([a.link-item], [data-id] = the link's id).  The script renders one
    element per record, so an element is identified by its kind and id. *)
Inductive Elem := ECategory (id : string) | ELink (id : string).

#[export] Instance Elem_eq_dec : EqDecision Elem.
Proof. solve_decision. Defined.

Inductive DragType := DragCategory | DragLink.

(** [draggedItem] and [dragType] (lines 8-9), and the elements that
    currently carry [draggable="true"] (set on [mousedown], lines 382-388). *)
Record DragState := mkDragState {
  draggedItem : option Elem;
  dragType : option DragType;
  armed : list Elem
}.

(** Where the pointer is at the drop: [e.target.closest('.link-item')]
    and [e.target.closest('.category')], by their [data-id]. *)
Record DropPoint := mkDropPoint {
  over_link : option string;
  over_category : option string
}.

(** The result of a handler that may throw a [TypeError]: the state of
    the arrays when it returns or throws, and the storage writes done. *)
Inductive Outcome (A : Type) :=
  | Done (a : A) (w : list StorageWrite)
  | Threw (a : A) (w : list StorageWrite).
Arguments Done {A}. Arguments Threw {A}.

Definition outcome_state {A} (o : Outcome A) : A :=
  match o with Done a _ => a | Threw a _ => a end.

(** ** The drop of a dragged category (lines 448-462) *)

(** [draggedId] is [draggedItem.dataset.id]; the element comparison
    [dropTarget !== draggedItem] is a comparison of ids (one element per
    category).  The branch for an empty [categories] array, where
    [removed] is [undefined], cannot be taken: the dragged category is
    rendered from the array. *)
Definition dropCategory (cats : list Category) (draggedId : string) (p : DropPoint)
    : list Category * list StorageWrite :=
  match over_category p with
  | Some targetId =>
      if targetId !== draggedId then
        let draggedIdx := findIndex (fun c => cat_id c === draggedId) cats in
        let '(removed, cats1) := splice_remove1 cats draggedIdx in
        let targetIdx := findIndex (fun c => cat_id c === targetId) cats1 in
        match removed with
        | Some r => (splice_insert cats1 targetIdx r, [WSaveData])
        | None => (cats1, [WSaveData])
        end
      else (cats, [])
  | None => (cats, [])
  end.

(** ** The drop of a dragged link (lines 463-488) *)

(** The splice happens first, unconditionally.  Dropped on another link,
    the link takes that link's category and goes just before it; dropped
    elsewhere in a category block (including on its own row), it takes
    the category and goes to the end of the array; dropped outside every
    category, it goes back to its index.  Reading [targetLink.categoryId]
    or writing [removedLink.categoryId] on [undefined] throws. *)
Definition dropLink (ls : list Link) (draggedId : string) (p : DropPoint)
    : Outcome (list Link) :=
  let draggedIdx := findIndex (fun l => link_id l === draggedId) ls in
  let '(removedLink, ls1) := splice_remove1 ls draggedIdx in
  let otherwise :=
    match over_category p with
    | Some targetCatId =>
        match removedLink with
        | Some rl => Done (push ls1 (move_link targetCatId rl)) [WSaveData]
        | None => Threw ls1 []
        end
    | None =>
        match removedLink with
        | Some rl => Done (splice_insert ls1 draggedIdx rl) [WSaveData]
        | None => Threw ls1 [WSaveData]
        end
    end in
  match over_link p with
  | Some targetId =>
      if targetId !== draggedId then
        match List.find (fun l => link_id l === targetId) ls1, removedLink with
        | Some targetLink, Some rl =>
            let newTargetIdx := findIndex (fun l => link_id l === targetId) ls1 in
            Done (splice_insert ls1 newTargetIdx (move_link (categoryId targetLink) rl))
                 [WSaveData]
        | _, _ => Threw ls1 []
        end
      else otherwise
  | None => otherwise
  end.

(** ** Moving an element by its key *)

Section Reorder.
Context {A : Type} (key : A -> string).

(** Splicing out the element found by its key. *)
Lemma splice_out_key pre a post :
  NoDup (key <$> pre ++ a :: post) ->
  splice_remove1 (pre ++ a :: post) (findIndex (fun z => key z === key a) (pre ++ a :: post))
  = (Some a, pre ++ post).
Proof.
  intros Hnd. destruct (NoDup_key_middle key pre a post Hnd) as [Hpre _].
  rewrite findIndex_key by done. apply splice_remove1_at.
Qed.

(** Splicing in just before the element found by its key. *)
Lemma splice_in_before_key pre b post x :
  NoDup (key <$> pre ++ b :: post) ->
  splice_insert (pre ++ b :: post) (findIndex (fun z => key z === key b) (pre ++ b :: post)) x
  = pre ++ x :: b :: post.
Proof.
  intros Hnd. destruct (NoDup_key_middle key pre b post Hnd) as [Hpre _].
  rewrite findIndex_key by done. apply (splice_insert_at pre (b :: post)).
Qed.

Lemma find_key_unique pre b post :
  NoDup (key <$> pre ++ b :: post) ->
  List.find (fun z => key z === key b) (pre ++ b :: post) = Some b.
Proof.
  intros Hnd. destruct (NoDup_key_middle key pre b post Hnd) as [Hpre _].
  by apply find_key.
Qed.

(** Removing [a] from a list with unique keys leaves [b] in it, and the
    keys unique. *)
Lemma remove_other_key pre a post b :
  NoDup (key <$> pre ++ a :: post) -> b ∈ pre ++ a :: post -> key a <> key b ->
  NoDup (key <$> pre ++ post) /\ exists pre' post', pre ++ post = pre' ++ b :: post'.
Proof.
  intros Hnd Hb Hne. split.
  - eapply NoDup_map_sublist; [|exact Hnd].
    apply sublist_app; [done|by apply sublist_cons].
  - apply list_elem_of_split. apply elem_of_app in Hb as [Hb|Hb]; apply elem_of_app; [by left|].
    apply elem_of_cons in Hb as [->|Hb]; [done|by right].
Qed.
End Reorder.

(** ** Theorems on the category drop *)

(** Dropping a dragged category never loses or duplicates a category,
    whatever the drop point and even for ids that are not found: the
    new array is a permutation of the old one. *)
Lemma dropCategory_perm cats id p : fst (dropCategory cats id p) ≡ₚ cats.
Proof.
  unfold dropCategory. destruct (over_category p) as [t|]; [|done].
  destruct (_ !== _); [|done]. cbv zeta.
  destruct (splice_remove1 _ _) as [[r|] cats1] eqn:E; simpl.
  - rewrite splice_insert_perm. symmetry. by eapply splice_remove1_perm.
  - by rewrite (splice_remove1_none _ _ _ E).
Qed.

(** C8: Dropping category [a] on another category [b] of the array puts
    [a] immediately before [b]; the other categories keep their relative
    order (removing [a] before and after the drop gives the same list),
    and the result is saved. *)
Theorem dropCategory_before cats a b p :
  NoDup (cat_id <$> cats) -> a ∈ cats -> b ∈ cats -> cat_id a <> cat_id b ->
  over_category p = Some (cat_id b) ->
  exists pre0 post0 pre post,
    cats = pre0 ++ a :: post0 /\ pre0 ++ post0 = pre ++ b :: post /\
    dropCategory cats (cat_id a) p = (pre ++ a :: b :: post, [WSaveData]).
Proof.
  intros Hnd Ha Hb Hne Hp.
  apply list_elem_of_split in Ha as (pre0 & post0 & ->).
  destruct (remove_other_key cat_id pre0 a post0 b Hnd Hb Hne) as (Hnd' & pre & post & Heq).
  exists pre0, post0, pre, post. split_and!; [done..|].
  unfold dropCategory. rewrite Hp.
  rewrite (proj2 (strict_eq_false (cat_id b) (cat_id a))) by congruence.
  rewrite splice_out_key by done. cbv beta iota zeta. rewrite Heq.
  rewrite splice_in_before_key by (rewrite <- Heq; done). done.
Qed.

(** C9: A category dropped on itself or on its immediate successor stays
    where it is: a self-drop writes nothing, a drop on the successor
    saves the unchanged order (no drift when repeated). *)
Theorem dropCategory_noop pre a b post p :
  NoDup (cat_id <$> pre ++ a :: b :: post) ->
  (over_category p = Some (cat_id a) ->
     dropCategory (pre ++ a :: b :: post) (cat_id a) p = (pre ++ a :: b :: post, [])) /\
  (over_category p = Some (cat_id b) ->
     dropCategory (pre ++ a :: b :: post) (cat_id a) p = (pre ++ a :: b :: post, [WSaveData])).
Proof.
  intros Hnd. unfold dropCategory. split; intros ->.
  - by rewrite strict_eq_refl.
  - destruct (NoDup_key_middle cat_id pre a (b :: post) Hnd) as [_ Hpost].
    apply Forall_cons in Hpost as [Hba _].
    rewrite (proj2 (strict_eq_false (cat_id b) (cat_id a))) by done.
    rewrite splice_out_key by done. cbv beta iota zeta.
    rewrite splice_in_before_key; [done|].
    eapply NoDup_map_sublist; [|exact Hnd].
    apply sublist_app; [done|by apply sublist_cons].
Qed.

(** The category drop keeps the data model well formed. *)
Theorem dropCategory_wf d id p :
  wf d -> wf (set_categories d (fst (dropCategory (categories d) id p))).
Proof. apply wf_set_categories_perm, dropCategory_perm. Qed.

(** ** Theorems on the link drop *)

(** C2: Dropping link [L] on another link [M] re-parents [L] under [M]'s
    category and puts it immediately before [M]; every other link keeps
    its category and its relative order (in particular the links left in
    [L]'s old category), and the result is saved. *)
Theorem dropLink_onto_link ls L M p :
  NoDup (link_id <$> ls) -> L ∈ ls -> M ∈ ls -> link_id L <> link_id M ->
  over_link p = Some (link_id M) ->
  exists pre0 post0 pre post,
    ls = pre0 ++ L :: post0 /\ pre0 ++ post0 = pre ++ M :: post /\
    dropLink ls (link_id L) p =
      Done (pre ++ move_link (categoryId M) L :: M :: post) [WSaveData].
Proof.
  intros Hnd HL HM Hne Hp.
  apply list_elem_of_split in HL as (pre0 & post0 & ->).
  destruct (remove_other_key link_id pre0 L post0 M Hnd HM Hne) as (Hnd' & pre & post & Heq).
  exists pre0, post0, pre, post. split_and!; [done..|].
  unfold dropLink. cbv zeta. rewrite splice_out_key by done. cbv beta iota.
  rewrite Hp, (proj2 (strict_eq_false (link_id M) (link_id L))) by congruence.
  cbn [negb]. rewrite Heq in Hnd' |- *.
  rewrite find_key_unique, splice_in_before_key by done. done.
Qed.

(** C10: Dropping link [L] inside a category block anywhere but on another
    link (on the block's background or on [L]'s own row) moves [L] under
    that category and to the very end of the links array; the other links
    keep their order. *)
Theorem dropLink_into_category ls L p c :
  NoDup (link_id <$> ls) -> L ∈ ls ->
  (over_link p = None \/ over_link p = Some (link_id L)) ->
  over_category p = Some c ->
  exists pre post, ls = pre ++ L :: post /\
    dropLink ls (link_id L) p = Done ((pre ++ post) ++ [move_link c L]) [WSaveData].
Proof.
  intros Hnd HL Hov Hc.
  apply list_elem_of_split in HL as (pre & post & ->). exists pre, post. split; [done|].
  unfold dropLink. cbv zeta. rewrite splice_out_key by done. cbv beta iota.
  rewrite Hc. destruct Hov as [-> | ->]; [done|]. by rewrite strict_eq_refl.
Qed.

(** The links a category shows after appending one of another category
    or of its own. *)
Lemma catLinks_push ls x c :
  catLinks (push ls x) c = catLinks ls c ++ (if categoryId x === c then [x] else []).
Proof. unfold catLinks, push. rewrite List.filter_app. simpl. by destruct (categoryId x === c). Qed.

(** The category lists after a drop in a category block: the moved
    link last in its new category, every other category as before
    without it. *)
Lemma dropLink_in_block_catLinks ls L p c :
  NoDup (link_id <$> ls) -> L ∈ ls ->
  (over_link p = None \/ over_link p = Some (link_id L)) -> over_category p = Some c ->
  exists ls', dropLink ls (link_id L) p = Done ls' [WSaveData] /\
    catLinks ls' c = catLinks (List.filter (fun l => link_id l !== link_id L) ls) c ++ [move_link c L] /\
    forall c', c' <> c ->
      catLinks ls' c' = catLinks (List.filter (fun l => link_id l !== link_id L) ls) c'.
Proof.
  intros Hnd HL Hov Hc.
  apply list_elem_of_split in HL as (pre & post & ->).
  destruct (NoDup_key_middle link_id pre L post Hnd) as [Hpre Hpost].
  assert (List.filter (fun l => link_id l !== link_id L) (pre ++ L :: post) = pre ++ post) as ->.
  { rewrite List.filter_app. cbn [List.filter]. rewrite strict_eq_refl. cbn [negb].
    by rewrite !filter_key_all. }
  exists (push (pre ++ post) (move_link c L)). split_and!.
  - unfold dropLink. cbv zeta. rewrite splice_out_key by done. cbv beta iota.
    rewrite Hc. destruct Hov as [-> | ->]; [done|]. by rewrite strict_eq_refl.
  - rewrite catLinks_push. cbn [categoryId move_link]. by rewrite strict_eq_refl.
  - intros c' Hne. rewrite catLinks_push. cbn [categoryId move_link].
    rewrite (proj2 (strict_eq_false c c') (not_eq_sym Hne)). apply app_nil_r.
Qed.

(** C11: As displayed, a link dropped in a category block (not on another
    link) becomes the last link of that category, after its other links
    in their order, and every other category shows its links as before
    minus the moved one. *)
Theorem dropLink_into_category_shown ls L p c :
  NoDup (link_id <$> ls) -> L ∈ ls ->
  (over_link p = None \/ over_link p = Some (link_id L)) -> over_category p = Some c ->
  exists ls', dropLink ls (link_id L) p = Done ls' [WSaveData] /\
    catLinks ls' c = catLinks (List.filter (fun l => link_id l !== link_id L) ls) c ++ [move_link c L] /\
    forall c', c' <> c ->
      catLinks ls' c' = catLinks (List.filter (fun l => link_id l !== link_id L) ls) c'.
Proof. apply dropLink_in_block_catLinks. Qed.

(** Dropping a link outside every category block (and not on another
    link) reverts the move: the array is unchanged, and saved unchanged. *)
Lemma dropLink_outside ls L p :
  NoDup (link_id <$> ls) -> L ∈ ls ->
  (over_link p = None \/ over_link p = Some (link_id L)) -> over_category p = None ->
  dropLink ls (link_id L) p = Done ls [WSaveData].
Proof.
  intros Hnd HL Hl Hc.
  apply list_elem_of_split in HL as (pre & post & ->).
  destruct (NoDup_key_middle link_id pre L post Hnd) as [Hpre _].
  unfold dropLink. cbv zeta. rewrite splice_out_key by done. cbv beta iota.
  destruct Hl as [-> | ->]; [|rewrite strict_eq_refl; cbn [negb]];
    rewrite Hc, findIndex_key by done; by rewrite splice_insert_at.
Qed.

(** [x :: xs = xs ++ [x]] only for a list of copies of [x]. *)
Lemma cons_eq_snoc {A} (x : A) xs : x :: xs = xs ++ [x] -> Forall (eq x) xs.
Proof.
  induction xs as [|y xs IH]; intros H; [constructor|].
  injection H as <- H. constructor; [done|]. by apply IH.
Qed.

(** C29: Dropping a link on its own row is not a no-op: whenever another
    link of its category follows it in the array, the drop saves and
    changes the order in which its category displays its links (the link
    goes after all of them). *)
Theorem dropLink_self_reorders pre L post M p :
  NoDup (link_id <$> pre ++ L :: post) -> M ∈ post -> categoryId M = categoryId L ->
  over_link p = Some (link_id L) -> over_category p = Some (categoryId L) ->
  exists ls', dropLink (pre ++ L :: post) (link_id L) p = Done ls' [WSaveData] /\
    catLinks ls' (categoryId L) <> catLinks (pre ++ L :: post) (categoryId L).
Proof.
  intros Hnd HM HMc Hl Hc.
  destruct (dropLink_in_block_catLinks (pre ++ L :: post) L p (categoryId L) Hnd)
    as (ls' & Hd & Hcat & _); [by apply elem_of_app; right; left|by right|done|].
  exists ls'. split; [done|]. rewrite Hcat, move_link_same.
  destruct (NoDup_key_middle link_id pre L post Hnd) as [Hpre Hpost].
  unfold catLinks. rewrite !List.filter_app. cbn [List.filter]. rewrite strict_eq_refl, !filter_key_all by done.
  cbn [negb]. rewrite strict_eq_refl, <- app_assoc. intros E%app_inv_head. symmetry in E.
  apply cons_eq_snoc in E. rewrite Forall_forall in E.
  assert (HM' : M ∈ List.filter (fun l => categoryId l === categoryId L) post).
  { apply elem_of_js_filter. split; [done|]. by apply strict_eq_spec. }
  rewrite Forall_forall in Hpost. apply (Hpost M HM). by rewrite <- (E M HM').
Qed.

(** Whatever the drop point and the dragged id, the link drop keeps
    the data model well formed, provided a category block under the
    pointer is one of the rendered categories: moved links only take the
    category of an existing link or of an existing category, and a drop
    that throws has at most lost the spliced-out link. *)
Theorem dropLink_wf d id p :
  wf d -> (forall c, over_category p = Some c -> c ∈ cat_ids d) ->
  wf (set_links d (outcome_state (dropLink (links d) id p))).
Proof.
  intros Hwf Hcat. unfold dropLink. cbv zeta.
  pose proof (splice_remove1_sublist (links d) (findIndex (fun l => link_id l === id) (links d)))
    as Hsub.
  destruct (splice_remove1 _ _) as [[r|] ls1] eqn:E; simpl in Hsub;
    [|repeat case_match; by apply wf_links_sublist].
  pose proof (splice_remove1_perm _ _ _ _ E) as Hperm.
  assert (r ∈ links d) as Hr by (rewrite Hperm; by left).
  assert (categoryId r ∈ cat_ids d) as Hrc.
  { destruct Hwf as (_ & [_ Hrl] & _). by eapply Forall_forall in Hrl. }
  repeat case_match; simpl;
    try (by apply wf_links_sublist);
    try (eapply wf_links_moved; [done|exact Hperm| |by apply Hcat];
         rewrite ?push_perm; done).
  all: first
    [ apply (wf_links_moved d r ls1 (categoryId r)); [done|exact Hperm| |exact Hrc];
      by rewrite move_link_same, splice_insert_perm
    | eapply wf_links_moved; [done|exact Hperm|apply splice_insert_perm|];
      match goal with H : List.find _ _ = Some ?t |- _ => apply find_some in H as [Ht _] end;
      destruct Hwf as (_ & [_ Hrl] & _); eapply Forall_forall in Hrl; [exact Hrl|];
      eapply elem_of_sublist; [|exact Hsub]; by apply list_elem_of_In ].
Qed.

(** A drag of a rendered link onto a rendered link (or elsewhere) never
    throws, and always saves. *)
Lemma dropLink_saves ls id p :
  NoDup (link_id <$> ls) -> id ∈ link_id <$> ls ->
  (forall t, over_link p = Some t -> t ∈ link_id <$> ls) ->
  exists ls', dropLink ls id p = Done ls' [WSaveData].
Proof.
  intros Hnd (L & -> & HL)%list_elem_of_fmap Hover.
  apply list_elem_of_split in HL as (pre & post & ->).
  unfold dropLink. cbv zeta. rewrite splice_out_key by done. cbv beta iota.
  destruct (over_link p) as [t|] eqn:Ht; [|destruct (over_category p); by eexists].
  destruct (decide (t = link_id L)) as [->|Hne].
  - rewrite strict_eq_refl. cbn [negb]. destruct (over_category p); by eexists.
  - rewrite (proj2 (strict_eq_false t (link_id L)) Hne). cbn [negb].
    pose proof (Hover t eq_refl) as (M & -> & HM)%list_elem_of_fmap.
    destruct (remove_other_key link_id pre L post M Hnd HM (not_eq_sym Hne))
      as (Hnd' & pre' & post' & Heq).
    rewrite Heq in Hnd' |- *. rewrite find_key_unique by done. by eexists.
Qed.

(** ** The drag state machine (lines 382-418) and the drop handler (444-489) *)

Definition elem_id (e : Elem) : string :=
  match e with ECategory id => id | ELink id => id end.

(** Lines 382-388: a [mousedown] on a drag handle sets [draggable] on the
    row that owns the handle ([None]: the pointer is not on a handle). *)
Definition onMouseDown (st : DragState) (handleOwner : option Elem) : DragState :=
  match handleOwner with
  | Some el =>
      mkDragState (draggedItem st) (dragType st)
                  (if decide (el ∈ armed st) then armed st else el :: armed st)
  | None => st
  end.

(** Lines 390-392: a [mouseup] inside the dashboard removes [draggable]
    from every element of the document. *)
Definition onMouseUp (st : DragState) : DragState :=
  mkDragState (draggedItem st) (dragType st) [].

(** Lines 394-406: [dragstart] on a category block or a link row records
    it; on any other element (an icon image) nothing happens. *)
Definition onDragStart (st : DragState) (target : option Elem) : DragState :=
  match target with
  | Some (ECategory id) => mkDragState (Some (ECategory id)) (Some DragCategory) (armed st)
  | Some (ELink id) => mkDragState (Some (ELink id)) (Some DragLink) (armed st)
  | None => st
  end.

(** Lines 408-418: [dragend] clears the drag and un-arms the dragged
    element. *)
Definition onDragEnd (st : DragState) : DragState :=
  match draggedItem st with
  | Some el => mkDragState None None (List.filter (fun e => bool_decide (e <> el)) (armed st))
  | None => st
  end.

(** Lines 444-489: the drop, dispatched on [dragType]. *)
Definition onDrop (st : DragState) (d : Dashboard) (p : DropPoint) : Outcome Dashboard :=
  match draggedItem st with
  | None => Done d []
  | Some el =>
      match dragType st with
      | Some DragCategory =>
          let '(cs, w) := dropCategory (categories d) (elem_id el) p in
          Done (set_categories d cs) w
      | Some DragLink =>
          match dropLink (links d) (elem_id el) p with
          | Done ls w => Done (set_links d ls) w
          | Threw ls w => Threw (set_links d ls) w
          end
      | None => Done d []
      end
  end.

(** The highlight a [dragover] leaves (lines 420-442): every
    [drag-over] / [drag-over-link] class is cleared first, then at most
    one element gets one: a category block ([drag-over]) or a link row
    ([drag-over-link]). *)
Inductive Highlight := DragOverCategory (id : string) | DragOverLink (id : string).

#[export] Instance Highlight_eq_dec : EqDecision Highlight.
Proof. solve_decision. Defined.

(** Lines 420-442: the handler tests [dragType] only; [overCat !==
    draggedItem] and [overLink !== draggedItem] compare elements. *)
Definition onDragOver (st : DragState) (p : DropPoint) : option Highlight :=
  match dragType st with
  | Some DragCategory =>
      match over_category p with
      | Some c => if bool_decide (Some (ECategory c) ≠ draggedItem st)
                  then Some (DragOverCategory c) else None
      | None => None
      end
  | Some DragLink =>
      let onCat := match over_category p with
                   | Some c => Some (DragOverCategory c)
                   | None => None
                   end in
      match over_link p with
      | Some t => if bool_decide (Some (ELink t) ≠ draggedItem st)
                  then Some (DragOverLink t) else onCat
      | None => onCat
      end
  | None => None
  end.

(** The events of a drag gesture, and the transitions they cause. *)
Inductive DragEvent :=
  | MouseDown (handleOwner : option Elem)
  | MouseUp
  | DragStart (target : option Elem)
  | DragEnd.

Definition drag_event (st : DragState) (ev : DragEvent) : DragState :=
  match ev with
  | MouseDown h => onMouseDown st h
  | MouseUp => onMouseUp st
  | DragStart t => onDragStart st t
  | DragEnd => onDragEnd st
  end.

Definition drag_init : DragState := mkDragState None None [].

(** The drag states reachable from the initial one. *)
Inductive drag_reachable : DragState -> Prop :=
  | drag_reachable_init : drag_reachable drag_init
  | drag_reachable_step st ev : drag_reachable st -> drag_reachable (drag_event st ev).

(** [dragType] names the kind of [draggedItem], and both are set or
    unset together. *)
Definition drag_consistent (st : DragState) : Prop :=
  match draggedItem st, dragType st with
  | None, None => True
  | Some (ECategory _), Some DragCategory => True
  | Some (ELink _), Some DragLink => True
  | _, _ => False
  end.

Lemma drag_event_consistent st ev :
  drag_consistent st -> drag_consistent (drag_event st ev).
Proof.
  unfold drag_consistent. destruct ev as [[el|]| |[[id|id]|]|]; simpl; try done.
  unfold onDragEnd. destruct (draggedItem st) eqn:E; simpl; rewrite ?E; auto.
Qed.

(** In every reachable drag state, [dragType] is set exactly when
    [draggedItem] is, and names its kind: a drop always dispatches to the
    resolution of the dragged element's kind. *)
Theorem drag_reachable_consistent st : drag_reachable st -> drag_consistent st.
Proof. induction 1; [done|by apply drag_event_consistent]. Qed.

(** A drop with no drag in progress changes nothing and writes
    nothing (line 446). *)
Theorem onDrop_idle st d p : draggedItem st = None -> onDrop st d p = Done d [].
Proof. unfold onDrop. by intros ->. Qed.

(** C12: The highlight under the pointer announces what the drop there
    does.  Dragging category [a], a category block is highlighted exactly
    when it is another category (the block the drop moves [a] before),
    never a link row, and a drop with nothing highlighted changes nothing.
    Dragging link [L], a link row is highlighted exactly when it is
    another link (the drop puts [L] before it), a category block exactly
    when the pointer is on no other link and inside that block (the drop
    appends [L] to it), and a drop with nothing highlighted reverts to the
    array as it was and saves it. *)
Theorem onDragOver_announces_drop st d p :
  drag_consistent st ->
  (forall a, draggedItem st = Some (ECategory a) ->
     (forall c, onDragOver st p = Some (DragOverCategory c) <-> over_category p = Some c /\ c <> a) /\
     (forall t, onDragOver st p <> Some (DragOverLink t)) /\
     (onDragOver st p = None -> onDrop st d p = Done d [])) /\
  (forall L, NoDup (link_ids d) -> L ∈ links d -> draggedItem st = Some (ELink (link_id L)) ->
     (forall t, onDragOver st p = Some (DragOverLink t) <-> over_link p = Some t /\ t <> link_id L) /\
     (forall c, onDragOver st p = Some (DragOverCategory c) <->
        (over_link p = None \/ over_link p = Some (link_id L)) /\ over_category p = Some c) /\
     (onDragOver st p = None -> onDrop st d p = Done d [WSaveData])).
Proof.
  unfold drag_consistent, onDragOver, onDrop. intros Hdc. split.
  - intros a Ha. rewrite Ha in Hdc |- *. destruct (dragType st) as [[]|]; try done.
    unfold dropCategory. destruct (over_category p) as [c|];
      [case_bool_decide as Hne; [|assert (c = a) as -> by congruence]|];
      split_and!; try done; intros; simplify_eq; try (intuition congruence).
    + by rewrite strict_eq_refl; destruct d.
    + by destruct d.
  - intros L Hnd HL Ha. rewrite Ha in Hdc |- *. destruct (dragType st) as [[]|]; try done.
    cbn [elem_id]. destruct (over_link p) as [t|] eqn:Hl;
      [case_bool_decide as Hne; [|assert (t = link_id L) as -> by congruence]|];
      destruct (over_category p) as [c|] eqn:Hc; split_and!; intros; simplify_eq;
      try (intuition congruence); rewrite dropLink_outside by auto; by destruct d.
Qed.

(** ** The drop theorems applied to the sample dashboard *)

Definition l1 : Link := mkLink "l1" "Docs" "" "https://docs.example" "c1".
Definition l2 : Link := mkLink "l2" "Board" "" "https://board.example" "c1".
Definition l3 : Link := mkLink "l3" "News" "" "https://news.example" "c2".
Definition c1 : Category := mkCategory "c1" "Projects" (Some "w").
Definition c2 : Category := mkCategory "c2" "Favorites" (Some "h").

Lemma dropLink_onto_link_witness :
  NoDup (link_id <$> links sample) /\ l1 ∈ links sample /\ l3 ∈ links sample /\
  link_id l1 <> link_id l3 /\
  exists pre0 post0 pre post,
    links sample = pre0 ++ l1 :: post0 /\ pre0 ++ post0 = pre ++ l3 :: post /\
    dropLink (links sample) (link_id l1) (mkDropPoint (Some "l3") (Some "c2")) =
      Done (pre ++ move_link (categoryId l3) l1 :: l3 :: post) [WSaveData].
Proof.
  split_and!; [decide_true..|].
  apply dropLink_onto_link; [decide_true..|reflexivity].
Defined.

Lemma dropLink_into_category_witness :
  NoDup (link_id <$> links sample) /\ l1 ∈ links sample /\
  exists pre post, links sample = pre ++ l1 :: post /\
    dropLink (links sample) (link_id l1) (mkDropPoint None (Some "c2")) =
      Done ((pre ++ post) ++ [move_link "c2" l1]) [WSaveData].
Proof.
  split_and!; [decide_true..|].
  apply dropLink_into_category; [decide_true|decide_true|by left|reflexivity].
Defined.

Lemma dropLink_into_category_shown_witness :
  NoDup (link_id <$> links sample) /\ l1 ∈ links sample /\
  exists ls', dropLink (links sample) (link_id l1) (mkDropPoint None (Some "c2")) =
      Done ls' [WSaveData] /\
    catLinks ls' "c2" =
      catLinks (List.filter (fun l => link_id l !== link_id l1) (links sample)) "c2" ++
      [move_link "c2" l1] /\
    forall c', c' <> "c2" ->
      catLinks ls' c' = catLinks (List.filter (fun l => link_id l !== link_id l1) (links sample)) c'.
Proof.
  split_and!; [decide_true..|].
  apply dropLink_into_category_shown; [decide_true|decide_true|by left|reflexivity].
Defined.

Lemma dropLink_wf_witness :
  wf sample /\
  wf (set_links sample (outcome_state (dropLink (links sample) "l1"
                                         (mkDropPoint (Some "l3") (Some "c2"))))).
Proof.
  split; [decide_true|].
  apply dropLink_wf; [decide_true|]. intros c [= <-]. decide_true.
Defined.

Lemma dropCategory_before_witness :
  NoDup (cat_id <$> categories sample) /\ c2 ∈ categories sample /\ c1 ∈ categories sample /\
  cat_id c2 <> cat_id c1 /\
  exists pre0 post0 pre post,
    categories sample = pre0 ++ c2 :: post0 /\ pre0 ++ post0 = pre ++ c1 :: post /\
    dropCategory (categories sample) (cat_id c2) (mkDropPoint None (Some "c1")) =
      (pre ++ c2 :: c1 :: post, [WSaveData]).
Proof.
  split_and!; [decide_true..|].
  apply dropCategory_before; [decide_true..|reflexivity].
Defined.

Lemma dropCategory_noop_witness :
  NoDup (cat_id <$> [] ++ c1 :: c2 :: []) /\
  dropCategory ([] ++ c1 :: c2 :: []) (cat_id c1) (mkDropPoint None (Some "c2")) =
    ([] ++ c1 :: c2 :: [], [WSaveData]).
Proof.
  split; [decide_true|].
  apply (proj2 (dropCategory_noop [] c1 c2 [] (mkDropPoint None (Some "c2"))
                  ltac:(decide_true))). reflexivity.
Defined.

Lemma dropCategory_wf_witness :
  wf sample /\
  wf (set_categories sample (fst (dropCategory (categories sample) "c2"
                                    (mkDropPoint None (Some "c1"))))).
Proof. split; [decide_true|apply dropCategory_wf; decide_true]. Defined.

Lemma drag_reachable_consistent_witness :
  drag_reachable (drag_event drag_init (DragStart (Some (ELink "l1")))) /\
  drag_consistent (drag_event drag_init (DragStart (Some (ELink "l1")))).
Proof.
  assert (drag_reachable (drag_event drag_init (DragStart (Some (ELink "l1"))))) as H
    by (apply drag_reachable_step, drag_reachable_init).
  split; [exact H|exact (drag_reachable_consistent _ H)].
Defined.

Lemma onDragOver_announces_drop_witness :
  let st := mkDragState (Some (ELink "l2")) (Some DragLink) [] in
  let p := mkDropPoint (Some "l1") (Some "c1") in
  drag_consistent st /\ onDragOver st p = Some (DragOverLink "l1") /\
  ((forall a, draggedItem st = Some (ECategory a) ->
     (forall c, onDragOver st p = Some (DragOverCategory c) <-> over_category p = Some c /\ c <> a) /\
     (forall t, onDragOver st p <> Some (DragOverLink t)) /\
     (onDragOver st p = None -> onDrop st sample p = Done sample [])) /\
  (forall L, NoDup (link_ids sample) -> L ∈ links sample -> draggedItem st = Some (ELink (link_id L)) ->
     (forall t, onDragOver st p = Some (DragOverLink t) <-> over_link p = Some t /\ t <> link_id L) /\
     (forall c, onDragOver st p = Some (DragOverCategory c) <->
        (over_link p = None \/ over_link p = Some (link_id L)) /\ over_category p = Some c) /\
     (onDragOver st p = None -> onDrop st sample p = Done sample [WSaveData]))).
Proof.
  cbv zeta. split; [exact I|split; [reflexivity|]].
  exact (onDragOver_announces_drop (mkDragState (Some (ELink "l2")) (Some DragLink) []) sample
           (mkDropPoint (Some "l1") (Some "c1")) I).
Defined.

Lemma dropLink_self_reorders_witness :
  NoDup (link_id <$> [] ++ l1 :: [l2]) /\ l2 ∈ [l2] /\ categoryId l2 = categoryId l1 /\
  exists ls', dropLink ([] ++ l1 :: [l2]) (link_id l1) (mkDropPoint (Some "l1") (Some "c1")) =
                Done ls' [WSaveData] /\
    catLinks ls' (categoryId l1) <> catLinks ([] ++ l1 :: [l2]) (categoryId l1).
Proof.
  assert (Hnd : NoDup (link_id <$> [] ++ l1 :: [l2])) by decide_true.
  assert (Hm : l2 ∈ [l2]) by by left.
  split_and!; [exact Hnd|exact Hm|reflexivity|].
  exact (dropLink_self_reorders [] l1 [l2] l2 (mkDropPoint (Some "l1") (Some "c1")) Hnd Hm
           eq_refl eq_refl eq_refl).
Defined.
