(* ===== verification/IdGen.v ===== *)
(** [generateId()] of src/Dashboard/script.js (lines 644-646):
    [Date.now().toString(36) + Math.random().toString(36).substring(2)].
    [Number.prototype.toString(36)] on the non-negative integer [Date.now()]
    is [toString36], a digit loop run on binary numbers with a fuel that
    bounds the number of digits; the text [Math.random().toString(36)] is
    an input (a random fraction printed as ["0."] followed by base-36
    digits), of which the id keeps the characters after the first two. *)

From S2P Require Import Prelude.

Local Open Scope N_scope.

(** The base-36 digit [d] (below 36): ['0'-'9'] then ['a'-'z']. *)
Definition digit36 (d : N) : ascii :=
  if d <? 10 then ascii_of_N (48 + d) else ascii_of_N (87 + d).

(** The digits of [n], most significant first; [fuel] bounds their
    number. *)
Fixpoint digits36 (fuel : nat) (n : N) : list ascii :=
  match fuel with
  | O => []
  | S f => if n <? 36 then [digit36 n] else digits36 f (n / 36) ++ [digit36 (n mod 36)]
  end.

(** [n.toString(36)]: the loop runs at most [log2 n + 1] times. *)
Definition toString36 (n : N) : string :=
  string_of_list_ascii (digits36 (S (N.to_nat (N.size n))) n).

(** [str.substring(2)]: the characters from index 2 on ([""] when there
    are fewer). *)
Definition substring_from2 (s : string) : string :=
  String.substring 2 (String.length s - 2) s.

(** Line 645. *)
Definition generateId (now : N) (random36 : string) : string :=
  (toString36 now ++ substring_from2 random36)%string.

(** [parseInt(s, 36)] on a string of base-36 digits: the reference the
    printing is checked against. *)
Definition digit_value (c : ascii) : N :=
  let n := N_of_ascii c in if n <? 97 then n - 48 else n - 87.

Definition value36 (cs : list ascii) : N :=
  fold_left (fun acc c => acc * 36 + digit_value c) cs 0.

(** ** Lemmas *)

Lemma digit_value_digit36 d : d < 36 -> digit_value (digit36 d) = d.
Proof.
  intros Hd. unfold digit_value, digit36.
  destruct (N.ltb_spec d 10).
  - rewrite N_ascii_embedding by lia. destruct (N.ltb_spec (48 + d) 97); lia.
  - rewrite N_ascii_embedding by lia. destruct (N.ltb_spec (87 + d) 97); lia.
Qed.

Lemma value36_snoc cs c : value36 (cs ++ [c]) = value36 cs * 36 + digit_value c.
Proof. unfold value36. by rewrite fold_left_app. Qed.

Lemma digits36_value f n : n < 2 ^ N.of_nat f -> value36 (digits36 f n) = n.
Proof.
  revert n. induction f as [|f IH]; intros n Hn; simpl.
  - simpl in Hn. unfold value36. simpl. lia.
  - destruct (N.ltb_spec n 36).
    + unfold value36. simpl. rewrite digit_value_digit36 by lia. lia.
    + rewrite value36_snoc, IH, digit_value_digit36.
      * pose proof (N.div_mod n 36). lia.
      * apply N.mod_lt. lia.
      * rewrite Nat2N.inj_succ, N.pow_succ_r' in Hn.
        apply N.Div0.div_lt_upper_bound. lia.
Qed.

Lemma size_fuel n : n < 2 ^ N.of_nat (S (N.to_nat (N.size n))).
Proof.
  rewrite Nat2N.inj_succ, N2Nat.id, N.pow_succ_r'.
  pose proof (N.size_gt n). lia.
Qed.

Lemma digits36_bounds f n :
  1 <= n -> n < 2 ^ N.of_nat f ->
  36 ^ N.of_nat (length (digits36 f n) - 1) <= n < 36 ^ N.of_nat (length (digits36 f n)).
Proof.
  revert n. induction f as [|f IH]; intros n H1 Hn; [simpl in Hn; lia|]. simpl.
  destruct (N.ltb_spec n 36); [simpl; lia|].
  rewrite Nat2N.inj_succ, N.pow_succ_r' in Hn.
  assert (1 <= n / 36) by (apply N.div_le_lower_bound; lia).
  destruct (IH (n / 36)) as [Hlo Hhi]; [done|apply N.Div0.div_lt_upper_bound; lia|].
  rewrite length_app. simpl.
  remember (length (digits36 f (n / 36))) as m eqn:Hm. destruct m as [|m]; [simpl in *; lia|].
  rewrite Nat.add_1_r in *. simpl Nat.sub in *. rewrite Nat.sub_0_r in Hlo.
  rewrite !Nat2N.inj_succ, !N.pow_succ_r' in *.
  pose proof (N.div_mod n 36 ltac:(lia)). pose proof (N.mod_lt n 36 ltac:(lia)).
  set (q := n / 36) in *. set (r := n mod 36) in *. set (P := 36 ^ N.of_nat m) in *. lia.
Qed.

Lemma length_string_of_list_ascii l : String.length (string_of_list_ascii l) = length l.
Proof. induction l as [|c l IH]; simpl; [done|by rewrite IH]. Qed.

Lemma list_ascii_of_toString36 n :
  list_ascii_of_string (toString36 n) = digits36 (S (N.to_nat (N.size n))) n.
Proof. apply list_ascii_of_string_of_list_ascii. Qed.

(** C17: [parseInt(n.toString(36), 36) = n]: the printed digits are the
    base-36 representation of [n], so distinct times print differently. *)
Theorem toString36_roundtrip n : value36 (list_ascii_of_string (toString36 n)) = n.
Proof. rewrite list_ascii_of_toString36. apply digits36_value, size_fuel. Qed.

(** C18: A positive number prints with exactly [k] base-36 digits when
    [36^(k-1) <= n < 36^k]: no leading zero, no missing digit. *)
Theorem toString36_length n :
  1 <= n ->
  36 ^ N.of_nat (String.length (toString36 n) - 1) <= n <
  36 ^ N.of_nat (String.length (toString36 n)).
Proof.
  intros Hn. unfold toString36. rewrite length_string_of_list_ascii.
  by apply digits36_bounds, size_fuel.
Qed.

Lemma length_list_ascii_of_string s : length (list_ascii_of_string s) = String.length s.
Proof. induction s as [|c s IH]; simpl; [done|by rewrite IH]. Qed.

(** Between 1973 and 2059 ([36^7 <= Date.now() < 36^8] milliseconds)
    the time prints with eight digits. *)
Lemma toString36_eight_digits t :
  36 ^ 7 <= t < 36 ^ 8 -> String.length (toString36 t) = 8%nat.
Proof.
  intros Ht. unfold toString36. rewrite length_string_of_list_ascii.
  assert (1 <= t) by (assert (1 <= 36 ^ 7) by decide_true; lia).
  destruct (digits36_bounds (S (N.to_nat (N.size t))) t) as [Hlo Hhi]; [done|apply size_fuel|].
  set (k := length _) in *.
  destruct (decide (k <= 7)%nat) as [Hk|Hk].
  - pose proof (N.pow_le_mono_r 36 (N.of_nat k) 7 ltac:(lia) ltac:(lia)). lia.
  - destruct (decide (k = 8%nat)) as [|Hk8]; [done|].
    pose proof (N.pow_le_mono_r 36 8 (N.of_nat (k - 1)) ltac:(lia) ltac:(lia)). lia.
Qed.

(** The ids are never empty, so [if (id)] always sees them. *)
Lemma generateId_truthy t r : truthy (generateId t r) = true.
Proof.
  unfold generateId, toString36. simpl. destruct (t <? 36); [done|].
  by destruct (digits36 _ _).
Qed.

(** C16: Two ids generated in different milliseconds (between 1973 and
    2059) differ, whatever the random parts: the time prefix has the same
    length for both and determines the time. *)
Theorem generateId_distinct_times t1 t2 r1 r2 :
  36 ^ 7 <= t1 < 36 ^ 8 -> 36 ^ 7 <= t2 < 36 ^ 8 -> t1 <> t2 ->
  generateId t1 r1 <> generateId t2 r2.
Proof.
  intros H1 H2 Hne Heq. apply (f_equal list_ascii_of_string) in Heq.
  unfold generateId in Heq. rewrite !list_ascii_of_string_app in Heq.
  apply app_inj_1 in Heq as [Hp _];
    [|by rewrite !length_list_ascii_of_string, !toString36_eight_digits].
  apply Hne. apply (f_equal value36) in Hp. rewrite !list_ascii_of_toString36 in Hp.
  by rewrite !digits36_value in Hp by apply size_fuel.
Qed.

(** ** Witnesses *)

Lemma toString36_length_witness :
  1 <= 1762700000000 /\ toString36 1762700000000 = "mhru2gow"%string /\
  36 ^ N.of_nat (String.length (toString36 1762700000000) - 1) <= 1762700000000 <
  36 ^ N.of_nat (String.length (toString36 1762700000000)).
Proof.
  assert (H : 1 <= 1762700000000) by lia.
  split_and!; [exact H|reflexivity|apply (toString36_length _ H)..].
Defined.

Lemma generateId_distinct_times_witness :
  36 ^ 7 <= 1762700000000 < 36 ^ 8 /\ 36 ^ 7 <= 1762700000001 < 36 ^ 8 /\
  generateId 1762700000000 "0.4fzyo82mvyr" <> generateId 1762700000001 "0.4fzyo82mvyr".
Proof.
  assert (H1 : 36 ^ 7 <= 1762700000000 < 36 ^ 8) by (split; decide_true).
  assert (H2 : 36 ^ 7 <= 1762700000001 < 36 ^ 8) by (split; decide_true).
  split; [exact H1|split; [exact H2|]].
  apply (generateId_distinct_times _ _ _ _ H1 H2). discriminate.
Defined.
