(* ===== verification/Json.v ===== *)
(** [JSON.stringify] and [JSON.parse] on the values the script stores
    (arrays of objects whose fields are strings or [null]).  Text is a
    list of characters (UTF-16 code units below 256, as everywhere in
    the development).  [stringify] follows ECMA-262's SerializeJSONProperty
    and QuoteJSONString; [parse_json] follows the JSON grammar with its
    four whitespace characters and rejects trailing text.  Numbers are
    not modelled: the script never stores one, and the parser answers
    [None] on them as on a syntax error. *)

From S2P Require Import Prelude.

Local Open Scope char_scope.

(** The quotation mark, code unit 34. *)
Abbreviation dq := (Ascii false true false false false true false false).

Inductive json :=
  | JNull
  | JBool (b : bool)
  | JString (s : string)
  | JArray (xs : list json)
  | JObject (kvs : list (string * json)).

(** ** Printing *)

Definition hex_digit (n : nat) : ascii :=
  if (n <? 10)%nat then ascii_of_nat (48 + n) else ascii_of_nat (87 + n).

(** QuoteJSONString: the escapes of one code unit. *)
Definition json_escape (c : ascii) : list ascii :=
  let n := nat_of_ascii c in
  if (n =? 34)%nat then ["\"; dq]
  else if (n =? 92)%nat then ["\"; "\"]
  else if (n =? 8)%nat then ["\"; "b"]
  else if (n =? 9)%nat then ["\"; "t"]
  else if (n =? 10)%nat then ["\"; "n"]
  else if (n =? 12)%nat then ["\"; "f"]
  else if (n =? 13)%nat then ["\"; "r"]
  else if (n <? 32)%nat then ["\"; "u"; "0"; "0"; hex_digit (n / 16); hex_digit (n mod 16)]
  else [c].

Definition quote (s : string) : list ascii :=
  dq :: List.concat (map json_escape (list_ascii_of_string s)) ++ [dq].

(** The elements of an array or object, separated by commas. *)
Fixpoint join (xs : list (list ascii)) : list ascii :=
  match xs with
  | [] => []
  | [x] => x
  | x :: xs' => x ++ "," :: join xs'
  end.

Fixpoint stringify (v : json) : list ascii :=
  match v with
  | JNull => ["n"; "u"; "l"; "l"]
  | JBool true => ["t"; "r"; "u"; "e"]
  | JBool false => ["f"; "a"; "l"; "s"; "e"]
  | JString s => quote s
  | JArray xs => "[" :: join (map stringify xs) ++ ["]"]
  | JObject kvs =>
      "{" :: join (map (fun kv => quote (fst kv) ++ ":" :: stringify (snd kv)) kvs) ++ ["}"]
  end.

Definition JSON_stringify (v : json) : string := string_of_list_ascii (stringify v).

(** ** Parsing *)

(** JSON whitespace: tab, line feed, carriage return, space. *)
Definition json_ws (c : ascii) : bool :=
  let n := nat_of_ascii c in ((n =? 9) || (n =? 10) || (n =? 13) || (n =? 32))%nat.

Fixpoint skip_ws (cs : list ascii) : list ascii :=
  match cs with
  | c :: r => if json_ws c then skip_ws r else cs
  | [] => []
  end.

Definition hex_value (c : ascii) : option nat :=
  let n := nat_of_ascii c in
  if ((48 <=? n) && (n <=? 57))%nat then Some (n - 48)
  else if ((97 <=? n) && (n <=? 102))%nat then Some (n - 87)
  else if ((65 <=? n) && (n <=? 70))%nat then Some (n - 55)
  else None.

(** A [\uXXXX] escape; code units above 255 are outside the model. *)
Definition unicode_escape (a b c d : ascii) : option ascii :=
  match hex_value a, hex_value b, hex_value c, hex_value d with
  | Some va, Some vb, Some vc, Some vd =>
      let v := ((va * 16 + vb) * 16 + vc) * 16 + vd in
      if (v <? 256)%nat then Some (ascii_of_nat v) else None
  | _, _, _, _ => None
  end.

(** The characters of a string literal after its opening quote, up to and
    including the closing quote; raw control characters are an error. *)
Fixpoint parse_chars (cs : list ascii) : option (list ascii * list ascii) :=
  match cs with
  | [] => None
  | c :: r =>
      let n := nat_of_ascii c in
      if (n =? 34)%nat then Some ([], r)
      else if (n =? 92)%nat then
        match r with
        | "u" :: a :: b :: c' :: d :: r' =>
            match unicode_escape a b c' d, parse_chars r' with
            | Some x, Some (s, rest) => Some (x :: s, rest)
            | _, _ => None
            end
        | e :: r' =>
            let esc := match e with
                       | dq => Some dq | "\" => Some "\" | "/" => Some "/"
                       | "b" => Some (ascii_of_nat 8) | "f" => Some (ascii_of_nat 12)
                       | "n" => Some (ascii_of_nat 10) | "r" => Some (ascii_of_nat 13)
                       | "t" => Some (ascii_of_nat 9) | _ => None
                       end in
            match esc, parse_chars r' with
            | Some x, Some (s, rest) => Some (x :: s, rest)
            | _, _ => None
            end
        | [] => None
        end
      else if (n <? 32)%nat then None
      else match parse_chars r with
           | Some (s, rest) => Some (c :: s, rest)
           | None => None
           end
  end.

(** A value, the elements of an array after its [[], the members of an
    object after its [{]; the fuel bounds the nesting and the number of
    elements. *)
Fixpoint parse_value (fuel : nat) (cs : list ascii) {struct fuel} : option (json * list ascii) :=
  match fuel with
  | O => None
  | S fuel' =>
      match skip_ws cs with
      | "n" :: "u" :: "l" :: "l" :: r => Some (JNull, r)
      | "t" :: "r" :: "u" :: "e" :: r => Some (JBool true, r)
      | "f" :: "a" :: "l" :: "s" :: "e" :: r => Some (JBool false, r)
      | dq :: r =>
          match parse_chars r with
          | Some (s, r') => Some (JString (string_of_list_ascii s), r')
          | None => None
          end
      | "[" :: r =>
          match skip_ws r with
          | "]" :: r' => Some (JArray [], r')
          | _ => match parse_elems fuel' r with
                 | Some (xs, r') => Some (JArray xs, r')
                 | None => None
                 end
          end
      | "{" :: r =>
          match skip_ws r with
          | "}" :: r' => Some (JObject [], r')
          | _ => match parse_members fuel' r with
                 | Some (kvs, r') => Some (JObject kvs, r')
                 | None => None
                 end
          end
      | _ => None
      end
  end
with parse_elems (fuel : nat) (cs : list ascii) {struct fuel} : option (list json * list ascii) :=
  match fuel with
  | O => None
  | S fuel' =>
      match parse_value fuel' cs with
      | Some (v, r) =>
          match skip_ws r with
          | "," :: r' =>
              match parse_elems fuel' r' with
              | Some (vs, r'') => Some (v :: vs, r'')
              | None => None
              end
          | "]" :: r' => Some ([v], r')
          | _ => None
          end
      | None => None
      end
  end
with parse_members (fuel : nat) (cs : list ascii) {struct fuel}
    : option (list (string * json) * list ascii) :=
  match fuel with
  | O => None
  | S fuel' =>
      match skip_ws cs with
      | dq :: r =>
          match parse_chars r with
          | Some (k, r1) =>
              match skip_ws r1 with
              | ":" :: r2 =>
                  match parse_value fuel' r2 with
                  | Some (v, r3) =>
                      match skip_ws r3 with
                      | "," :: r4 =>
                          match parse_members fuel' r4 with
                          | Some (kvs, r5) => Some ((string_of_list_ascii k, v) :: kvs, r5)
                          | None => None
                          end
                      | "}" :: r4 => Some ([(string_of_list_ascii k, v)], r4)
                      | _ => None
                      end
                  | None => None
                  end
              | _ => None
              end
          | None => None
          end
      | _ => None
      end
  end.

(** [JSON.parse(text)]: [None] is a [SyntaxError]. *)
Definition parse_json (cs : list ascii) : option json :=
  match parse_value (S (length cs)) cs with
  | Some (v, r) => match skip_ws r with [] => Some v | _ => None end
  | None => None
  end.

Definition JSON_parse (s : string) : option json := parse_json (list_ascii_of_string s).

(** The characters a JSON value can begin with (ECMA-404): an object, an
    array, a string, [true], [false], [null], or a number. *)
Definition value_start (c : ascii) : bool :=
  Ascii.eqb c "{" || Ascii.eqb c "[" || Ascii.eqb c dq || Ascii.eqb c "t" || Ascii.eqb c "f" ||
  Ascii.eqb c "n" || Ascii.eqb c "-" ||
  (48 <=? nat_of_ascii c)%nat && (nat_of_ascii c <=? 57)%nat.

(** A text whose first non-whitespace character begins no JSON value
    (or that is only whitespace): every JSON parser rejects it. *)
Definition starts_no_value (s : string) : bool :=
  match skip_ws (list_ascii_of_string s) with c :: _ => negb (value_start c) | [] => true end.

(** ** Round trip of the string escapes *)

Lemma ascii_of_nat_of_ascii_eq c k : nat_of_ascii c = k -> c = ascii_of_nat k.
Proof. intros <-. symmetry. apply ascii_nat_embedding. Qed.

Lemma hex_value_digit k : (k < 16)%nat -> hex_value (hex_digit k) = Some k.
Proof.
  intros Hk.
  do 16 (destruct k as [|k]; [reflexivity|]). lia.
Qed.

(** Parsing the escape of one character gives the character back,
    whatever follows. *)
Lemma parse_chars_escape c r :
  parse_chars (json_escape c ++ r) =
  match parse_chars r with Some (s, rest) => Some (c :: s, rest) | None => None end.
Proof.
  unfold json_escape. set (n := nat_of_ascii c).
  assert (Hc : c = ascii_of_nat n) by (by apply ascii_of_nat_of_ascii_eq).
  destruct (n =? 34)%nat eqn:E34; [apply Nat.eqb_eq in E34; rewrite Hc, E34; reflexivity|].
  destruct (n =? 92)%nat eqn:E92; [apply Nat.eqb_eq in E92; rewrite Hc, E92; reflexivity|].
  destruct (n =? 8)%nat eqn:E8; [apply Nat.eqb_eq in E8; rewrite Hc, E8; reflexivity|].
  destruct (n =? 9)%nat eqn:E9; [apply Nat.eqb_eq in E9; rewrite Hc, E9; reflexivity|].
  destruct (n =? 10)%nat eqn:E10; [apply Nat.eqb_eq in E10; rewrite Hc, E10; reflexivity|].
  destruct (n =? 12)%nat eqn:E12; [apply Nat.eqb_eq in E12; rewrite Hc, E12; reflexivity|].
  destruct (n =? 13)%nat eqn:E13; [apply Nat.eqb_eq in E13; rewrite Hc, E13; reflexivity|].
  destruct (n <? 32)%nat eqn:E32.
  - apply Nat.ltb_lt in E32.
    assert (unicode_escape "0" "0" (hex_digit (n / 16)) (hex_digit (n mod 16)) = Some c) as Hu.
    { unfold unicode_escape.
      rewrite !hex_value_digit by (apply Nat.mod_upper_bound || apply Nat.Div0.div_lt_upper_bound; lia).
      replace (hex_value "0") with (Some 0%nat) by reflexivity. cbv beta iota zeta.
      replace (((0 * 16 + 0) * 16 + n / 16) * 16 + n mod 16)%nat with n
        by (pose proof (Nat.div_mod_eq n 16); lia).
      rewrite (proj2 (Nat.ltb_lt n 256)) by lia. by rewrite <- Hc. }
    set (h1 := hex_digit (n / 16)) in *. set (h2 := hex_digit (n mod 16)) in *.
    simpl parse_chars. by rewrite Hu.
  - simpl. fold n. rewrite E34, E92, E32. done.
Qed.

Lemma parse_chars_quote_body cs rest :
  parse_chars (List.concat (map json_escape cs) ++ dq :: rest) = Some (cs, rest).
Proof.
  induction cs as [|c cs IH]; [reflexivity|].
  simpl. rewrite <- app_assoc, parse_chars_escape, IH. done.
Qed.

(** ** Round trip of values *)

(** Induction on [json] with hypotheses for the elements of arrays and
    the values of objects. *)
Section JsonInd.
Variable P : json -> Prop.
Hypothesis HNull : P JNull.
Hypothesis HBool : forall b, P (JBool b).
Hypothesis HString : forall s, P (JString s).
Hypothesis HArray : forall xs, Forall P xs -> P (JArray xs).
Hypothesis HObject : forall kvs, Forall (fun kv => P (snd kv)) kvs -> P (JObject kvs).

Fixpoint json_ind' (v : json) : P v :=
  match v with
  | JNull => HNull
  | JBool b => HBool b
  | JString s => HString s
  | JArray xs =>
      HArray xs ((fix go (l : list json) : Forall P l :=
                    match l with
                    | [] => @List.Forall_nil _ P
                    | x :: l' => @List.Forall_cons _ P x l' (json_ind' x) (go l')
                    end) xs)
  | JObject kvs =>
      HObject kvs ((fix go (l : list (string * json)) : Forall (fun kv => P (snd kv)) l :=
                      match l with
                      | [] => @List.Forall_nil _ (fun kv => P (snd kv))
                      | kv :: l' =>
                          @List.Forall_cons _ (fun kv => P (snd kv)) kv l' (json_ind' (snd kv)) (go l')
                      end) kvs)
  end.
End JsonInd.

(** The fuel a value needs: one per node and one per element. *)
Fixpoint json_size (v : json) : nat :=
  match v with
  | JArray xs => S (list_sum (map (fun x => S (json_size x)) xs))
  | JObject kvs => S (list_sum (map (fun kv => S (json_size (snd kv))) kvs))
  | _ => 1
  end.

Lemma stringify_head v :
  exists c r, stringify v = c :: r /\ json_ws c = false /\ c <> "]" /\ c <> "}".
Proof. destruct v as [|[]| | |]; eexists _, _; (split; [reflexivity|]); done. Qed.

Lemma skip_ws_stringify v rest : skip_ws (stringify v ++ rest) = stringify v ++ rest.
Proof. destruct (stringify_head v) as (c & r & -> & Hc & _). simpl. by rewrite Hc. Qed.

Lemma skip_ws_quote s rest : skip_ws (quote s ++ rest) = quote s ++ rest.
Proof. reflexivity. Qed.

Lemma parse_value_quote n s rest :
  parse_value (S n) (quote s ++ rest) = Some (JString s, rest).
Proof.
  simpl. unfold quote. simpl. rewrite <- app_assoc. simpl.
  rewrite parse_chars_quote_body. by rewrite string_of_list_ascii_of_string.
Qed.

Lemma match_close_bracket {B} (x : json) tl (f : list ascii -> B) (g : B) :
  match stringify x ++ tl with "]" :: r' => f r' | _ => g end = g.
Proof. destruct x as [|[]| | |]; reflexivity. Qed.

Lemma join_map_cons2 {A} (f : A -> list ascii) x y ys :
  join (map f (x :: y :: ys)) = f x ++ "," :: join (map f (y :: ys)).
Proof. reflexivity. Qed.

Definition roundtrips (v : json) : Prop :=
  forall n rest, (json_size v <= n)%nat -> parse_value n (stringify v ++ rest) = Some (v, rest).

Lemma parse_elems_stringify xs n rest :
  xs <> [] -> Forall roundtrips xs ->
  (list_sum (map (fun x => S (json_size x)) xs) <= n)%nat ->
  parse_elems n (join (map stringify xs) ++ "]" :: rest) = Some (xs, rest).
Proof.
  intros Hne HF. revert n. induction HF as [|x xs Hx HF IH]; [done|]. intros n Hn.
  destruct n as [|n]; [simpl in Hn; lia|].
  destruct xs as [|y ys].
  - cbn [parse_elems map join]. rewrite Hx by (simpl in Hn; lia). reflexivity.
  - rewrite join_map_cons2, <- app_assoc. cbn [parse_elems app].
    rewrite Hx by (simpl in Hn; lia). cbv beta iota. simpl skip_ws. cbv beta iota.
    rewrite IH; [done|discriminate|simpl in *; lia].
Qed.

Definition member (kv : string * json) : list ascii := quote (fst kv) ++ ":" :: stringify (snd kv).

Lemma parse_members_stringify kvs n rest :
  kvs <> [] -> Forall (fun kv => roundtrips (snd kv)) kvs ->
  (list_sum (map (fun kv => S (json_size (snd kv))) kvs) <= n)%nat ->
  parse_members n (join (map member kvs) ++ "}" :: rest) = Some (kvs, rest).
Proof.
  intros Hne HF. revert n. induction HF as [|[k v] kvs Hv HF IH]; [done|]. intros n Hn.
  destruct n as [|n]; [simpl in Hn; lia|]. simpl in Hv.
  assert (forall tl, parse_chars (tail (quote k ++ ":" :: stringify v ++ tl)) =
                     Some (list_ascii_of_string k, ":" :: stringify v ++ tl)) as Hk.
  { intros tl. unfold quote. simpl. rewrite <- app_assoc. apply parse_chars_quote_body. }
  destruct kvs as [|kv' kvs'].
  - cbn [map join]. unfold member. simpl fst. simpl snd.
    rewrite <- !app_assoc. simpl (_ ++ _ :: _).
    pose proof (Hk ("}" :: rest)) as Hk'. unfold quote in Hk' |- *. simpl in Hk' |- *.
    rewrite Hk'. simpl skip_ws. cbv beta iota.
    rewrite Hv by (simpl in Hn; lia). simpl. by rewrite string_of_list_ascii_of_string.
  - rewrite join_map_cons2. unfold member at 1. simpl fst. simpl snd.
    rewrite <- !app_assoc. simpl (_ ++ _ :: _).
    pose proof (Hk ("," :: join (map member (kv' :: kvs')) ++ "}" :: rest)) as Hk'.
    unfold quote in Hk' |- *. simpl in Hk' |- *. rewrite Hk'. simpl skip_ws. cbv beta iota.
    rewrite Hv by (simpl in Hn; lia). simpl skip_ws. cbv beta iota.
    rewrite IH; [|discriminate|simpl in *; lia]. by rewrite string_of_list_ascii_of_string.
Qed.

Lemma join_map_cons {A} (f : A -> list ascii) x xs :
  exists t, join (map f (x :: xs)) = f x ++ t.
Proof. destruct xs; [exists []; by rewrite app_nil_r|eexists; apply join_map_cons2]. Qed.

Lemma stringify_array_app xs rest :
  stringify (JArray xs) ++ rest = "[" :: join (map stringify xs) ++ "]" :: rest.
Proof. simpl. by rewrite <- app_assoc. Qed.

Lemma stringify_object_app kvs rest :
  stringify (JObject kvs) ++ rest = "{" :: join (map member kvs) ++ "}" :: rest.
Proof. simpl. by rewrite <- app_assoc. Qed.

Lemma skip_ws_member kv tl : skip_ws (member kv ++ tl) = member kv ++ tl.
Proof. reflexivity. Qed.

Lemma match_close_brace {B} kv tl (f : list ascii -> B) (g : B) :
  match member kv ++ tl with "}" :: r' => f r' | _ => g end = g.
Proof. reflexivity. Qed.

Lemma parse_value_stringify v : roundtrips v.
Proof.
  induction v as [|b|s|xs IH|kvs IH] using json_ind'; intros n rest Hn;
    (destruct n as [|n]; [simpl in Hn; lia|]).
  - reflexivity.
  - by destruct b.
  - apply parse_value_quote.
  - destruct xs as [|x xs']; [reflexivity|].
    rewrite stringify_array_app.
    remember (join (map stringify (x :: xs'))) as J eqn:HJ.
    cbn [parse_value]. simpl skip_ws. cbv beta iota.
    destruct (join_map_cons stringify x xs') as [t Ht]. rewrite Ht in HJ. subst J.
    rewrite <- app_assoc, skip_ws_stringify, match_close_bracket, app_assoc, <- Ht.
    rewrite parse_elems_stringify; [done|discriminate|done|simpl in *; lia].
  - destruct kvs as [|kv kvs']; [reflexivity|].
    rewrite stringify_object_app.
    remember (join (map member (kv :: kvs'))) as J eqn:HJ.
    cbn [parse_value]. simpl skip_ws. cbv beta iota.
    destruct (join_map_cons member kv kvs') as [t Ht]. rewrite Ht in HJ. subst J.
    rewrite <- app_assoc, skip_ws_member, match_close_brace, app_assoc, <- Ht.
    rewrite parse_members_stringify; [done|discriminate|done|simpl in *; lia].
Qed.

Lemma join_length_ge {A} (f : A -> list ascii) (g : A -> nat) xs :
  Forall (fun x => (g x <= length (f x))%nat) xs ->
  (list_sum (map (fun x => S (g x)) xs) <= S (length (join (map f xs))))%nat.
Proof.
  induction 1 as [|x xs Hx HF IH]; simpl; [lia|].
  destruct xs as [|y ys]; simpl in *; [lia|].
  rewrite length_app. simpl. lia.
Qed.

(** The fuel [parse_json] gives, one more than the length of the text, is
    enough for every printed value. *)
Lemma json_size_le v : (json_size v <= length (stringify v))%nat.
Proof.
  induction v as [|b|s|xs IH|kvs IH] using json_ind'.
  - simpl; lia.
  - destruct b; simpl; lia.
  - simpl; lia.
  - cbn [json_size]. rewrite <- (app_nil_r (stringify _)), stringify_array_app.
    cbn [length]. rewrite length_app. cbn [length].
    pose proof (join_length_ge stringify json_size xs IH). lia.
  - cbn [json_size]. rewrite <- (app_nil_r (stringify _)), stringify_object_app.
    cbn [length]. rewrite length_app. cbn [length].
    assert (Forall (fun kv => (json_size (snd kv) <= length (member kv))%nat) kvs) as HF.
    { eapply Forall_impl; [exact IH|]. intros kv Hkv. unfold member. simpl in Hkv.
      rewrite length_app. cbn [length]. lia. }
    pose proof (join_length_ge member (fun kv => json_size (snd kv)) kvs HF). lia.
Qed.

(** The parser reads back the printed characters, with the fuel
    [parse_json] gives it. *)
Lemma parse_json_stringify v : parse_json (stringify v) = Some v.
Proof.
  unfold parse_json.
  pose proof (parse_value_stringify v (S (length (stringify v))) []) as H.
  rewrite app_nil_r in H. rewrite H by (pose proof (json_size_le v); lia). done.
Qed.

Lemma JSON_parse_of_stringify v : JSON_parse (JSON_stringify v) = Some v.
Proof.
  unfold JSON_parse, JSON_stringify. rewrite list_ascii_of_string_of_list_ascii.
  apply parse_json_stringify.
Qed.

(** C6: [JSON.parse] inverts [JSON.stringify] on every value the model
    covers: strings with any code unit (quotes, backslashes and control
    characters included), [null], booleans, and arrays and objects nested
    to any depth. *)
Theorem JSON_parse_stringify v : JSON_parse (JSON_stringify v) = Some v.
Proof. apply JSON_parse_of_stringify. Qed.

Lemma parse_value_no_start fuel cs :
  match skip_ws cs with c :: _ => value_start c = false | [] => True end ->
  parse_value fuel cs = None.
Proof.
  destruct fuel as [|fuel]; [done|]. cbn [parse_value].
  destruct (skip_ws cs) as [|c r]; [done|]. intros Hc.
  destruct c as [[] [] [] [] [] [] [] []]; try discriminate Hc; reflexivity.
Qed.

(** [JSON.parse] throws on a text that begins with no JSON value. *)
Lemma JSON_parse_no_value s : starts_no_value s = true -> JSON_parse s = None.
Proof.
  unfold JSON_parse, parse_json, starts_no_value. intros H.
  rewrite parse_value_no_start; [done|].
  destruct (skip_ws _); [done|]. by apply negb_true_iff.
Qed.
