(* ===== verification/JsonFuel.v ===== *)
(** The fuel of [JSON.parse] ([Json.parse_json]) is never what stops it:
    every parse that succeeds with some fuel consumes fewer characters
    than the fuel [parse_json] gives ([S (length text)]), and succeeds
    with it.  So [parse_json] answers as the unbounded recursive-descent
    parser of the JSON grammar would. *)

From S2P Require Import Prelude Json.

Local Open Scope char_scope.

(** ** The remaining input only shrinks *)

Lemma skip_ws_length cs : length (skip_ws cs) <= length cs.
Proof. induction cs as [|c cs IH]; simpl; [lia|]. destruct (json_ws c); simpl; lia. Qed.

Lemma parse_chars_length cs s r : parse_chars cs = Some (s, r) -> length r < length cs.
Proof.
  revert s. induction cs as [cs IH] using (induction_ltof1 _ (@length ascii)); unfold ltof in IH.
  intros s H. destruct cs as [|c cs]; [done|]. simpl in H.
  repeat case_match; simplify_eq/=; try lia;
    match goal with E : parse_chars ?x = Some _ |- _ => apply IH in E; simpl in *; lia end.
Qed.

(** The three parsers never lengthen their input. *)
Lemma parse_suffix f :
  (forall cs x r, parse_value f cs = Some (x, r) -> length r < length cs) /\
  (forall cs x r, parse_elems f cs = Some (x, r) -> length r < length cs) /\
  (forall cs x r, parse_members f cs = Some (x, r) -> length r < length cs).
Proof.
  induction f as [|f (IHv & IHe & IHm)]; [done|].
  pose proof (skip_ws_length) as Hws. split_and!; intros cs x r H; simpl in H.
  - pose proof (Hws cs). repeat case_match; simplify_eq/=;
      repeat match goal with
      | E : parse_chars _ = Some _ |- _ => apply parse_chars_length in E
      | E : parse_elems _ _ = Some _ |- _ => apply IHe in E
      | E : parse_members _ _ = Some _ |- _ => apply IHm in E
      | E : skip_ws ?a = _ |- _ => pose proof (Hws a); rewrite E in *; clear E
      end; simpl in *; lia.
  - repeat case_match; simplify_eq/=;
      repeat match goal with
      | E : parse_value _ _ = Some _ |- _ => apply IHv in E
      | E : parse_elems _ _ = Some _ |- _ => apply IHe in E
      | E : skip_ws ?a = _ |- _ => pose proof (Hws a); rewrite E in *; clear E
      end; simpl in *; lia.
  - pose proof (Hws cs). repeat case_match; simplify_eq/=;
      repeat match goal with
      | E : parse_chars _ = Some _ |- _ => apply parse_chars_length in E
      | E : parse_value _ _ = Some _ |- _ => apply IHv in E
      | E : parse_members _ _ = Some _ |- _ => apply IHm in E
      | E : skip_ws ?a = _ |- _ => pose proof (Hws a); rewrite E in *; clear E
      end; simpl in *; lia.
Qed.

(** ** Fuel above the consumed length is enough *)

Ltac length_facts :=
  repeat match goal with
  | E : parse_chars _ = Some _ |- _ => apply parse_chars_length in E
  | E : skip_ws ?a = _ |- _ => pose proof (skip_ws_length a); rewrite E in *; clear E
  | E : parse_value ?F _ = Some _ |- _ => apply (proj1 (parse_suffix F)) in E
  | E : parse_elems ?F _ = Some _ |- _ => apply (proj1 (proj2 (parse_suffix F))) in E
  | E : parse_members ?F _ = Some _ |- _ => apply (proj2 (proj2 (parse_suffix F))) in E
  end; simpl in *; lia.

(** A call at the smaller fuel that succeeded also succeeds at the larger
    one: replace the second by the first. *)
Ltac fuel_calls IHv IHe IHm :=
  repeat match goal with
  | E1 : parse_value ?F ?a = Some (?y, ?b), E2 : parse_value ?g ?a = _ |- _ =>
      assert_fails (unify F g);
      rewrite (IHv a y b E1 g) in E2 by length_facts; symmetry in E2; simplify_eq
  | E1 : parse_elems ?F ?a = Some (?y, ?b), E2 : parse_elems ?g ?a = _ |- _ =>
      assert_fails (unify F g);
      rewrite (IHe a y b E1 g) in E2 by length_facts; symmetry in E2; simplify_eq
  | E1 : parse_members ?F ?a = Some (?y, ?b), E2 : parse_members ?g ?a = _ |- _ =>
      assert_fails (unify F g);
      rewrite (IHm a y b E1 g) in E2 by length_facts; symmetry in E2; simplify_eq
  end.

(** Two case splits of the same term: identify their results. *)
Ltac merge_splits :=
  repeat match goal with
  | H1 : ?e = ?a, H2 : ?e = ?b |- _ =>
      assert_fails (unify a b); rewrite H1 in H2; simplify_eq
  end.

Lemma parse_enough F :
  (forall cs x r, parse_value F cs = Some (x, r) ->
     forall g, length cs - length r < g -> parse_value g cs = Some (x, r)) /\
  (forall cs x r, parse_elems F cs = Some (x, r) ->
     forall g, length cs - length r < g -> parse_elems g cs = Some (x, r)) /\
  (forall cs x r, parse_members F cs = Some (x, r) ->
     forall g, length cs - length r < g -> parse_members g cs = Some (x, r)).
Proof.
  induction F as [|F (IHv & IHe & IHm)]; [done|].
  split_and!; intros cs x r H [|g] Hg; try lia; simpl in H |- *;
    repeat case_match; simplify_eq/=; try done; do 3 (merge_splits; fuel_calls IHv IHe IHm); done.
Qed.

(** C13: The fuel [JSON.parse] runs with never runs out: the text is
    accepted, with value [v], exactly when the recursive-descent parser
    reads [v] from it with some amount of fuel, however large, and only
    whitespace follows. *)
Theorem JSON_parse_fuel_enough s v :
  JSON_parse s = Some v <->
  exists fuel r, parse_value fuel (list_ascii_of_string s) = Some (v, r) /\ skip_ws r = [].
Proof.
  unfold JSON_parse, parse_json. set (cs := list_ascii_of_string s). split.
  - destruct (parse_value _ cs) as [[v' r]|] eqn:E; [|done].
    destruct (skip_ws r) eqn:Er; [|done]. intros [= <-]. eauto.
  - intros (fuel & r & Hp & Hr).
    rewrite (proj1 (parse_enough fuel) cs v r Hp) by lia. by rewrite Hr.
Qed.
