(* ===== verification/Persistence.v ===== *)
(** The persistence adapter of src/Dashboard/script.js: [localStorage] as
    a finite map from keys to strings, [saveData()] (lines 648-652) and the
    other [setItem] calls as the interpretation of a handler's
    [StorageWrite]s, and the load of the module-level state at script start
    (lines 2-5 and 12), with its [|| []] and [|| null] fallbacks and the
    [SyntaxError] that [JSON.parse] throws on malformed text. *)

From stdpp Require Import gmap.
From S2P Require Import Prelude Model Repository Json.

Abbreviation Store := (gmap string string).

Definition key_panels : string := "dashboard_panels".
Definition key_categories : string := "dashboard_categories".
Definition key_links : string := "dashboard_links".
Definition key_current : string := "dashboard_current_panel".
Definition key_theme : string := "dashboard_theme".

(** ** Encoding: the objects [JSON.stringify] sees *)

Definition enc_panel (p : Panel) : json :=
  JObject [("id", JString (panel_id p)); ("name", JString (panel_name p))].

(** A [null] [panelId] is written as [null]. *)
Definition enc_category (c : Category) : json :=
  JObject [("id", JString (cat_id c)); ("name", JString (cat_name c));
           ("panelId", match panelId c with Some s => JString s | None => JNull end)].

Definition enc_link (l : Link) : json :=
  JObject [("id", JString (link_id l)); ("name", JString (link_name l));
           ("description", JString (description l)); ("url", JString (url l));
           ("categoryId", JString (categoryId l))].

Definition theme_string (t : Theme) : string :=
  match t with light => "light" | dark => "dark" | custom s => s end.

Definition theme_of_string (s : string) : Theme :=
  if String.eqb s "light" then light else if String.eqb s "dark" then dark else custom s.

(** ** Decoding: property reads on the parsed objects *)

(** [obj.k] on a parsed object: the last member named [k] wins. *)
Fixpoint get_field (k : string) (kvs : list (string * json)) : option json :=
  match kvs with
  | [] => None
  | (k', v) :: r =>
      match get_field k r with
      | Some x => Some x
      | None => if String.eqb k k' then Some v else None
      end
  end.

Definition get_string (k : string) (kvs : list (string * json)) : option string :=
  match get_field k kvs with Some (JString s) => Some s | _ => None end.

(** A record whose fields are not strings (or [null] for [panelId]) is
    outside the model: [None]. *)
Definition dec_panel (v : json) : option Panel :=
  match v with
  | JObject kvs =>
      match get_string "id" kvs, get_string "name" kvs with
      | Some i, Some n => Some (mkPanel i n)
      | _, _ => None
      end
  | _ => None
  end.

Definition dec_category (v : json) : option Category :=
  match v with
  | JObject kvs =>
      let pid := match get_field "panelId" kvs with
                 | Some (JString s) => Some (Some s)
                 | Some JNull | None => Some None
                 | Some _ => None
                 end in
      match get_string "id" kvs, get_string "name" kvs, pid with
      | Some i, Some n, Some p => Some (mkCategory i n p)
      | _, _, _ => None
      end
  | _ => None
  end.

(** A missing [description] reads as [undefined], which the script only
    uses through [|| ''] and truthiness: it is decoded as [""]. *)
Definition dec_link (v : json) : option Link :=
  match v with
  | JObject kvs =>
      let desc := match get_field "description" kvs with
                  | Some (JString s) => Some s
                  | None => Some ""
                  | Some _ => None
                  end in
      match get_string "id" kvs, get_string "name" kvs, desc,
            get_string "url" kvs, get_string "categoryId" kvs with
      | Some i, Some n, Some ds, Some u, Some c => Some (mkLink i n ds u c)
      | _, _, _, _, _ => None
      end
  | _ => None
  end.

Fixpoint decode_all {A} (dec : json -> option A) (xs : list json) : option (list A) :=
  match xs with
  | [] => Some []
  | x :: r =>
      match dec x, decode_all dec r with
      | Some a, Some l => Some (a :: l)
      | _, _ => None
      end
  end.

(** JavaScript truthiness of a parsed value. *)
Definition json_truthy (v : json) : bool :=
  match v with
  | JNull => false
  | JBool b => b
  | JString s => truthy s
  | JArray _ | JObject _ => true
  end.

(** The outcome of reading the stored state: the value, a [SyntaxError]
    thrown by [JSON.parse] (the script stops there), or data of a shape
    the model does not cover. *)
Inductive LoadResult (A : Type) :=
  | Loaded (x : A)
  | LoadSyntaxError
  | LoadOutside.
Arguments Loaded {A}. Arguments LoadSyntaxError {A}. Arguments LoadOutside {A}.

Definition load_bind {A B} (r : LoadResult A) (k : A -> LoadResult B) : LoadResult B :=
  match r with
  | Loaded x => k x
  | LoadSyntaxError => LoadSyntaxError
  | LoadOutside => LoadOutside
  end.

(** [JSON.parse(localStorage.getItem(key)) || []]: an absent key gives
    [JSON.parse(null)], that is [null]; a falsy value gives [[]]. *)
Definition loadArray {A} (dec : json -> option A) (item : option string) : LoadResult (list A) :=
  let text := match item with Some s => s | None => "null" end in
  match JSON_parse text with
  | None => LoadSyntaxError
  | Some v =>
      if json_truthy v then
        match v with
        | JArray xs => match decode_all dec xs with Some l => Loaded l | None => LoadOutside end
        | _ => LoadOutside
        end
      else Loaded []
  end.

(** Line 5: [localStorage.getItem('dashboard_current_panel') || null]. *)
Definition loadCurrent (st : Store) : option string :=
  match st !! key_current with
  | Some s => if truthy s then Some s else None
  | None => None
  end.

(** Line 12: the stored theme string, or the system preference when there
    is none or it is empty. *)
Definition loadTheme (st : Store) (prefersDark : bool) : Theme :=
  match st !! key_theme with
  | Some s => if truthy s then theme_of_string s
              else if prefersDark then dark else light
  | None => if prefersDark then dark else light
  end.

(** Lines 2-5 and 12.  The three [JSON.parse] calls run before anything
    uses their values, so a [SyntaxError] in any of them stops the script,
    whatever the shape of the others. *)
Definition load (st : Store) (prefersDark : bool) : LoadResult Dashboard :=
  let rp := loadArray dec_panel (st !! key_panels) in
  let rc := loadArray dec_category (st !! key_categories) in
  let rl := loadArray dec_link (st !! key_links) in
  match rp, rc, rl with
  | Loaded ps, Loaded cs, Loaded ls =>
      Loaded (mkDashboard ps cs ls (loadCurrent st) (loadTheme st prefersDark))
  | LoadSyntaxError, _, _ | _, LoadSyntaxError, _ | _, _, LoadSyntaxError => LoadSyntaxError
  | _, _, _ => LoadOutside
  end.

(** ** Writing *)

(** Lines 648-652: [saveData()]. *)
Definition saveData (d : Dashboard) (st : Store) : Store :=
  <[key_links := JSON_stringify (JArray (enc_link <$> links d))]>
  (<[key_categories := JSON_stringify (JArray (enc_category <$> categories d))]>
  (<[key_panels := JSON_stringify (JArray (enc_panel <$> panels d))]> st)).

Definition apply_write (d : Dashboard) (st : Store) (w : StorageWrite) : Store :=
  match w with
  | WSaveData => saveData d st
  | WSetCurrentPanel v => <[key_current := v]> st
  | WSetTheme t => <[key_theme := theme_string t]> st
  end.

(** The writes of a handler, in program order, all reading the state the
    handler leaves (every write follows the handler's mutations). *)
Definition apply_writes (d : Dashboard) (ws : list StorageWrite) (st : Store) : Store :=
  foldl (apply_write d) st ws.

(** ** Theorems *)

Lemma dec_enc_panel p : dec_panel (enc_panel p) = Some p.
Proof. by destruct p. Qed.
Lemma dec_enc_category c : dec_category (enc_category c) = Some c.
Proof. by destruct c as [? ? []]. Qed.
Lemma dec_enc_link l : dec_link (enc_link l) = Some l.
Proof. by destruct l. Qed.

Lemma decode_all_enc {A} (enc : A -> json) (dec : json -> option A) (l : list A) :
  (forall x, dec (enc x) = Some x) -> decode_all dec (enc <$> l) = Some l.
Proof.
  intros Hx. induction l as [|x l IH]; [done|].
  rewrite fmap_cons. cbn [decode_all]. by rewrite Hx, IH.
Qed.

Lemma loadArray_saved {A} (enc : A -> json) (dec : json -> option A) (l : list A) :
  (forall x, dec (enc x) = Some x) ->
  loadArray dec (Some (JSON_stringify (JArray (enc <$> l)))) = Loaded l.
Proof.
  intros Hx. unfold loadArray. rewrite JSON_parse_of_stringify. cbn [json_truthy].
  by rewrite decode_all_enc.
Qed.

#[export] Hint Resolve dec_enc_panel dec_enc_category dec_enc_link : dash.

Lemma saveData_lookup_other d st k :
  k <> key_panels -> k <> key_categories -> k <> key_links ->
  saveData d st !! k = st !! k.
Proof. intros. unfold saveData. by rewrite !lookup_insert_ne. Qed.

Lemma loadCurrent_saveData d st : loadCurrent (saveData d st) = loadCurrent st.
Proof. unfold loadCurrent. by rewrite saveData_lookup_other. Qed.

Lemma loadTheme_saveData d st pd : loadTheme (saveData d st) pd = loadTheme st pd.
Proof. unfold loadTheme. by rewrite saveData_lookup_other. Qed.

(** The three collection keys of a store hold the collections of [d]:
    reading them back gives [d]'s arrays. *)
Definition coll_synced (d : Dashboard) (st : Store) : Prop :=
  loadArray dec_panel (st !! key_panels) = Loaded (panels d) /\
  loadArray dec_category (st !! key_categories) = Loaded (categories d) /\
  loadArray dec_link (st !! key_links) = Loaded (links d).

Lemma saveData_synced d st : coll_synced d (saveData d st).
Proof.
  unfold coll_synced, saveData, key_links, key_categories, key_panels.
  split_and!; simplify_map_eq; apply loadArray_saved; auto with dash.
Qed.

Lemma load_synced d st pd :
  coll_synced d st ->
  load st pd = Loaded (mkDashboard (panels d) (categories d) (links d) (loadCurrent st)
                                   (loadTheme st pd)).
Proof. intros (Hp & Hc & Hl). unfold load. cbv zeta. by rewrite Hp, Hc, Hl. Qed.

(** What a successful load returns: the stored collections, current panel
    and theme. *)
Lemma load_Loaded st pd d :
  load st pd = Loaded d ->
  coll_synced d st /\ currentPanelId d = loadCurrent st /\ currentTheme d = loadTheme st pd.
Proof.
  unfold load. cbv zeta.
  destruct (loadArray dec_panel (st !! key_panels)) eqn:Hp,
    (loadArray dec_category (st !! key_categories)) eqn:Hc,
    (loadArray dec_link (st !! key_links)) eqn:Hl; try done.
  intros [= <-]. done.
Qed.

Lemma coll_synced_write d st w : coll_synced d st -> coll_synced d (apply_write d st w).
Proof.
  destruct w as [|v|t]; simpl; [intros; apply saveData_synced|..];
    unfold coll_synced, key_current, key_theme, key_panels, key_categories, key_links;
    by rewrite !lookup_insert_ne.
Qed.

(** The writes of a handler leave the collections of [d] in the store
    when they include [saveData()], or when the store held them before. *)
Lemma coll_synced_writes d ws st :
  WSaveData ∈ ws \/ coll_synced d st -> coll_synced d (apply_writes d ws st).
Proof.
  unfold apply_writes. revert st. induction ws as [|w ws IH]; intros st Hw; simpl.
  - destruct Hw as [Hw|]; [by apply not_elem_of_nil in Hw|done].
  - apply IH. destruct w; [right; apply saveData_synced|..];
      (destruct Hw as [Hw%elem_of_cons|Hs]; [destruct Hw as [Hw|Hw]; [done|by left]|
                                             right; by apply coll_synced_write]).
Qed.

Lemma loadCurrent_write d st w :
  loadCurrent (apply_write d st w) =
  match w with WSetCurrentPanel v => if truthy v then Some v else None | _ => loadCurrent st end.
Proof.
  destruct w; simpl; [apply loadCurrent_saveData| |];
    unfold loadCurrent, key_current, key_theme; by simplify_map_eq.
Qed.

Lemma loadTheme_write d st w pd :
  (forall t, w <> WSetTheme t) -> loadTheme (apply_write d st w) pd = loadTheme st pd.
Proof.
  destruct w as [| |t]; intros Hw; simpl; [apply loadTheme_saveData| |by destruct (Hw t)].
  unfold loadTheme, key_current, key_theme. by simplify_map_eq.
Qed.

(** The toggle writes ['light'] or ['dark'], which load back as written. *)
Lemma loadTheme_write_toggle d st t pd :
  loadTheme (apply_write d st (WSetTheme (toggle t))) pd = toggle t.
Proof.
  simpl. unfold loadTheme, key_theme. simplify_map_eq. by destruct t.
Qed.

(** C4: Saving and reloading reproduces the three collections exactly, in
    order and content, whatever the strings they hold; the stored current
    panel and theme are untouched by [saveData]. *)
Theorem load_saveData d st prefersDark :
  load (saveData d st) prefersDark =
  Loaded (mkDashboard (panels d) (categories d) (links d) (loadCurrent st)
                      (loadTheme st prefersDark)).
Proof.
  rewrite (load_synced d) by apply saveData_synced.
  by rewrite loadCurrent_saveData, loadTheme_saveData.
Qed.

(** With nothing stored, the script starts from empty collections, no
    current panel, and the system's colour-scheme preference. *)
Theorem load_empty prefersDark :
  load ∅ prefersDark =
  Loaded (mkDashboard [] [] [] None (if prefersDark then dark else light)).
Proof. reflexivity. Qed.

Lemma loadArray_no_value {A} (dec : json -> option A) t :
  starts_no_value t = true -> loadArray dec (Some t) = LoadSyntaxError.
Proof. intros H. unfold loadArray. by rewrite JSON_parse_no_value. Qed.

(** C36: Malformed stored text is not treated as absent: whatever the
    rest of the store holds, a text under one of the three array keys
    that begins with no JSON value (for instance ["undefined"], which
    [setItem] stores for an undefined value, or [""]) makes [JSON.parse]
    throw, and the script stops before [init()]. *)
Theorem load_malformed_throws st pd k t :
  k = key_panels \/ k = key_categories \/ k = key_links -> starts_no_value t = true ->
  load (<[k := t]> st) pd = LoadSyntaxError.
Proof.
  intros Hk Ht. unfold load.
  destruct Hk as [-> | [-> | ->]]; rewrite lookup_insert_eq, (loadArray_no_value _ t Ht);
    by repeat case_match.
Qed.

(** A non-empty stored theme other than ['light'] and ['dark'] is kept
    as it is. *)
Lemma loadTheme_custom st pd s :
  st !! key_theme = Some s -> truthy s = true -> s <> "light"%string -> s <> "dark"%string ->
  loadTheme st pd = custom s.
Proof.
  intros Hs Ht H1 H2. unfold loadTheme, theme_of_string. rewrite Hs, Ht.
  by rewrite (proj2 (String.eqb_neq _ _) H1), (proj2 (String.eqb_neq _ _) H2).
Qed.

Lemma load_malformed_throws_witness :
  (key_links = key_panels \/ key_links = key_categories \/ key_links = key_links) /\
  starts_no_value "undefined" = true /\
  load (<[key_links := "undefined"%string]> (<[key_panels := "[]"%string]> ∅)) false = LoadSyntaxError.
Proof.
  assert (Hk : key_links = key_panels \/ key_links = key_categories \/ key_links = key_links)
    by (right; right; reflexivity).
  assert (Ht : starts_no_value "undefined" = true) by reflexivity.
  split_and!; [exact Hk|exact Ht|exact (load_malformed_throws _ false _ _ Hk Ht)].
Defined.
