(* ===== verification/Bootstrap.v ===== *)
(** [init()] of src/Dashboard/script.js (lines 40-79), the part that
    changes state: the first-run seeding of two panels and two categories,
    the migration of legacy data (categories but no panels) under a new
    "Main" panel, and the self-healing of the current panel, which runs on
    every load.  [gen k] is the [k]-th id [generateId()] returns during
    [init]. *)

From stdpp Require Import sets.
From S2P Require Import Prelude Model.

Definition set_panelId (pid : string) (c : Category) : Category :=
  mkCategory (cat_id c) (cat_name c) (Some pid).

(** Lines 45-70. *)
Definition migrate (d : Dashboard) (gen : nat -> string) : Dashboard * list StorageWrite :=
  match panels d with
  | [] =>
      match categories d with
      | _ :: _ =>
          let defaultPanelId := gen 0 in
          let ps := push (panels d) (mkPanel defaultPanelId "Main") in
          let cs := map (fun c => if truthy_opt (panelId c) then c else set_panelId defaultPanelId c)
                        (categories d) in
          (mkDashboard ps cs (links d) (Some defaultPanelId) (currentTheme d), [WSaveData])
      | [] =>
          let workPanelId := gen 0 in
          let personalPanelId := gen 1 in
          let ps := push (push (panels d) (mkPanel workPanelId "Work"))
                         (mkPanel personalPanelId "Personal") in
          let cs := push (push (categories d) (mkCategory (gen 2) "Projects" (Some workPanelId)))
                         (mkCategory (gen 3) "Favorites" (Some personalPanelId)) in
          (mkDashboard ps cs (links d) (Some workPanelId) (currentTheme d), [WSaveData])
      end
  | _ :: _ => (d, [])
  end.

(** Lines 72-74: a missing or unknown current panel falls back to the
    first panel, or [null]. *)
Definition selfHeal (d : Dashboard) : Dashboard :=
  let cur := currentPanelId d in
  if negb (truthy_opt cur)
     || negb (bool_decide (is_Some (List.find (fun p => Some (panel_id p) === cur) (panels d))))
  then set_current d (match panels d with p :: _ => Some (panel_id p) | [] => None end)
  else d.

(** Lines 40-79 without the rendering and the listeners. *)
Definition init (d : Dashboard) (gen : nat -> string) : Dashboard * list StorageWrite :=
  let '(d1, w) := migrate d gen in (selfHeal d1, w).

(** ** Theorems *)

Lemma find_current_is_Some (ps : list Panel) cur :
  is_Some (List.find (fun p => Some (panel_id p) === cur) ps) <->
  exists c, cur = Some c /\ c ∈ panel_id <$> ps.
Proof.
  split.
  - intros [p Hp]. apply find_some in Hp as [Hin Heq].
    apply strict_eq_spec in Heq. exists (panel_id p). split; [done|].
    apply list_elem_of_fmap_2. by apply list_elem_of_In.
  - intros (c & -> & Hc). apply list_elem_of_fmap in Hc as (p & -> & Hp).
    destruct (List.find _ ps) eqn:E; [done|].
    exfalso. eapply find_none in E; [|by apply list_elem_of_In].
    by rewrite strict_eq_refl in E.
Qed.

(** The current panel [selfHeal] chooses, from the current id and the
    panel ids. *)
Definition healed (cur : option string) (ids : list string) : option string :=
  match cur with
  | Some c => if truthy c && bool_decide (c ∈ ids) then Some c else head ids
  | None => head ids
  end.

Lemma selfHeal_current d :
  currentPanelId (selfHeal d) = healed (currentPanelId d) (panel_ids d).
Proof.
  unfold selfHeal, healed, panel_ids.
  destruct (currentPanelId d) as [c|] eqn:Ec; simpl truthy_opt; cbv zeta.
  - destruct (truthy c); cbn [negb orb andb]; [|by destruct (panels d)].
    case_bool_decide as H1; case_bool_decide as H2; cbn [negb orb andb].
    + done.
    + exfalso. apply H2. apply find_current_is_Some in H1 as (c' & [= <-] & ?). done.
    + exfalso. apply H1. apply find_current_is_Some. eauto.
    + by destruct (panels d).
  - simpl. by destruct (panels d).
Qed.

Lemma selfHeal_fields d :
  panels (selfHeal d) = panels d /\ categories (selfHeal d) = categories d /\
  links (selfHeal d) = links d /\ currentTheme (selfHeal d) = currentTheme d.
Proof. unfold selfHeal. by case_match. Qed.

(** C26: On first run (no panels and no categories stored) [init] creates
    exactly the panels "Work" and "Personal", the categories "Projects"
    under Work and "Favorites" under Personal, and makes Work current. *)
Theorem init_first_run d gen :
  panels d = [] -> categories d = [] ->
  fst (init d gen) =
  mkDashboard [mkPanel (gen 0) "Work"; mkPanel (gen 1) "Personal"]
              [mkCategory (gen 2) "Projects" (Some (gen 0));
               mkCategory (gen 3) "Favorites" (Some (gen 1))]
              (links d) (Some (gen 0)) (currentTheme d).
Proof.
  intros Hp Hc. unfold init, migrate. rewrite Hp, Hc. simpl fst.
  unfold selfHeal. cbv zeta. by case_match.
Qed.

Lemma selfHeal_current_ok d : current_ok (selfHeal d).
Proof.
  unfold current_ok. rewrite selfHeal_current. unfold healed, panel_ids.
  destruct (selfHeal_fields d) as (-> & _).
  assert (Hhead : match head (panel_id <$> panels d) with
                  | Some id => id ∈ panel_id <$> panels d | None => panels d = [] end)
    by (destruct (panels d); simpl; [done|apply list_elem_of_here]).
  destruct (currentPanelId d) as [c|]; [|done].
  destruct (truthy c && bool_decide _) eqn:E; [|done].
  apply andb_prop in E as [_ E]. by apply bool_decide_eq_true in E.
Qed.

Lemma selfHeal_wf d : ids_unique d -> refs_ok d -> wf (selfHeal d).
Proof.
  intros Hu Hr. destruct (selfHeal_fields d) as (Hp & Hc & Hl & _).
  split; [|split; [|apply selfHeal_current_ok]].
  - unfold ids_unique, panel_ids, cat_ids, link_ids in *. by rewrite Hp, Hc, Hl.
  - unfold refs_ok in *. by rewrite Hp, Hc, Hl.
Qed.

(** What [init] may assume of the loaded data: unique ids and valid
    references, except that before the migration (no panel stored)
    categories may have no panel ([panelId] missing or empty). *)
Definition loaded_ok (d : Dashboard) : Prop :=
  ids_unique d /\
  Forall (link_ref_ok (categories d)) (links d) /\
  Forall (fun c => cat_ref_ok (panels d) c \/ (panels d = [] /\ truthy_opt (panelId c) = false))
         (categories d).

Lemma cat_ids_migrate pid (cs : list Category) :
  cat_id <$> map (fun c => if truthy_opt (panelId c) then c else set_panelId pid c) cs =
  cat_id <$> cs.
Proof.
  induction cs as [|c cs IH]; [done|]. cbn [map]. rewrite !fmap_cons, IH.
  f_equal. by case_match.
Qed.

Lemma migrate_refs d gen :
  loaded_ok d -> gen 0 <> gen 1 -> gen 2 <> gen 3 ->
  ids_unique (fst (migrate d gen)) /\ refs_ok (fst (migrate d gen)).
Proof.
  intros (Hu & Hl & Hc) H01 H23. unfold migrate.
  destruct (panels d) as [|p ps] eqn:Hp; [destruct (categories d) as [|c cs] eqn:Hcs|].
  - assert (links d = []) as Hnil.
    { destruct (links d) as [|l ls]; [done|]. inversion Hl as [|? ? Hl0].
      unfold link_ref_ok in Hl0. set_solver. }
    destruct Hu as (_ & _ & Hlu). simpl. unfold ids_unique, refs_ok, panel_ids, cat_ids, link_ids.
    simpl. rewrite Hnil. repeat split; repeat constructor; simpl; rewrite ?list_elem_of_singleton;
      try set_solver.
  - rewrite <- Hcs in *. destruct Hu as (_ & Hcu & Hlu).
    unfold ids_unique, refs_ok, panel_ids, cat_ids, link_ids in *.
    cbn [fst panels categories links push app]. rewrite cat_ids_migrate. repeat split.
    + repeat constructor; set_solver.
    + done.
    + done.
    + apply Forall_fmap, Forall_forall. intros c' Hc'. unfold compose.
      eapply Forall_forall in Hc; [|exact Hc'].
      destruct Hc as [Hc|[_ Hf]]; [unfold cat_ref_ok in Hc; set_solver|].
      rewrite Hf. unfold cat_ref_ok. simpl. apply list_elem_of_here.
    + unfold link_ref_ok in *. by rewrite cat_ids_migrate.
  - split; [done|]. split; [|done].
    eapply Forall_impl; [exact Hc|]. intros c' [H|[H _]]; [cbn [fst]; by rewrite Hp|discriminate].
Qed.

(** From data [init] can load (see [loaded_ok]) and two distinct ids
    per [generateId()] pair of the first run, [init] establishes the
    dashboard invariant: unique ids, every category on an existing panel,
    every link in an existing category, and a valid current panel. *)
Theorem init_wf d gen :
  loaded_ok d -> gen 0 <> gen 1 -> gen 2 <> gen 3 -> wf (fst (init d gen)).
Proof.
  intros Hd H01 H23. destruct (migrate_refs d gen Hd H01 H23) as [Hu Hr].
  unfold init. destruct (migrate d gen) as [d1 w]. by apply selfHeal_wf.
Qed.

Lemma dashboard_fields_eq d d' :
  panels d = panels d' -> categories d = categories d' -> links d = links d' ->
  currentPanelId d = currentPanelId d' -> currentTheme d = currentTheme d' -> d = d'.
Proof. destruct d, d'; simpl; intros; by subst. Qed.

(** C28: When panels are stored, [init] changes no collection and writes
    nothing: it only repairs the current panel, which stays when it is a
    non-empty id of a stored panel and becomes the first panel otherwise. *)
Theorem init_self_heal d gen p ps :
  panels d = p :: ps ->
  init d gen =
  (mkDashboard (panels d) (categories d) (links d)
     (match currentPanelId d with
      | Some c => if truthy c && bool_decide (c ∈ panel_ids d) then Some c else Some (panel_id p)
      | None => Some (panel_id p)
      end) (currentTheme d), []).
Proof.
  intros Hp. unfold init, migrate. rewrite Hp. cbv beta iota zeta. f_equal.
  destruct (selfHeal_fields d) as (? & ? & ? & ?).
  apply dashboard_fields_eq; cbn [panels categories links currentPanelId currentTheme]; try congruence.
  rewrite selfHeal_current. unfold panel_ids. rewrite Hp. by case_match.
Qed.

Lemma panelCategories_migrated g (cs : list Category) :
  Forall (fun c => panelId c <> Some g) cs ->
  List.filter (fun c => panelId c === Some g)
    (map (fun c => if truthy_opt (panelId c) then c else set_panelId g c) cs) =
  set_panelId g <$> List.filter (fun c => negb (truthy_opt (panelId c))) cs.
Proof.
  induction 1 as [|c cs Hc _ IH]; [done|]. cbn [map List.filter].
  destruct (truthy_opt (panelId c)); cbn [negb List.filter].
  - by rewrite (proj2 (strict_eq_false _ _) Hc).
  - rewrite strict_eq_refl, fmap_cons. by f_equal.
Qed.

(** C27: Legacy data (categories but no panel) is migrated under one new
    panel "Main", made current; the categories shown on it are exactly
    those that had no panel ([panelId] missing or empty), in order, now
    pointing to Main; links are unchanged, and the result is saved. *)
Theorem init_legacy d gen :
  panels d = [] -> categories d <> [] ->
  Forall (fun c => panelId c <> Some (gen 0)) (categories d) ->
  panels (fst (init d gen)) = [mkPanel (gen 0) "Main"] /\
  currentPanelId (fst (init d gen)) = Some (gen 0) /\
  panelCategories (fst (init d gen)) =
    set_panelId (gen 0) <$> List.filter (fun c => negb (truthy_opt (panelId c))) (categories d) /\
  links (fst (init d gen)) = links d /\
  snd (init d gen) = [WSaveData].
Proof.
  intros Hp Hc Hfresh. unfold init, migrate. rewrite Hp.
  destruct (categories d) as [|c cs] eqn:Hcs; [done|]. rewrite <- Hcs in *.
  cbn [fst snd]. set (d1 := mkDashboard _ _ _ _ _).
  destruct (selfHeal_fields d1) as (Hp1 & Hc1 & Hl1 & _).
  assert (Hcur : currentPanelId (selfHeal d1) = Some (gen 0)).
  { rewrite selfHeal_current. simpl. by case_match. }
  unfold panelCategories. rewrite Hp1, Hc1, Hl1, Hcur. simpl.
  repeat split. by apply panelCategories_migrated.
Qed.

(** ** Examples and witnesses *)

Definition gen_sample (n : nat) : string :=
  match n with 0 => "p0" | 1 => "p1" | 2 => "c0" | _ => "c1" end.

(** Stored by an older version: categories without panels, one with an
    empty [panelId], one pointing to a panel that no longer exists. *)
Definition legacy : Dashboard :=
  mkDashboard []
    [mkCategory "x" "Inbox" None; mkCategory "y" "Old" (Some "old");
     mkCategory "z" "Reading" (Some "")]
    [mkLink "l" "Rocq" "" "https://rocq-prover.org" "x"]
    None light.

Definition legacy_clean : Dashboard :=
  mkDashboard [] [mkCategory "x" "Inbox" None; mkCategory "z" "Reading" (Some "")]
    [mkLink "l" "Rocq" "" "https://rocq-prover.org" "x"] None dark.

#[export] Instance loaded_ok_dec d : Decision (loaded_ok d).
Proof. unfold loaded_ok, cat_ref_ok. apply _. Defined.

(** C32: The migration of legacy data leaves a category whose [panelId]
    names a missing panel as it is: after [init] it is still stored, it
    lies on none of the panels (so it and its links are never displayed),
    and the dashboard invariant fails, for every legacy store with such a
    category and whatever ids [generateId()] returns. *)
Theorem init_legacy_stale_category d gen c q :
  panels d = [] -> c ∈ categories d -> panelId c = Some q -> truthy q = true -> q <> gen 0 ->
  c ∈ categories (fst (init d gen)) /\
  Forall (fun p => panelId c <> Some (panel_id p)) (panels (fst (init d gen))) /\
  ~ wf (fst (init d gen)).
Proof.
  intros Hp Hc Hq Ht Hg.
  assert (c ∈ categories (fst (init d gen)) /\
          panels (fst (init d gen)) = [mkPanel (gen 0) "Main"]) as [Hin Hps].
  { unfold init. destruct (migrate d gen) as [d1 w] eqn:Em. cbn [fst].
    destruct (selfHeal_fields d1) as (-> & -> & _).
    unfold migrate in Em. rewrite Hp in Em.
    destruct (categories d) as [|c0 cs] eqn:Ec; [by apply elem_of_nil in Hc|].
    injection Em as <- _. cbn [panels categories]. split; [|reflexivity].
    set (f := fun c => if truthy_opt (panelId c) then c else set_panelId (gen 0) c).
    assert (Hfc : f c = c) by (unfold f; rewrite Hq; cbn [truthy_opt]; by rewrite Ht).
    apply list_elem_of_In. change (In c (map f (c0 :: cs))). rewrite <- Hfc.
    apply in_map. by apply list_elem_of_In. }
  assert (Hno : Forall (fun p => panelId c <> Some (panel_id p)) (panels (fst (init d gen)))).
  { rewrite Hps. repeat constructor. rewrite Hq. cbn [panel_id]. congruence. }
  split_and!; [done|done|]. intros (_ & [Hrc _] & _).
  rewrite Forall_forall in Hrc. specialize (Hrc c Hin). unfold cat_ref_ok in Hrc.
  apply list_elem_of_fmap in Hrc as (p' & Hp' & Hin').
  rewrite Forall_forall in Hno. by apply (Hno p' Hin').
Qed.

Lemma init_first_run_witness :
  panels (mkDashboard [] [] [] None light) = [] /\
  categories (mkDashboard [] [] [] None light) = [] /\
  fst (init (mkDashboard [] [] [] None light) gen_sample) =
  mkDashboard [mkPanel "p0" "Work"; mkPanel "p1" "Personal"]
              [mkCategory "c0" "Projects" (Some "p0"); mkCategory "c1" "Favorites" (Some "p1")]
              [] (Some "p0") light.
Proof.
  split; [|split]; [reflexivity|reflexivity|].
  rewrite (init_first_run (mkDashboard [] [] [] None light) gen_sample); reflexivity.
Defined.

Lemma init_wf_witness :
  loaded_ok legacy_clean /\ wf (fst (init legacy_clean gen_sample)).
Proof.
  split; [decide_true|]. apply init_wf; [decide_true|discriminate|discriminate].
Defined.

Lemma init_self_heal_witness :
  panels (set_current sample (Some "gone")) = mkPanel "w" "Work" :: [mkPanel "h" "Home"] /\
  init (set_current sample (Some "gone")) gen_sample =
  (mkDashboard (panels sample) (categories sample) (links sample) (Some "w") light, []).
Proof.
  split; [reflexivity|]. rewrite (init_self_heal _ gen_sample (mkPanel "w" "Work") [mkPanel "h" "Home"]);
    [|reflexivity]. reflexivity.
Defined.

Lemma init_legacy_witness :
  panels legacy = [] /\ categories legacy <> [] /\
  Forall (fun c => panelId c <> Some (gen_sample 0)) (categories legacy) /\
  panelCategories (fst (init legacy gen_sample)) =
    [mkCategory "x" "Inbox" (Some "p0"); mkCategory "z" "Reading" (Some "p0")].
Proof.
  assert (Hf : Forall (fun c => panelId c <> Some (gen_sample 0)) (categories legacy))
    by (repeat constructor; discriminate).
  split; [reflexivity|]. split; [discriminate|]. split; [exact Hf|].
  destruct (init_legacy legacy gen_sample eq_refl ltac:(discriminate) Hf) as (_ & _ & -> & _).
  reflexivity.
Defined.

Lemma init_legacy_stale_category_witness :
  panels legacy = [] /\ mkCategory "y" "Old" (Some "old") ∈ categories legacy /\
  mkCategory "y" "Old" (Some "old") ∈ categories (fst (init legacy gen_sample)) /\
  Forall (fun p => Some "old"%string <> Some (panel_id p)) (panels (fst (init legacy gen_sample))) /\
  ~ wf (fst (init legacy gen_sample)).
Proof.
  assert (Hc : mkCategory "y" "Old" (Some "old") ∈ categories legacy) by decide_true.
  destruct (init_legacy_stale_category legacy gen_sample (mkCategory "y" "Old" (Some "old")) "old"
              eq_refl Hc eq_refl eq_refl ltac:(discriminate)) as (H1 & H2 & H3).
  split_and!; [reflexivity|exact Hc|exact H1|exact H2|exact H3].
Defined.
