(* ===== verification/Session.v ===== *)
(** The page session of src/Dashboard/script.js: the module-level state
    (the three arrays, [currentPanelId], [currentTheme], [draggedItem] and
    [dragType]) together with [localStorage], driven by the listeners that
    [setupEventListeners()] and [renderPanels()] install, one event at a
    time (the script is single-threaded).  A page load is [boot]: the
    loads of lines 2-12 followed by [init()]; a reload discards the
    in-memory state and boots again from the store. *)

From stdpp Require Import gmap sets.
From S2P Require Import Prelude Model Repository DragDrop Json Persistence Bootstrap.

(** The state of an open page: the data model, the browser's store, the
    drag globals, and the system colour-scheme preference read at line 12. *)
Record World := mkWorld {
  dash : Dashboard;
  store : Store;
  dragst : DragState;
  prefersDark : bool
}.

(** The user events that reach a handler that changes state.  Form
    submissions carry the id [generateId()] returns during the handler;
    deletions carry the answer of [confirm()]. *)
Inductive Event :=
  | ESelectPanel (id : string)
  | EToggleTheme
  | EPanelSubmit (f : PanelForm) (newId : string)
  | ECategorySubmit (f : CategoryForm) (newId : string)
  | ELinkSubmit (f : LinkForm) (newId : string)
  | EDeletePanel (id : string) (confirmed : bool)
  | EDeleteCategory (id : string) (confirmed : bool)
  | EDeleteLink (id : string) (confirmed : bool)
  | EDrag (ev : DragEvent)
  | EDrop (p : DropPoint).

(** The handler an event runs: lines 107-113 (tab click), 244-248
    (theme), 281-283 (form submissions), 300-375 (the delete delegates)
    and 382-489 (drag and drop).  A handler that throws leaves the state
    it had reached and the writes it had made. *)
Definition react (st : DragState) (d : Dashboard) (e : Event) : Dashboard * list StorageWrite :=
  match e with
  | ESelectPanel id => selectPanel d id
  | EToggleTheme => toggleTheme d
  | EPanelSubmit f n => handlePanelSubmit d f n
  | ECategorySubmit f n => handleCategorySubmit d f n
  | ELinkSubmit f n => handleLinkSubmit d f n
  | EDeletePanel id b => deletePanel d id b
  | EDeleteCategory id b => deleteCategory d id b
  | EDeleteLink id b => deleteLink d id b
  | EDrag _ => (d, [])
  | EDrop p => match onDrop st d p with Done d' ws => (d', ws) | Threw d' ws => (d', ws) end
  end.

Definition step (w : World) (e : Event) : World :=
  let '(d, ws) := react (dragst w) (dash w) e in
  mkWorld d (apply_writes d ws (store w))
          (match e with EDrag ev => drag_event (dragst w) ev | _ => dragst w end)
          (prefersDark w).

(** A page load: lines 2-12, then [init()]; a [SyntaxError] stops the
    script before [init()]. *)
Definition boot (st : Store) (pd : bool) (gen : nat -> string) : LoadResult World :=
  load_bind (load st pd) (fun d0 =>
    let '(d, ws) := init d0 gen in Loaded (mkWorld d (apply_writes d ws st) drag_init pd)).

Definition reload (w : World) (gen : nat -> string) : LoadResult World :=
  boot (store w) (prefersDark w) gen.

(** ** What the page can send *)

(** The element a drag started on is one the page rendered. *)
Definition elem_rendered (d : Dashboard) (el : Elem) : Prop :=
  match el with ECategory id => id ∈ cat_ids d | ELink id => id ∈ link_ids d end.

(** The events the rendered page can produce: tabs, categories and links
    are rendered from the arrays, the category and link selects offer
    existing categories, the add-category button requires a current panel
    (line 262), and [generateId()] returns a fresh non-empty id. *)
Definition enabled (w : World) (e : Event) : Prop :=
  let d := dash w in
  match e with
  | ESelectPanel id => id ∈ panel_ids d
  | EPanelSubmit _ n => truthy n = true /\ n ∉ panel_ids d
  | ECategorySubmit _ n => currentPanelId d <> None /\ n ∉ cat_ids d
  | ELinkSubmit f n => link_form_category f ∈ cat_ids d /\ n ∉ link_ids d
  | EDrop p =>
      (forall el, draggedItem (dragst w) = Some el -> elem_rendered d el) /\
      (forall t, over_link p = Some t -> t ∈ link_ids d) /\
      (forall c, over_category p = Some c -> c ∈ cat_ids d)
  | _ => True
  end.

(** The ids [generateId()] returns during [init()] are distinct and
    non-empty, and the Personal panel's id is not the stored current id. *)
Definition gen_ok (gen : nat -> string) (st : Store) : Prop :=
  gen 0 <> gen 1 /\ gen 2 <> gen 3 /\ truthy (gen 0) = true /\ truthy (gen 1) = true /\
  loadCurrent st <> Some (gen 1).

Definition panel_ids_truthy (d : Dashboard) : Prop :=
  Forall (fun x => truthy x = true) (panel_ids d).

(** The worlds a session reaches: a first load of data [init] can handle,
    then events the page can send and reloads. *)
Inductive reachable : World -> Prop :=
  | reach_boot st pd gen d0 w :
      load st pd = Loaded d0 -> loaded_ok d0 -> panel_ids_truthy d0 -> gen_ok gen st ->
      boot st pd gen = Loaded w -> reachable w
  | reach_step w e : reachable w -> enabled w e -> reachable (step w e)
  | reach_reload w gen w' :
      reachable w -> gen_ok gen (store w) -> reload w gen = Loaded w' -> reachable w'.

(** What the store and the page agree on: the panel ids are non-empty,
    the store holds the arrays, and the stored current panel and theme
    load back as the ones in memory. *)
Definition store_inv (d : Dashboard) (st : Store) (pd : bool) : Prop :=
  panel_ids_truthy d /\ coll_synced d st /\
  currentPanelId d = healed (loadCurrent st) (panel_ids d) /\
  currentTheme d = loadTheme st pd.

(** The session invariant: the data model is well formed, the drag
    globals agree, and the store agrees with the page. *)
Definition session_inv (w : World) : Prop :=
  wf (dash w) /\ drag_consistent (dragst w) /\ store_inv (dash w) (store w) (prefersDark w).

(** ** Lemmas on the writes *)

(** [W x ∉ ws] for a write constructor [W] absent from a literal list. *)
Ltac not_written :=
  let t := fresh "t" in let H := fresh "H" in
  intros t H; repeat (apply elem_of_cons in H as [H|H]; [discriminate H|]);
  by apply not_elem_of_nil in H.

Lemma apply_writes_cons d w ws st :
  apply_writes d (w :: ws) st = apply_writes d ws (apply_write d st w).
Proof. reflexivity. Qed.

Lemma loadCurrent_writes d ws st :
  (forall v, WSetCurrentPanel v ∉ ws) -> loadCurrent (apply_writes d ws st) = loadCurrent st.
Proof.
  revert st. induction ws as [|w ws IH]; intros st Hw; [done|].
  rewrite apply_writes_cons, IH by (intros v Hv; apply (Hw v); by right).
  rewrite loadCurrent_write. destruct w; [done| |done].
  exfalso. eapply Hw. by left.
Qed.

Lemma loadTheme_writes d ws st pd :
  (forall t, WSetTheme t ∉ ws) -> loadTheme (apply_writes d ws st) pd = loadTheme st pd.
Proof.
  revert st. induction ws as [|w ws IH]; intros st Hw; [done|].
  rewrite apply_writes_cons, IH by (intros t Ht; apply (Hw t); by right).
  destruct w as [| |t]; [..|exfalso; eapply Hw; by left]; apply loadTheme_write; by intros ? [=].
Qed.

Lemma coll_synced_same d d' st :
  panels d' = panels d -> categories d' = categories d -> links d' = links d ->
  coll_synced d st -> coll_synced d' st.
Proof. unfold coll_synced. by intros -> -> ->. Qed.

(** ** The drop under the guards of the page *)

Lemma dropCategory_writes cats id p :
  (snd (dropCategory cats id p) = [] /\ fst (dropCategory cats id p) = cats) \/
  snd (dropCategory cats id p) = [WSaveData].
Proof. unfold dropCategory. repeat case_match; simplify_eq/=; auto. Qed.

(** A drop of a rendered element never throws, keeps the data model well
    formed, changes no panel, and either changes nothing or saves. *)
Lemma onDrop_spec st d p :
  wf d -> drag_consistent st ->
  (forall el, draggedItem st = Some el -> elem_rendered d el) ->
  (forall t, over_link p = Some t -> t ∈ link_ids d) ->
  (forall c, over_category p = Some c -> c ∈ cat_ids d) ->
  exists d' ws, onDrop st d p = Done d' ws /\ wf d' /\
    panels d' = panels d /\ currentPanelId d' = currentPanelId d /\
    currentTheme d' = currentTheme d /\
    ((ws = [] /\ d' = d) \/ ws = [WSaveData]).
Proof.
  intros Hwf Hc Hel Hl Hcat. unfold onDrop, drag_consistent in *.
  destruct (draggedItem st) as [el|]; [|exists d, []; split_and!; auto].
  specialize (Hel el eq_refl).
  destruct el as [id|id], (dragType st) as [[]|]; try done.
  - destruct (dropCategory (categories d) (elem_id (ECategory id)) p) as [cs w] eqn:E.
    exists (set_categories d cs), w. split_and!; [done| |done..|].
    + pose proof (dropCategory_wf d (elem_id (ECategory id)) p Hwf) as H. by rewrite E in H.
    + pose proof (dropCategory_writes (categories d) (elem_id (ECategory id)) p) as H.
      rewrite E in H. simpl in H. destruct H as [[-> ->]| ->]; [left; by rewrite set_categories_id|by right].
  - pose proof Hwf as ((_ & _ & Hnd) & _).
    destruct (dropLink_saves (links d) id p Hnd Hel Hl) as [ls' E].
    cbn [elem_id]. rewrite E. exists (set_links d ls'), [WSaveData]. split_and!; [done| |done..|by right].
    pose proof (dropLink_wf d id p Hwf Hcat) as H. by rewrite E in H.
Qed.

(** ** The current panel after a change *)

Lemma healed_nil s : healed s [] = None.
Proof. by destruct s as [c|]; [simpl; rewrite andb_false_r|]. Qed.

Lemma healed_elem x ids : truthy x = true -> x ∈ ids -> healed (Some x) ids = Some x.
Proof. intros Hx Hin. simpl. rewrite Hx. by rewrite bool_decide_true. Qed.

(** Removing ids other than the healed one keeps it. *)
Lemma healed_filter s ids (q : string -> bool) x :
  healed s ids = Some x -> q x = true -> healed s (List.filter q ids) = Some x.
Proof.
  intros Hh Hq.
  assert (Hhead : head ids = Some x -> head (List.filter q ids) = Some x)
    by (destruct ids as [|y ids]; [done|intros [= ->]; simpl; by rewrite Hq]).
  destruct s as [c|]; simpl in *; [|auto].
  destruct (truthy c) eqn:Ht; simpl in *; [|auto].
  case_bool_decide as Hc; case_bool_decide as Hc'; simplify_eq; auto.
  - exfalso. apply Hc'. apply elem_of_js_filter. done.
  - exfalso. apply Hc. by apply elem_of_js_filter in Hc' as [? _].
Qed.

(** ** Handlers that change only categories and links *)

Lemma store_inv_data d d' ws st pd :
  panel_ids d' = panel_ids d -> currentPanelId d' = currentPanelId d ->
  currentTheme d' = currentTheme d ->
  ((ws = [] /\ d' = d) \/ ws = [WSaveData]) ->
  store_inv d st pd -> store_inv d' (apply_writes d' ws st) pd.
Proof.
  intros Hp Hc Ht [[-> ->]| ->] (Htr & Hs & Hcur & Hth); [done|].
  unfold store_inv, panel_ids_truthy. rewrite Hp, Hc, Ht, Hcur, Hth.
  rewrite loadCurrent_writes, loadTheme_writes by not_written.
  split_and!; try done. apply coll_synced_writes. left. by left.
Qed.

(** A handler result that changes at most the categories and links, and
    saves when it changes anything. *)
Definition data_change (d : Dashboard) (r : Dashboard * list StorageWrite) : Prop :=
  panels (fst r) = panels d /\ currentPanelId (fst r) = currentPanelId d /\
  currentTheme (fst r) = currentTheme d /\
  ((snd r = [] /\ fst r = d) \/ snd r = [WSaveData]).

Ltac data_change_tac := unfold data_change; repeat case_match; simpl; split_and!; auto.

Lemma handleCategorySubmit_data d f n : data_change d (handleCategorySubmit d f n).
Proof. unfold handleCategorySubmit. data_change_tac. Qed.
Lemma handleLinkSubmit_data d f n : data_change d (handleLinkSubmit d f n).
Proof. unfold handleLinkSubmit. data_change_tac. Qed.
Lemma deleteCategory_data d id b : data_change d (deleteCategory d id b).
Proof. unfold deleteCategory. data_change_tac. Qed.
Lemma deleteLink_data d id b : data_change d (deleteLink d id b).
Proof. unfold deleteLink. data_change_tac. Qed.

Lemma store_inv_data_change d r st pd :
  data_change d r -> store_inv d st pd -> store_inv (fst r) (apply_writes (fst r) (snd r) st) pd.
Proof.
  intros (Hp & Hc & Ht & Hw). apply store_inv_data; try done. unfold panel_ids. by rewrite Hp.
Qed.

(** ** Handlers that change the current panel or the theme *)

Lemma store_inv_selectPanel d id st pd :
  id ∈ panel_ids d -> store_inv d st pd ->
  store_inv (fst (selectPanel d id)) (apply_writes (fst (selectPanel d id)) (snd (selectPanel d id)) st) pd.
Proof.
  intros Hid (Htr & Hs & Hcur & Hth). unfold selectPanel, apply_writes. cbn [foldl fst snd].
  assert (truthy id = true) as Hti by (by eapply Forall_forall in Htr).
  unfold store_inv. rewrite loadCurrent_write, loadTheme_write, Hti by (intros ? [=]).
  split_and!; try done.
  - unfold coll_synced, key_current, key_panels, key_categories, key_links in *.
    cbn [apply_write]. by rewrite !lookup_insert_ne.
  - symmetry. by apply healed_elem.
Qed.

Lemma store_inv_toggleTheme d st pd :
  store_inv d st pd ->
  store_inv (fst (toggleTheme d)) (apply_writes (fst (toggleTheme d)) (snd (toggleTheme d)) st) pd.
Proof.
  intros (Htr & Hs & Hcur & Hth). unfold toggleTheme, apply_writes. cbn [foldl fst snd].
  unfold store_inv. rewrite loadCurrent_write, loadTheme_write_toggle. split_and!; try done.
  unfold coll_synced, key_theme, key_panels, key_categories, key_links in *.
  cbn [apply_write]. by rewrite !lookup_insert_ne.
Qed.

Lemma store_inv_handlePanelSubmit d f n st pd :
  truthy n = true -> store_inv d st pd ->
  store_inv (fst (handlePanelSubmit d f n))
            (apply_writes (fst (handlePanelSubmit d f n)) (snd (handlePanelSubmit d f n)) st) pd.
Proof.
  intros Hn Hinv. unfold handlePanelSubmit. cbv zeta. destruct (truthy (panel_form_id f)).
  - apply (store_inv_data d); [|done|done|by right|done].
    unfold panel_ids. simpl. case_match; [|done]. by apply map_alter_key.
  - destruct Hinv as (Htr & Hs & Hcur & Hth). cbn [fst snd].
    rewrite apply_writes_cons. unfold store_inv.
    rewrite loadCurrent_writes, loadTheme_writes, loadCurrent_write, Hn by not_written.
    rewrite loadTheme_write by (intros ? [=]).
    unfold panel_ids_truthy, panel_ids in *. cbn [panels currentPanelId currentTheme set_current set_panels].
    unfold push. rewrite fmap_app. split_and!; try done.
    + apply Forall_app. split; [done|]. by constructor.
    + apply coll_synced_writes. left. by left.
    + symmetry. apply healed_elem; [done|]. apply elem_of_app. right. by left.
Qed.

Lemma deletePanel_writes d id :
  snd (deletePanel d id true) =
  if currentPanelId d === Some id
  then [WSetCurrentPanel (default "" (head (panel_ids (fst (deletePanel d id true))))); WSaveData]
  else [WSaveData].
Proof.
  unfold deletePanel, panel_ids. case_match; simpl; [|done].
  by destruct (List.filter _ _).
Qed.

Lemma store_inv_deletePanel d id b st pd :
  wf d -> store_inv d st pd ->
  store_inv (fst (deletePanel d id b))
            (apply_writes (fst (deletePanel d id b)) (snd (deletePanel d id b)) st) pd.
Proof.
  intros (_ & _ & Hcok) Hinv. destruct b; [|apply (store_inv_data d); [done|done|done|by left|done]].
  destruct Hinv as (Htr & Hs & Hcur & Hth).
  assert (Hids : panel_ids (fst (deletePanel d id true)) =
                 List.filter (fun x => x !== id) (panel_ids d)).
  { unfold panel_ids. rewrite deletePanel_panels.
    apply (fmap_filter_key panel_id (fun x => x !== id)). }
  assert (Hth' : currentTheme (fst (deletePanel d id true)) = currentTheme d)
    by (unfold deletePanel; by case_match).
  assert (Htr' : panel_ids_truthy (fst (deletePanel d id true))).
  { unfold panel_ids_truthy. rewrite Hids. apply Forall_forall. intros x Hx.
    apply elem_of_js_filter in Hx as [Hx _]. by eapply Forall_forall in Htr. }
  assert (Hsave : WSaveData ∈ snd (deletePanel d id true))
    by (rewrite deletePanel_writes; case_match; set_solver).
  unfold store_inv. rewrite deletePanel_current, Hth'. split_and!; [done|by apply coll_synced_writes; left| |].
  - rewrite deletePanel_writes. destruct (currentPanelId d === Some id) eqn:E.
    + rewrite apply_writes_cons, loadCurrent_writes, loadCurrent_write
        by not_written.
      unfold panel_ids_truthy in Htr'.
      destruct (panel_ids (fst (deletePanel d id true))) as [|x r]; simpl.
      * by rewrite ?healed_nil.
      * inversion Htr' as [|? ? Hx]. rewrite Hx. symmetry. apply healed_elem; [done|apply list_elem_of_here].
    + rewrite loadCurrent_writes by not_written.
      rewrite Hids. destruct (currentPanelId d) as [x|] eqn:Ec.
      * symmetry. apply healed_filter; [done|]. apply negb_true_iff, strict_eq_false.
        intros ->. by rewrite strict_eq_refl in E.
      * unfold current_ok in Hcok. rewrite Ec in Hcok. unfold panel_ids. rewrite Hcok. simpl.
        by rewrite healed_nil.
  - rewrite loadTheme_writes; [done|]. rewrite deletePanel_writes.
    case_match; not_written.
Qed.

(** ** The session invariant *)

Lemma wf_selectPanel d id : wf d -> id ∈ panel_ids d -> wf (fst (selectPanel d id)).
Proof. intros (Hu & Hr & _) Hid. split_and!; done. Qed.

Lemma wf_toggleTheme d : wf d -> wf (fst (toggleTheme d)).
Proof. done. Qed.

Lemma step_eq w e :
  step w e =
  mkWorld (fst (react (dragst w) (dash w) e))
          (apply_writes (fst (react (dragst w) (dash w) e)) (snd (react (dragst w) (dash w) e))
                        (store w))
          (match e with EDrag ev => drag_event (dragst w) ev | _ => dragst w end)
          (prefersDark w).
Proof. unfold step. by destruct (react _ _ _). Qed.

Lemma step_inv w e : session_inv w -> enabled w e -> session_inv (step w e).
Proof.
  intros (Hwf & Hdc & Hst) Hen. rewrite step_eq. unfold session_inv. cbn [dash store dragst prefersDark].
  destruct e; cbn [react enabled] in *.
  - split_and!; [by apply wf_selectPanel|done|by apply store_inv_selectPanel].
  - split_and!; [by apply wf_toggleTheme|done|by apply store_inv_toggleTheme].
  - split_and!; [apply handlePanelSubmit_wf; tauto|done|apply store_inv_handlePanelSubmit; tauto].
  - split_and!; [apply handleCategorySubmit_wf; tauto|done|].
    apply (store_inv_data_change (dash w)); [apply handleCategorySubmit_data|done].
  - split_and!; [apply handleLinkSubmit_wf; tauto|done|].
    apply (store_inv_data_change (dash w)); [apply handleLinkSubmit_data|done].
  - split_and!; [by apply deletePanel_wf|done|by apply store_inv_deletePanel].
  - split_and!; [by apply deleteCategory_wf|done|].
    apply (store_inv_data_change (dash w)); [apply deleteCategory_data|done].
  - split_and!; [by apply deleteLink_wf|done|].
    apply (store_inv_data_change (dash w)); [apply deleteLink_data|done].
  - split_and!; [done|by apply drag_event_consistent|done].
  - destruct Hen as (Hel & Hl & Hc).
    destruct (onDrop_spec (dragst w) (dash w) p Hwf Hdc Hel Hl Hc)
      as (d' & ws & E & Hwf' & Hp & Hcur & Hth & Hws).
    rewrite E. cbn [fst snd]. split_and!; [done|done|].
    apply (store_inv_data (dash w)); [unfold panel_ids; by rewrite Hp|done..].
Qed.

Lemma healed_singleton s x : healed s [x] = Some x.
Proof.
  destruct s as [c|]; [|done]. simpl. case_bool_decide as H; [|by rewrite andb_false_r].
  apply list_elem_of_singleton in H as ->. by destruct (truthy x).
Qed.

Lemma healed_pair s x y : truthy x = true -> s <> Some y -> healed s [x; y] = Some x.
Proof.
  intros Hx Hs. destruct s as [c|]; [|done]. simpl.
  destruct (truthy c) eqn:Hc; [|done]. simpl.
  case_bool_decide as H; [|done].
  apply elem_of_cons in H as [-> | ->%list_elem_of_singleton]; congruence.
Qed.

(** A first load of data [init] can handle establishes the invariant. *)
Lemma boot_inv st pd gen d0 w :
  load st pd = Loaded d0 -> loaded_ok d0 -> panel_ids_truthy d0 -> gen_ok gen st ->
  boot st pd gen = Loaded w -> session_inv w.
Proof.
  intros Hload Hok Htr (H01 & H23 & Hg0 & Hg1 & Hgc).
  unfold boot. rewrite Hload. cbn [load_bind].
  destruct (load_Loaded _ _ _ Hload) as (Hs & Hcur & Hth).
  destruct (migrate_refs d0 gen Hok H01 H23) as [Hu Hr].
  unfold init. destruct (migrate d0 gen) as [d1 ws] eqn:Em. intros [= <-].
  split_and!; [by apply selfHeal_wf|done|]. cbn [dash store prefersDark] in *.
  destruct (selfHeal_fields d1) as (Hp1 & Hc1 & Hl1 & Ht1).
  unfold store_inv, panel_ids_truthy, panel_ids in *. rewrite selfHeal_current, Hp1, Ht1.
  unfold migrate in Em.
  destruct (panels d0) as [|p ps] eqn:Hp0; [destruct (categories d0) as [|c cs] eqn:Hc0|];
    injection Em as <- <-; cbn [panels currentPanelId currentTheme categories links] in *;
    rewrite ?loadCurrent_writes, ?loadTheme_writes by not_written.
  - split_and!; [by repeat constructor|by apply coll_synced_writes; left; left| |done].
    transitivity (Some (gen 0)); [|symmetry]; apply healed_pair; [exact Hg0|simpl; congruence|exact Hg0|exact Hgc].
  - split_and!; [by repeat constructor|by apply coll_synced_writes; left; left| |done].
    transitivity (Some (gen 0)); [|symmetry]; apply healed_singleton.
  - rewrite Hp0. split_and!; [done| |unfold panel_ids; by rewrite Hcur, Hp0|done].
    apply (coll_synced_same d0); [apply selfHeal_fields..|exact Hs].
Qed.

(** What a reload reads back from the store of a world with the
    invariant. *)
Lemma load_session w :
  session_inv w ->
  load (store w) (prefersDark w) =
  Loaded (mkDashboard (panels (dash w)) (categories (dash w)) (links (dash w))
                      (loadCurrent (store w)) (loadTheme (store w) (prefersDark w))).
Proof. intros (_ & _ & _ & Hs & _). by apply load_synced. Qed.

Lemma loaded_ok_session w :
  session_inv w ->
  loaded_ok (mkDashboard (panels (dash w)) (categories (dash w)) (links (dash w))
                         (loadCurrent (store w)) (loadTheme (store w) (prefersDark w))).
Proof.
  intros ((Hu & [Hrc Hrl] & _) & _). split_and!; [exact Hu|exact Hrl|].
  eapply Forall_impl; [exact Hrc|]. by left.
Qed.

Lemma reload_inv w gen w' :
  session_inv w -> gen_ok gen (store w) -> reload w gen = Loaded w' -> session_inv w'.
Proof.
  intros Hinv Hgen. unfold reload. eapply boot_inv; [by apply load_session|
    by apply loaded_ok_session|by destruct Hinv as (_ & _ & Htr & _)|done].
Qed.

(** Every reachable world satisfies the session invariant. *)
Lemma session_inv_reachable w : reachable w -> session_inv w.
Proof.
  induction 1 as [st pd gen d0 w Hload Hok Htr Hgen Hboot|w e _ IH Hen|w gen w' _ IH Hgen Hr].
  - by eapply boot_inv.
  - by apply step_inv.
  - by eapply reload_inv.
Qed.

(** C1: Every world a session reaches satisfies the invariant: the data
    model is well formed (unique ids, no dangling reference, a valid
    current panel), [dragType] agrees with [draggedItem], the store holds
    exactly the three arrays, and the stored current panel and theme load
    back as the ones on screen. *)
Theorem reachable_inv w :
  reachable w ->
  wf (dash w) /\ drag_consistent (dragst w) /\ panel_ids_truthy (dash w) /\
  coll_synced (dash w) (store w) /\
  currentPanelId (dash w) = healed (loadCurrent (store w)) (panel_ids (dash w)) /\
  currentTheme (dash w) = loadTheme (store w) (prefersDark w).
Proof. intros Hw. by destruct (session_inv_reachable w Hw) as (? & ? & ? & ? & ? & ?). Qed.

(** C5: Reloading the page restores the session exactly: in every reached
    world with at least one panel, a reload (whatever ids [generateId()]
    would return) gives back the same arrays, current panel and theme,
    writes nothing, and only resets the drag. *)
Theorem reload_restores w gen :
  reachable w -> panels (dash w) <> [] ->
  reload w gen = Loaded (mkWorld (dash w) (store w) drag_init (prefersDark w)).
Proof.
  intros Hw Hne. pose proof (session_inv_reachable w Hw) as Hinv.
  unfold reload, boot. rewrite load_session by done. cbn [load_bind].
  destruct Hinv as (_ & _ & _ & _ & Hcur & Hth).
  unfold init, migrate. cbn [panels].
  destruct (panels (dash w)) as [|p ps] eqn:Hp; [done|]. cbv beta iota.
  do 2 f_equal. set (d0 := mkDashboard _ _ _ _ _).
  destruct (selfHeal_fields d0) as (H1 & H2 & H3 & H4).
  apply dashboard_fields_eq; [by rewrite H1|by rewrite H2|by rewrite H3| |by rewrite H4, Hth].
  rewrite selfHeal_current, Hcur. unfold panel_ids. by rewrite Hp.
Qed.

(** In a well-formed model without panels there is no category and no
    link. *)
Lemma wf_no_panels d : wf d -> panels d = [] -> categories d = [] /\ links d = [].
Proof.
  intros (_ & [Hrc Hrl] & _) Hp.
  assert (categories d = []) as Hc.
  { destruct (categories d) as [|c cs]; [done|]. inversion Hrc as [|? ? Hc _].
    unfold cat_ref_ok in Hc. rewrite Hp in Hc. by apply not_elem_of_nil in Hc. }
  split; [done|]. destruct (links d) as [|l ls]; [done|]. inversion Hrl as [|? ? Hl _].
  unfold link_ref_ok in Hl. rewrite Hc in Hl. by apply not_elem_of_nil in Hl.
Qed.

(** C31: Deleting every panel is not permanent: the next reload finds no
    panel and no category and runs the first-run bootstrap again, so the
    panels "Work" and "Personal" with the categories "Projects" and
    "Favorites" reappear. *)
Theorem reload_reseeds w gen :
  reachable w -> panels (dash w) = [] ->
  exists w', reload w gen = Loaded w' /\
    panel_name <$> panels (dash w') = ["Work"; "Personal"] /\
    cat_name <$> categories (dash w') = ["Projects"; "Favorites"].
Proof.
  intros Hw Hp. pose proof (session_inv_reachable w Hw) as Hinv.
  destruct (wf_no_panels (dash w) (proj1 Hinv) Hp) as [Hc Hl].
  unfold reload, boot. rewrite load_session by done. cbn [load_bind].
  unfold init, migrate. cbn [panels categories]. rewrite Hp, Hc. cbv beta iota.
  eexists. split; [reflexivity|]. cbn [dash].
  match goal with |- context [selfHeal ?x] => destruct (selfHeal_fields x) as (-> & -> & _) end.
  done.
Qed.

(** ** Witnesses *)

Definition first_dash : Dashboard :=
  mkDashboard [mkPanel "p0" "Work"; mkPanel "p1" "Personal"]
              [mkCategory "c0" "Projects" (Some "p0"); mkCategory "c1" "Favorites" (Some "p1")]
              [] (Some "p0") light.

(** The page on a first visit with an empty store. *)
Definition first_visit : World := mkWorld first_dash (saveData first_dash ∅) drag_init false.

(** The same page after both panels were deleted. *)
Definition all_deleted : World :=
  step (step first_visit (EDeletePanel "p0" true)) (EDeletePanel "p1" true).

Lemma first_visit_reachable : reachable first_visit.
Proof.
  apply (reach_boot ∅ false gen_sample (mkDashboard [] [] [] None light));
    [reflexivity|decide_true|constructor| |reflexivity].
  split_and!; by vm_compute.
Qed.

Lemma all_deleted_reachable : reachable all_deleted.
Proof. repeat apply reach_step; [exact first_visit_reachable|exact I..]. Qed.

Lemma reachable_inv_witness :
  reachable first_visit /\ wf (dash first_visit) /\ drag_consistent (dragst first_visit) /\
  panel_ids_truthy (dash first_visit) /\ coll_synced (dash first_visit) (store first_visit) /\
  currentPanelId (dash first_visit) =
    healed (loadCurrent (store first_visit)) (panel_ids (dash first_visit)) /\
  currentTheme (dash first_visit) = loadTheme (store first_visit) (prefersDark first_visit).
Proof. split; [exact first_visit_reachable|apply reachable_inv; exact first_visit_reachable]. Defined.

Lemma reload_restores_witness :
  reachable first_visit /\ panels (dash first_visit) <> [] /\
  reload first_visit gen_sample = Loaded (mkWorld first_dash (store first_visit) drag_init false).
Proof.
  split_and!; [exact first_visit_reachable|discriminate|].
  apply (reload_restores first_visit gen_sample first_visit_reachable). discriminate.
Defined.

Lemma reload_reseeds_witness :
  reachable all_deleted /\ panels (dash all_deleted) = [] /\
  exists w', reload all_deleted gen_sample = Loaded w' /\
    panel_name <$> panels (dash w') = ["Work"; "Personal"] /\
    cat_name <$> categories (dash w') = ["Projects"; "Favorites"].
Proof.
  assert (Hp : panels (dash all_deleted) = []) by reflexivity.
  split_and!; [exact all_deleted_reachable|exact Hp|].
  exact (reload_reseeds all_deleted gen_sample all_deleted_reachable Hp).
Defined.
