(* ===== verification/Render.v ===== *)
(** The rendering layer of src/Dashboard/script.js: [escapeHTML] (lines
    663-667), [extractDomain] (lines 654-661), [renderPanels] (lines
    88-117) and [renderDashboard] (lines 120-226) as functions from the
    state to a view: the tabs, and the categories and links shown under
    the current tab with the text, attributes and favicon URL the
    templates interpolate.  The SVG icons and CSS classes that do not
    depend on the state are left out of the view. *)

From S2P Require Import Prelude Model Repository Persistence Bootstrap Session.
From stdpp Require Import gmap sets.

(** ** [escapeHTML]: the serialisation of a text node *)

(** [div.textContent = str; return div.innerHTML]: the HTML fragment
    serialisation of a text node replaces ["&"], ["<"], [">"] and the
    no-break space (U+00A0) by entities and keeps every other character,
    quotes included. *)
Definition escape_char (c : ascii) : string :=
  if Ascii.eqb c "&"%char then "&amp;"
  else if Ascii.eqb c "<"%char then "&lt;"
  else if Ascii.eqb c ">"%char then "&gt;"
  else if Ascii.eqb c (ascii_of_nat 160) then "&nbsp;"
  else String c EmptyString.

Fixpoint escapeHTML (s : string) : string :=
  match s with
  | EmptyString => EmptyString
  | String c s' => escape_char c ++ escapeHTML s'
  end.

(** [str.charAt(0)]. *)
Definition charAt0 (s : string) : string :=
  match s with EmptyString => EmptyString | String c _ => String c EmptyString end.

(** What takes the icon's place when the favicon fails to load (line
    193): the [onerror] handler hides the image and shows a text, or its
    source does not compile and the failed image stays. *)
Inductive IconFallback :=
  | Glyph (s : string)
  | GlyphReplacement
  | BrokenImage.

#[export] Instance IconFallback_eq_dec : EqDecision IconFallback.
Proof. solve_decision. Defined.

(** The characters that break the handler's source
    [this.style.display='none'; this.parentElement.innerText='G'] when
    they are [G]: a double quote ends the [onerror="..."] attribute of
    the [innerHTML] template early, leaving the string literal open; an
    apostrophe closes the literal and opens another one; a backslash
    escapes the closing apostrophe; a line feed, or a carriage return
    (which the HTML parser turns into a line feed), ends the line inside
    the literal.  Each is a [SyntaxError] when the handler is compiled. *)
Definition handler_breaking : list ascii :=
  [ascii_of_nat 34; ascii_of_nat 39; ascii_of_nat 92; ascii_of_nat 10; ascii_of_nat 13].

(** The handler with [G] read by the HTML parser from the attribute and
    by the JavaScript parser from the literal: a NUL in an attribute value
    is read as U+FFFD; an [&] is followed by an apostrophe, so it starts
    no character reference and stays an [&]. *)
Definition handler_glyph (g : string) : IconFallback :=
  match g with
  | EmptyString => Glyph EmptyString
  | String c _ =>
      if decide (c ∈ handler_breaking) then BrokenImage
      else if Ascii.eqb c (ascii_of_nat 0) then GlyphReplacement
      else Glyph g
  end.

(** Line 193: [G] is [escapeHTML(link.name).charAt(0)]. *)
Definition fallback_glyph (name : string) : IconFallback := handler_glyph (charAt0 (escapeHTML name)).

(** The text an HTML parser reads back from a fragment with the four
    entities [escapeHTML] writes: the reference against which the
    escaping is checked. *)
Fixpoint html_decode (cs : list ascii) : list ascii :=
  match cs with
  | [] => []
  | c :: r =>
      if Ascii.eqb c "&" then
        match r with
        | "l" :: "t" :: ";" :: r' => "<" :: html_decode r'
        | "g" :: "t" :: ";" :: r' => ">" :: html_decode r'
        | "a" :: "m" :: "p" :: ";" :: r' => "&" :: html_decode r'
        | "n" :: "b" :: "s" :: "p" :: ";" :: r' => ascii_of_nat 160 :: html_decode r'
        | _ => "&" :: html_decode r
        end
      else c :: html_decode r
  end%char.

(** ** [extractDomain] and the favicon URL *)

(** [s.replace(pattern, replacement)] with a string pattern: only the
    first occurrence is replaced (the replacement here has no [$]). *)
Definition js_replace (s pattern replacement : string) : string :=
  match String.index 0 pattern s with
  | None => s
  | Some i =>
      String.substring 0 i s ++ replacement ++
      String.substring (i + String.length pattern) (String.length s - (i + String.length pattern)) s
  end.

(** The favicon service URL of line 182. *)
Definition iconUrl (domain : string) : string :=
  "https://www.google.com/s2/favicons?domain=" ++ domain ++ "&sz=32".

(** ** The views the templates produce *)

(** A tab of [renderPanels] (lines 91-104): its [data-id], its class
    list and its label. *)
Record TabView := mkTabView { tab_id : string; tab_class : string; tab_label : string }.

(** A link row of [renderDashboard] (lines 180-206): [data-id], [href],
    the favicon's [src], the [onerror] fallback glyph, the name, and the
    description span, present when the description is truthy. *)
Record LinkView := mkLinkView {
  lv_id : string;
  lv_href : string;
  lv_icon : string;
  lv_glyph : IconFallback;
  lv_name : string;
  lv_desc : option string
}.

(** A category block (lines 148-176); an empty [cv_links] is the
    "No links in this category" placeholder of line 177. *)
Record CategoryView := mkCategoryView { cv_id : string; cv_title : string; cv_links : list LinkView }.

(** [dashboardContent]: the "No Panels" state (lines 123-131), the
    "Welcome to this Panel" state (lines 135-143), or the categories. *)
Inductive DashboardView :=
  | NoPanels
  | WelcomePanel
  | Shown (cs : list CategoryView).

(** Lines 93-104: [panel-tab active] on the current panel's tab. *)
Definition renderTab (cur : option string) (p : Panel) : TabView :=
  mkTabView (panel_id p)
    ("panel-tab " ++ (if Some (panel_id p) === cur then "active" else ""))
    (escapeHTML (panel_name p)).

(** Lines 88-117. *)
Definition renderPanels (d : Dashboard) : list TabView := renderTab (currentPanelId d) <$> panels d.

Section Rendering.

(** [new URL(url).hostname]: the platform's URL parser, [None] when the
    constructor throws. *)
Variable URL_hostname : string -> option string.

(** Lines 654-661. *)
Definition extractDomain (u : string) : string :=
  match URL_hostname u with
  | Some h => js_replace h "www." ""
  | None => ""
  end.

(** Lines 180-206. *)
Definition renderLink (l : Link) : LinkView :=
  let domain := extractDomain (url l) in
  mkLinkView (link_id l) (url l) (iconUrl domain) (fallback_glyph (link_name l))
    (escapeHTML (link_name l))
    (if truthy (description l) then Some (escapeHTML (description l)) else None).

(** Lines 145-176 and 179-223. *)
Definition renderCategory (ls : list Link) (c : Category) : CategoryView :=
  mkCategoryView (cat_id c) (escapeHTML (cat_name c)) (renderLink <$> catLinks ls (cat_id c)).

(** Lines 120-226. *)
Definition renderDashboard (d : Dashboard) : DashboardView :=
  if length (panels d) =? 0 then NoPanels
  else
    let pc := panelCategories d in
    if length pc =? 0 then WelcomePanel else Shown (renderCategory (links d) <$> pc).

End Rendering.

(** The characters [escapeHTML] turns into an entity. *)
Definition html_special : list ascii := ["&"; "<"; ">"; ascii_of_nat 160]%char.

(** ** Escaping *)

Lemma html_decode_plain c r : c <> "&"%char -> html_decode (c :: r) = c :: html_decode r.
Proof. intros Hc. cbn [html_decode]. by rewrite (proj2 (Ascii.eqb_neq _ _) Hc). Qed.

Lemma escape_char_cases c :
  (c = "&"%char /\ escape_char c = "&amp;") \/ (c = "<"%char /\ escape_char c = "&lt;") \/
  (c = ">"%char /\ escape_char c = "&gt;") \/
  (c = ascii_of_nat 160 /\ escape_char c = "&nbsp;") \/
  ((c ∉ html_special) /\ escape_char c = String c EmptyString).
Proof.
  unfold escape_char, html_special.
  destruct (Ascii.eqb_spec c "&"); [by left|].
  destruct (Ascii.eqb_spec c "<"); [by right; left|].
  destruct (Ascii.eqb_spec c ">"); [by right; right; left|].
  destruct (Ascii.eqb_spec c (ascii_of_nat 160)); [by do 3 right; left|].
  do 4 right. split; [|done]. rewrite !elem_of_cons, elem_of_nil. naive_solver.
Qed.

Lemma html_decode_escape_cons c s :
  html_decode (list_ascii_of_string (escape_char c ++ s)) = c :: html_decode (list_ascii_of_string s).
Proof.
  destruct (escape_char_cases c) as [(-> & ->)|[(-> & ->)|[(-> & ->)|[(-> & ->)|(Hc & ->)]]]];
    [reflexivity..|].
  apply html_decode_plain. intros ->. apply Hc. by left.
Qed.

(** C15: What the browser displays of an escaped text is the text itself:
    decoding the fragment [escapeHTML(s)] gives back [s], for every string,
    entities and markup characters included. *)
Theorem escapeHTML_roundtrip s :
  html_decode (list_ascii_of_string (escapeHTML s)) = list_ascii_of_string s.
Proof. induction s as [|c s IH]; [done|]. simpl. by rewrite html_decode_escape_cons, IH. Qed.

(** C14: A name or description inserted with [escapeHTML] never contains
    ["<"] or [">"]: user text between tags cannot open or close an
    element. *)
Theorem escapeHTML_no_markup s :
  Forall (fun c => c <> "<"%char /\ c <> ">"%char) (list_ascii_of_string (escapeHTML s)).
Proof.
  induction s as [|c s IH]; [constructor|]. simpl. rewrite list_ascii_of_string_app, Forall_app.
  split; [|done].
  destruct (escape_char_cases c) as [(-> & ->)|[(-> & ->)|[(-> & ->)|[(-> & ->)|(Hc & ->)]]]];
    repeat constructor; try discriminate.
  all: intros ->; apply Hc; unfold html_special; set_solver.
Qed.

(** C21: When the favicon fails, the icon's place shows the first
    character of the name, except that a name starting with ["&"], ["<"],
    [">"] or a no-break space shows ["&"] (the first character of the
    entity), a name starting with a NUL shows U+FFFD, and for a name
    starting with a double quote, an apostrophe, a backslash, a line feed
    or a carriage return the [onerror] handler does not compile, so the
    failed image stays and no glyph is shown. *)
Theorem fallback_glyph_first_char c r :
  fallback_glyph (String c r) =
  if decide (c ∈ html_special) then Glyph "&"
  else if decide (c ∈ [ascii_of_nat 34; ascii_of_nat 39; ascii_of_nat 92; ascii_of_nat 10;
                        ascii_of_nat 13]) then BrokenImage
  else if Ascii.eqb c (ascii_of_nat 0) then GlyphReplacement
  else Glyph (String c EmptyString).
Proof.
  unfold fallback_glyph. cbn [escapeHTML].
  destruct (escape_char_cases c) as [(-> & ->)|[(-> & ->)|[(-> & ->)|[(-> & ->)|(Hc & ->)]]]];
    [rewrite decide_True by (unfold html_special; set_solver); reflexivity..|].
  rewrite decide_False by done. reflexivity.
Qed.

(** ** [applyTheme] (lines 669-679) *)

(** The [data-theme] attribute of the root element and which of the two
    icons shows. *)
Record ThemeView := mkThemeView { data_theme : option string; moon_shown : bool; sun_shown : bool }.

Definition applyTheme (t : Theme) : ThemeView :=
  match t with
  | dark => mkThemeView (Some "dark") false true
  | _ => mkThemeView None true false
  end.

(** The tabs marked [active]. *)
Definition active_tabs (d : Dashboard) : list TabView :=
  List.filter (fun t => String.eqb (tab_class t) "panel-tab active") (renderPanels d).

(** The link rows shown on the page. *)
Definition shown_links (v : DashboardView) : list LinkView :=
  match v with Shown cs => mjoin (cv_links <$> cs) | _ => [] end.

(** ** Domains *)

Lemma index_cons p c s :
  String.index 0 p (String c s) =
  if String.prefix p (String c s) then Some 0 else option_map S (String.index 0 p s).
Proof. simpl. by destruct (String.index 0 p s). Qed.

Lemma index_www_app h : String.index 0 "www." ("www." ++ h) = Some 0.
Proof. by destruct h. Qed.

Lemma substring_full s : String.substring 0 (String.length s) s = s.
Proof. induction s as [|c s IH]; simpl; [done|by rewrite IH]. Qed.

(** A host name starting with ["www."] loses exactly that prefix:
    the favicon is requested for the rest of the host name. *)
Theorem extractDomain_www_prefix URL_hostname u h :
  URL_hostname u = Some ("www." ++ h)%string -> extractDomain URL_hostname u = h.
Proof.
  intros Hu. unfold extractDomain, js_replace. rewrite Hu.
  rewrite index_www_app. simpl. rewrite Nat.sub_0_r. apply substring_full.
Qed.

(** C25: [replace] removes the first ["www."] wherever it occurs, not only
    at the start: a host name whose first character is followed by
    ["www."] loses those four characters, and the favicon is requested
    for another domain. *)
Theorem extractDomain_inner_www URL_hostname u c h :
  c <> "w"%char -> URL_hostname u = Some (String c ("www." ++ h)) ->
  extractDomain URL_hostname u = String c h.
Proof.
  intros Hc Hu. unfold extractDomain, js_replace. rewrite Hu.
  assert (Hp : String.prefix "www." (String c ("www." ++ h)) = false)
    by (change (match ascii_dec "w" c with
                | left _ => String.prefix "ww." ("www." ++ h) | right _ => false end = false);
        destruct (ascii_dec "w" c) as [<-|_]; [by destruct Hc|done]).
  rewrite index_cons, Hp, index_www_app. simpl. rewrite Nat.sub_0_r. by rewrite substring_full.
Qed.

(** ** Tabs *)

Lemma renderTab_active cur p :
  String.eqb (tab_class (renderTab cur p)) "panel-tab active" = (Some (panel_id p) === cur).
Proof. unfold renderTab. cbn [tab_class]. by destruct (Some (panel_id p) === cur). Qed.

Lemma active_tab_ids d :
  tab_id <$> active_tabs d = List.filter (fun x => Some x === currentPanelId d) (panel_ids d).
Proof.
  unfold active_tabs, renderPanels, panel_ids.
  rewrite <- (fmap_filter_key (renderTab (currentPanelId d))), <- list_fmap_compose.
  rewrite (List.filter_ext _ _ (renderTab_active (currentPanelId d))).
  exact (fmap_filter_key panel_id (fun y => Some y === currentPanelId d) (panels d)).
Qed.

(** In a well-formed state with a panel, exactly one tab is active: the
    current panel's. *)
Lemma renderPanels_one_active d :
  wf d -> panels d <> [] ->
  exists id, currentPanelId d = Some id /\ tab_id <$> active_tabs d = [id].
Proof.
  intros ((Hnd & _) & _ & Hcur) Hp. unfold current_ok in Hcur.
  destruct (currentPanelId d) as [id|] eqn:E; [|done].
  exists id. split; [done|]. rewrite active_tab_ids, E.
  apply js_filter_unique; [done..|]. intros y. rewrite strict_eq_spec. naive_solver.
Qed.

(** C19: In every world a session reaches, whenever a panel exists, exactly
    one tab is marked [active], and it is the current panel's. *)
Theorem reachable_one_active_tab w :
  reachable w -> panels (dash w) <> [] ->
  exists id, currentPanelId (dash w) = Some id /\ tab_id <$> active_tabs (dash w) = [id].
Proof. intros Hw. apply renderPanels_one_active, (session_inv_reachable w Hw). Qed.

(** ** The dashboard *)

Lemma elem_of_panelCategories d c :
  c ∈ panelCategories d <-> c ∈ categories d /\ panelId c = currentPanelId d.
Proof. unfold panelCategories. by rewrite elem_of_js_filter, strict_eq_spec. Qed.

Lemma elem_of_catLinks ls cid l : l ∈ catLinks ls cid <-> l ∈ ls /\ categoryId l = cid.
Proof. unfold catLinks. by rewrite elem_of_js_filter, strict_eq_spec. Qed.

(** The rows of the page, once a panel exists: one for each link whose
    category is on the current panel. *)
Lemma shown_links_spec URL_hostname d lv :
  panels d <> [] ->
  lv ∈ shown_links (renderDashboard URL_hostname d) <->
  exists l c, l ∈ links d /\ c ∈ categories d /\ panelId c = currentPanelId d /\
    categoryId l = cat_id c /\ lv = renderLink URL_hostname l.
Proof.
  intros Hp. unfold renderDashboard.
  destruct (Nat.eqb_spec (length (panels d)) 0) as [Hl|_]; [by destruct (panels d)|].
  destruct (Nat.eqb_spec (length (panelCategories d)) 0) as [Hc|_]; cbn [shown_links].
  - apply nil_length_inv in Hc. rewrite elem_of_nil. split; [done|].
    intros (l & c & _ & Hc' & Hpc & _).
    assert (Hin : c ∈ panelCategories d) by (by apply elem_of_panelCategories).
    rewrite Hc in Hin. by apply elem_of_nil in Hin.
  - rewrite list_elem_of_join. split.
    + intros (ls & Hlv & Hls). apply list_elem_of_fmap in Hls as (x & -> & Hx).
      apply list_elem_of_fmap in Hx as (c & -> & Hc).
      apply list_elem_of_fmap in Hlv as (l & -> & Hl).
      apply elem_of_panelCategories in Hc. apply elem_of_catLinks in Hl. naive_solver.
    + intros (l & c & Hl & Hc & Hpc & Hlc & ->).
      exists (cv_links (renderCategory URL_hostname (links d) c)). split.
      * apply list_elem_of_fmap. exists l. split; [done|]. by apply elem_of_catLinks.
      * apply list_elem_of_fmap. eexists. split; [done|].
        apply list_elem_of_fmap. exists c. split; [done|]. by apply elem_of_panelCategories.
Qed.

(** C20: Once a panel exists, the page shows a row for a link exactly when
    the link's category belongs to the current panel; links whose
    category is missing or on another panel are not shown. *)
Theorem renderDashboard_links URL_hostname d lv :
  panels d <> [] ->
  lv ∈ shown_links (renderDashboard URL_hostname d) <->
  exists l c, l ∈ links d /\ c ∈ categories d /\ panelId c = currentPanelId d /\
    categoryId l = cat_id c /\ lv = renderLink URL_hostname l.
Proof. apply shown_links_spec. Qed.

(** ** Witnesses *)

Lemma extractDomain_www_prefix_witness :
  (fun _ : string => Some "www.github.com"%string) "https://www.github.com/" =
    Some ("www." ++ "github.com")%string /\
  extractDomain (fun _ => Some "www.github.com"%string) "https://www.github.com/" = "github.com"%string.
Proof.
  assert (H : (fun _ : string => Some "www.github.com"%string) "https://www.github.com/" =
                Some ("www." ++ "github.com")%string) by reflexivity.
  split; [exact H|exact (extractDomain_www_prefix _ _ _ H)].
Defined.

Lemma reachable_one_active_tab_witness :
  reachable first_visit /\ panels (dash first_visit) <> [] /\
  exists id, currentPanelId (dash first_visit) = Some id /\
    tab_id <$> active_tabs (dash first_visit) = [id].
Proof.
  split_and!; [exact first_visit_reachable|discriminate|].
  apply (reachable_one_active_tab first_visit first_visit_reachable). discriminate.
Defined.

(** The link [News] lies on the [Home] panel, not on the current [Work]
    panel: it is not shown. *)
Lemma renderDashboard_links_witness :
  panels sample <> [] /\
  (renderLink (fun _ => None) (mkLink "l3" "News" "" "https://news.example" "c2")
     ∈ shown_links (renderDashboard (fun _ => None) sample) <->
   exists l c, l ∈ links sample /\ c ∈ categories sample /\ panelId c = currentPanelId sample /\
     categoryId l = cat_id c /\
     renderLink (fun _ => None) (mkLink "l3" "News" "" "https://news.example" "c2") =
       renderLink (fun _ => None) l) /\
  shown_links (renderDashboard (fun _ => None) sample) =
    renderLink (fun _ => None) <$> take 2 (links sample).
Proof.
  assert (Hp : panels sample <> []) by discriminate.
  split_and!; [exact Hp|exact (renderDashboard_links _ sample _ Hp)|reflexivity].
Defined.

Lemma extractDomain_inner_www_witness :
  "a"%char <> "w"%char /\
  (fun _ : string => Some "awww.io"%string) "https://awww.io/" = Some (String "a" ("www." ++ "io")) /\
  extractDomain (fun _ => Some "awww.io"%string) "https://awww.io/" = "aio"%string.
Proof.
  assert (Hc : "a"%char <> "w"%char) by discriminate.
  assert (H : (fun _ : string => Some "awww.io"%string) "https://awww.io/" =
                Some (String "a" ("www." ++ "io"))) by reflexivity.
  split_and!; [exact Hc|exact H|exact (extractDomain_inner_www _ _ _ _ Hc H)].
Defined.

(** A name starting with ["<"] falls back to ["&"]; one starting with a
    quote puts the quote inside the single-quoted string literal of the
    [onerror] handler. *)
(** A stored theme other than light and dark shows as light, and so does
    the theme the first toggle makes of it: that toggle changes nothing on
    screen. *)
(** C34: In every session whose stored theme is a non-empty string other
    than ['light'] and ['dark'], the page keeps that string as the
    current theme and displays it as light, and the first click on the
    theme toggle turns it into ['light']: the display does not change. *)
Theorem custom_theme_first_toggle w s :
  reachable w -> store w !! key_theme = Some s -> truthy s = true ->
  s <> "light"%string -> s <> "dark"%string ->
  currentTheme (dash w) = custom s /\ applyTheme (currentTheme (dash w)) = applyTheme light /\
  currentTheme (dash (step w EToggleTheme)) = light /\
  applyTheme (currentTheme (dash (step w EToggleTheme))) = applyTheme (currentTheme (dash w)).
Proof.
  intros Hw Hs Ht H1 H2. destruct (session_inv_reachable w Hw) as (_ & _ & _ & _ & _ & Hth).
  rewrite (loadTheme_custom _ _ s) in Hth by done.
  rewrite step_eq. cbn [dash react toggleTheme fst set_theme currentTheme]. by rewrite Hth.
Qed.

(** A first visit with a theme stored by another version of the page. *)
Definition solarized_visit : World :=
  match boot (<[key_theme := "solarized"]> ∅) false gen_sample with
  | Loaded w => w
  | _ => first_visit
  end.

Lemma solarized_visit_reachable : reachable solarized_visit.
Proof.
  apply (reach_boot (<[key_theme := "solarized"]> ∅) false gen_sample
           (mkDashboard [] [] [] None (custom "solarized")));
    [reflexivity|decide_true|constructor| |reflexivity].
  split_and!; by vm_compute.
Qed.

Lemma custom_theme_first_toggle_witness :
  reachable solarized_visit /\ store solarized_visit !! key_theme = Some "solarized"%string /\
  currentTheme (dash solarized_visit) = custom "solarized" /\
  applyTheme (currentTheme (dash solarized_visit)) = applyTheme light /\
  currentTheme (dash (step solarized_visit EToggleTheme)) = light /\
  applyTheme (currentTheme (dash (step solarized_visit EToggleTheme))) =
    applyTheme (currentTheme (dash solarized_visit)).
Proof.
  assert (Hs : store solarized_visit !! key_theme = Some "solarized"%string) by reflexivity.
  destruct (custom_theme_first_toggle solarized_visit "solarized" solarized_visit_reachable Hs
              eq_refl ltac:(discriminate) ltac:(discriminate)) as (H1 & H2 & H3 & H4).
  split_and!; [exact solarized_visit_reachable|exact Hs|exact H1|exact H2|exact H3|exact H4].
Defined.
