(* ===== verification/Progress.v ===== *)
(** Progress of a session: what the user can always still do.  A run of
    enabled events is the reflexive-transitive closure of [enabled_step];
    every world it reaches is reachable.  From every reachable world the
    forms of the page (the panel, category and link modals of lines
    493-553) let the user add a link with any URL, name and description
    in at most three submissions, and [renderDashboard] then shows it:
    a panel when there is none, a category on the current panel, then
    the link in that category. *)

From stdpp Require Import gmap sets infinite.
From S2P Require Import Prelude Model Repository Session Render.

(** One event the page can send, and the world it leads to. *)
Definition enabled_step (w w' : World) : Prop := exists e, enabled w e /\ w' = step w e.

(** An id [generateId()] may return: non-empty and not among [xs]. *)
Definition new_id (xs : list string) : string := infinite_fresh ("" :: xs).

(** The submissions of the schedule: an add form (empty hidden id). *)
Definition add_panel (w : World) : Event :=
  EPanelSubmit (mkPanelForm "Links" "") (new_id (panel_ids (dash w))).
Definition add_category (w : World) : Event :=
  ECategorySubmit (mkCategoryForm "Links" "") (new_id (cat_ids (dash w))).

Lemma reachable_rtc w w' : reachable w -> rtc enabled_step w w' -> reachable w'.
Proof.
  intros Hw Hs. induction Hs as [|x y z (e & He & ->) _ IH]; [done|].
  apply IH. by apply reach_step.
Qed.

Lemma new_id_spec xs : truthy (new_id xs) = true /\ new_id xs ∉ xs.
Proof.
  unfold new_id. pose proof (infinite_is_fresh ("" :: xs)) as H.
  rewrite not_elem_of_cons in H. destruct H as [H1 H2]. split; [|done]. by apply negb_true_iff, String.eqb_neq.
Qed.

Lemma dash_step w e : dash (step w e) = fst (react (dragst w) (dash w) e).
Proof. by rewrite step_eq. Qed.

Lemma dash_add_panel w :
  dash (step w (add_panel w)) =
  set_current (set_panels (dash w) (push (panels (dash w))
                (mkPanel (new_id (panel_ids (dash w))) (js_trim "Links"))))
              (Some (new_id (panel_ids (dash w)))).
Proof. by rewrite dash_step. Qed.

Lemma dash_add_category w :
  dash (step w (add_category w)) =
  set_categories (dash w) (push (categories (dash w))
    (mkCategory (new_id (cat_ids (dash w))) (js_trim "Links") (currentPanelId (dash w)))).
Proof. by rewrite dash_step. Qed.

Lemma dash_add_link w c u name desc :
  dash (step w (ELinkSubmit (mkLinkForm u name desc c "") (new_id (link_ids (dash w))))) =
  set_links (dash w) (push (links (dash w))
    (mkLink (new_id (link_ids (dash w))) (js_trim name) (js_trim desc) (normalizeUrl u) c)).
Proof. by rewrite dash_step. Qed.

(** From a world with a current panel: a category on it, then the link
    in that category; the panels and the current panel stay. *)
Lemma link_added w u name desc :
  currentPanelId (dash w) <> None ->
  exists w' l c, rtc enabled_step w w' /\
    panels (dash w') = panels (dash w) /\ currentPanelId (dash w') = currentPanelId (dash w) /\
    l ∈ links (dash w') /\ c ∈ categories (dash w') /\ panelId c = currentPanelId (dash w') /\
    categoryId l = cat_id c /\
    link_name l = js_trim name /\ url l = normalizeUrl u /\ description l = js_trim desc.
Proof.
  intros Hcur. set (w1 := step w (add_category w)).
  set (c := new_id (cat_ids (dash w))).
  set (e2 := ELinkSubmit (mkLinkForm u name desc c "") (new_id (link_ids (dash w1)))).
  assert (Hd1 := dash_add_category w). fold w1 c in Hd1.
  assert (Hd2 := dash_add_link w1 c u name desc). fold e2 in Hd2.
  exists (step w1 e2), (mkLink (new_id (link_ids (dash w1))) (js_trim name) (js_trim desc) (normalizeUrl u) c),
    (mkCategory c (js_trim "Links") (currentPanelId (dash w))).
  rewrite Hd2, Hd1. simpl_dash. split_and!; try done; [|apply elem_of_push; by right..].
  eapply rtc_l; [exists (add_category w); split; [split; [done|apply new_id_spec]|done]|].
  apply rtc_once. exists e2. split; [|done]. cbn [enabled].
  split; [|apply new_id_spec]. unfold cat_ids. simpl_dash.
  apply list_elem_of_fmap. eexists. split; [|apply elem_of_push; by right]. done.
Qed.

(** C7: From every world a session reaches, the user can add a link with
    any URL, name and description by at most three submissions of the
    page's forms (a panel when there is none, a category on the current
    panel, the link); the world reached is reachable, keeps the current
    panel when there was one, and the page shows the new link's row
    whatever the URL parser answers. *)
Theorem link_can_be_added_and_shown w u name desc :
  reachable w ->
  exists w' l, rtc enabled_step w w' /\ reachable w' /\ l ∈ links (dash w') /\
    link_name l = js_trim name /\ url l = normalizeUrl u /\ description l = js_trim desc /\
    (currentPanelId (dash w) <> None -> currentPanelId (dash w') = currentPanelId (dash w)) /\
    forall URL_hostname,
      renderLink URL_hostname l ∈ shown_links (renderDashboard URL_hostname (dash w')).
Proof.
  intros Hw. destruct (session_inv_reachable w Hw) as ((_ & _ & Hok) & _).
  destruct (currentPanelId (dash w)) as [p|] eqn:Ec.
  - destruct (link_added w u name desc) as (w' & l & c & Hs & Hp & Hc & Hl & Hc' & Hpc & Hlc & Hn & Hu & Hdesc);
      [congruence|].
    exists w', l. split_and!; try done; [by eapply reachable_rtc|intros _; by rewrite Hc, Ec|].
    intros H. apply shown_links_spec; [|eauto 10].
    unfold current_ok, panel_ids in Hok. rewrite Ec in Hok. rewrite Hp. intros He.
    rewrite He in Hok. by apply elem_of_nil in Hok.
  - set (w0 := step w (add_panel w)).
    assert (Hd0 := dash_add_panel w). fold w0 in Hd0.
    destruct (link_added w0 u name desc) as (w' & l & c & Hs & Hp & Hc & Hl & Hc' & Hpc & Hlc & Hn & Hu & Hdesc);
      [rewrite Hd0; discriminate|].
    assert (Hs' : rtc enabled_step w w').
    { eapply rtc_l; [|exact Hs]. exists (add_panel w). split; [apply new_id_spec|done]. }
    exists w', l. split_and!; try done; [by eapply reachable_rtc|].
    intros H. apply shown_links_spec; [|eauto 10].
    rewrite Hp, Hd0. simpl_dash. unfold push. by destruct (panels (dash w)).
Qed.

(** ** Witnesses *)

Lemma link_can_be_added_and_shown_witness :
  reachable first_visit /\
  exists w' l, rtc enabled_step first_visit w' /\ reachable w' /\ l ∈ links (dash w') /\
    link_name l = js_trim "Docs" /\ url l = normalizeUrl "rocq-prover.org" /\
    description l = js_trim "" /\
    (currentPanelId (dash first_visit) <> None ->
       currentPanelId (dash w') = currentPanelId (dash first_visit)) /\
    forall URL_hostname,
      renderLink URL_hostname l ∈ shown_links (renderDashboard URL_hostname (dash w')).
Proof.
  split; [exact first_visit_reachable|].
  exact (link_can_be_added_and_shown first_visit "rocq-prover.org" "Docs" "" first_visit_reachable).
Defined.
