(* ===== verification/Refinement.v ===== *)
(** The repository refines the hierarchical data model of the
    specification: panels own categories, categories own links
    ([list PanelNode]), with a current panel.  [abs] reads the tree off the
    three flat arrays of src/Dashboard/script.js (a category under the
    panel its [panelId] names, a link under the category its [categoryId]
    names, both in array order).  The CRUD contract (create appends at the
    end, update by id in place, delete cascades, a deleted current panel
    gives way to the first remaining one) is the relation [t_spec] on
    trees: a function for every command but the link edit, whose moved
    link the tree cannot place (its place in the new category follows the
    flat array), so the contract allows any place there.  Every command
    the handlers of Repository.v run is allowed by the contract:
    [t_spec (abs d) c (abs (exec d c))], over whole command sequences. *)

From stdpp Require Import infinite.
From S2P Require Import Prelude Model Repository Render.

(** ** The abstract model *)

Record CatNode := mkCatNode { node_cat : Category; node_links : list Link }.
Record PanelNode := mkPanelNode { node_panel : Panel; node_cats : list CatNode }.

Record AState := mkAState { tree : list PanelNode; current : option string }.

(** The categories whose [panelId] names the panel [pid], in order. *)
Definition cats_of (cs : list Category) (pid : string) : list Category :=
  List.filter (fun c => panelId c === Some pid) cs.

Definition cat_node (ls : list Link) (c : Category) : CatNode :=
  mkCatNode c (catLinks ls (cat_id c)).

Definition panel_node (cs : list Category) (ls : list Link) (p : Panel) : PanelNode :=
  mkPanelNode p (cat_node ls <$> cats_of cs (panel_id p)).

Definition abs_tree (ps : list Panel) (cs : list Category) (ls : list Link) : list PanelNode :=
  panel_node cs ls <$> ps.

(** The abstraction of a state: the tree its arrays describe, and the
    current panel. *)
Definition abs (d : Dashboard) : AState :=
  mkAState (abs_tree (panels d) (categories d) (links d)) (currentPanelId d).

(** ** The CRUD contract on trees *)

Definition map_cats (g : CatNode -> CatNode) (t : list PanelNode) : list PanelNode :=
  (fun n => mkPanelNode (node_panel n) (g <$> node_cats n)) <$> t.

Definition t_createPanel (p : Panel) (a : AState) : AState :=
  mkAState (tree a ++ [mkPanelNode p []]) (Some (panel_id p)).

Definition t_createCategory (c : Category) (a : AState) : AState :=
  mkAState
    ((fun n => if Some (panel_id (node_panel n)) === panelId c
               then mkPanelNode (node_panel n) (node_cats n ++ [mkCatNode c []]) else n) <$> tree a)
    (current a).

Definition t_createLink (l : Link) (a : AState) : AState :=
  mkAState
    (map_cats (fun cn => if cat_id (node_cat cn) === categoryId l
                         then mkCatNode (node_cat cn) (node_links cn ++ [l]) else cn) (tree a))
    (current a).

Definition t_updatePanel (id name : string) (a : AState) : AState :=
  mkAState
    ((fun n => if panel_id (node_panel n) === id
               then mkPanelNode (rename_panel name (node_panel n)) (node_cats n) else n) <$> tree a)
    (current a).

Definition t_updateCategory (id name : string) (a : AState) : AState :=
  mkAState
    (map_cats (fun cn => if cat_id (node_cat cn) === id
                         then mkCatNode (rename_category name (node_cat cn)) (node_links cn) else cn)
       (tree a))
    (current a).

Definition t_deletePanel (id : string) (a : AState) : AState :=
  let t := List.filter (fun n => panel_id (node_panel n) !== id) (tree a) in
  mkAState t
    (if current a === Some id
     then match t with n :: _ => Some (panel_id (node_panel n)) | [] => None end
     else current a).

Definition t_deleteCategory (id : string) (a : AState) : AState :=
  mkAState
    ((fun n => mkPanelNode (node_panel n) (List.filter (fun cn => cat_id (node_cat cn) !== id) (node_cats n)))
       <$> tree a)
    (current a).

Definition t_deleteLink (id : string) (a : AState) : AState :=
  mkAState
    (map_cats (fun cn => mkCatNode (node_cat cn) (List.filter (fun l => link_id l !== id) (node_links cn)))
       (tree a))
    (current a).

(** The links of category [cid] after the link [id] is edited into [l]:
    in place when it stays in its category; appended to its new category
    somewhere among that category's links, which keep their order (the
    tree does not record where: the place follows the flat array); gone
    from every other category. *)
Definition link_slot (id : string) (l : Link) (cid : string) (ls ls' : list Link) : Prop :=
  if categoryId l === cid then
    if decide (id ∈ link_id <$> ls) then ls' = (fun x => if link_id x === id then l else x) <$> ls
    else exists pre post, ls = pre ++ post /\ ls' = pre ++ l :: post
  else ls' = List.filter (fun x => link_id x !== id) ls.

(** The contract of a link edit, a relation: panels, categories and the
    current panel stay, and each category's links change as [link_slot]
    says. *)
Definition t_updateLink (id : string) (l : Link) (a a' : AState) : Prop :=
  current a' = current a /\
  Forall2 (fun n n' => node_panel n' = node_panel n /\
             Forall2 (fun cn cn' => node_cat cn' = node_cat cn /\
                        link_slot id l (cat_id (node_cat cn)) (node_links cn) (node_links cn'))
                     (node_cats n) (node_cats n'))
          (tree a) (tree a').

(** ** Commands *)

(** What the user submits: the create forms with the id [generateId()]
    returned, the edit forms of a panel, a category or a link, and a
    confirmed delete. *)
Inductive Cmd :=
  | CreatePanel (name newId : string)
  | CreateCategory (name newId : string)
  | CreateLink (url name desc cat newId : string)
  | UpdatePanel (id name : string)
  | UpdateCategory (id name : string)
  | UpdateLink (id url name desc cat : string)
  | DeletePanel (id : string)
  | DeleteCategory (id : string)
  | DeleteLink (id : string).

(** The handler each command runs (Repository.v). *)
Definition exec (d : Dashboard) (c : Cmd) : Dashboard :=
  match c with
  | CreatePanel name newId => fst (handlePanelSubmit d (mkPanelForm name "") newId)
  | CreateCategory name newId => fst (handleCategorySubmit d (mkCategoryForm name "") newId)
  | CreateLink u name desc cat newId =>
      fst (handleLinkSubmit d (mkLinkForm u name desc cat "") newId)
  | UpdatePanel id name => fst (handlePanelSubmit d (mkPanelForm name id) "")
  | UpdateCategory id name => fst (handleCategorySubmit d (mkCategoryForm name id) "")
  | UpdateLink id u name desc cat => fst (handleLinkSubmit d (mkLinkForm u name desc cat id) "")
  | DeletePanel id => fst (deletePanel d id true)
  | DeleteCategory id => fst (deleteCategory d id true)
  | DeleteLink id => fst (deleteLink d id true)
  end.

(** The contract for each command, with the fields as the handlers
    coerce them (trimmed names, normalised URL): a function of the tree
    for every command but the link edit, which may put a moved link
    anywhere in its new category. *)
Definition t_spec (a : AState) (c : Cmd) (a' : AState) : Prop :=
  match c with
  | CreatePanel name newId => a' = t_createPanel (mkPanel newId (js_trim name)) a
  | CreateCategory name newId => a' = t_createCategory (mkCategory newId (js_trim name) (current a)) a
  | CreateLink u name desc cat newId =>
      a' = t_createLink (mkLink newId (js_trim name) (js_trim desc) (normalizeUrl u) cat) a
  | UpdatePanel id name => a' = t_updatePanel id (js_trim name) a
  | UpdateCategory id name => a' = t_updateCategory id (js_trim name) a
  | UpdateLink id u name desc cat =>
      t_updateLink id (mkLink id (js_trim name) (js_trim desc) (normalizeUrl u) cat) a a'
  | DeletePanel id => a' = t_deletePanel id a
  | DeleteCategory id => a' = t_deleteCategory id a
  | DeleteLink id => a' = t_deleteLink id a
  end.

(** The conditions under which the page issues a command: generated ids
    are fresh, a category is created under an existing
    current panel (lines 262-265) and a link in an existing category (the
    select, lines 632-641), an edit form carries the non-empty id of the
    item it was opened on, and a link edit names an existing category. *)
Definition cmd_ok (d : Dashboard) (c : Cmd) : Prop :=
  match c with
  | CreatePanel _ newId => newId ∉ panel_ids d
  | CreateCategory _ newId => currentPanelId d <> None /\ newId ∉ cat_ids d
  | CreateLink _ _ _ cat newId => cat ∈ cat_ids d /\ newId ∉ link_ids d
  | UpdatePanel id _ | UpdateCategory id _ => truthy id = true
  | UpdateLink id _ _ _ cat => truthy id = true /\ id ∈ link_ids d /\ cat ∈ cat_ids d
  | DeletePanel _ | DeleteCategory _ | DeleteLink _ => True
  end.

Fixpoint run (d : Dashboard) (cs : list Cmd) : Dashboard :=
  match cs with [] => d | c :: cs' => run (exec d c) cs' end.

(** The states the contract allows after a sequence of commands. *)
Fixpoint t_runs (a : AState) (cs : list Cmd) (a' : AState) : Prop :=
  match cs with [] => a' = a | c :: cs' => exists a1, t_spec a c a1 /\ t_runs a1 cs' a' end.

Fixpoint cmds_ok (d : Dashboard) (cs : list Cmd) : Prop :=
  match cs with [] => True | c :: cs' => cmd_ok d c /\ cmds_ok (exec d c) cs' end.

(** ** Commuting squares *)

(** Read the fields of a literal form and decide [truthy ""]. *)
Ltac form_fields :=
  cbn [link_form_id link_form_url link_form_name link_form_description link_form_category
       panel_form_id panel_form_name category_form_id category_form_name truthy negb String.eqb].

Ltac simpl_abs :=
  simpl_dash; cbn [tree current node_panel node_cats node_cat node_links compose] in *.

(** A change of the links array seen by every category node alike. *)
Lemma abs_tree_links ps cs ls ls' (g : CatNode -> CatNode) :
  (forall c, g (cat_node ls c) = cat_node ls' c) ->
  abs_tree ps cs ls' = map_cats g (abs_tree ps cs ls).
Proof.
  intros Hg. unfold map_cats, abs_tree. rewrite <- list_fmap_compose.
  apply fmap_ext_in. intros p _. unfold panel_node. simpl_abs. f_equal.
  rewrite <- list_fmap_compose. apply fmap_ext_in. intros c _. symmetry. apply Hg.
Qed.

(** Deleting a link removes it from the link list of its category. *)
Lemma abs_deleteLink d id : abs (fst (deleteLink d id true)) = t_deleteLink id (abs d).
Proof.
  unfold abs, deleteLink, t_deleteLink. simpl_abs. f_equal.
  apply abs_tree_links. intros c. unfold cat_node. simpl_abs. f_equal. apply js_filter_comm.
Qed.

(** Deleting a category removes its node, with its links, from its
    panel. *)
Lemma abs_deleteCategory d id : abs (fst (deleteCategory d id true)) = t_deleteCategory id (abs d).
Proof.
  unfold abs, deleteCategory, t_deleteCategory, abs_tree. simpl_abs. f_equal.
  rewrite <- list_fmap_compose. apply fmap_ext_in. intros p _. unfold panel_node. simpl_abs.
  f_equal. rewrite <- (fmap_filter_key (cat_node (links d))). unfold cats_of. rewrite js_filter_comm.
  apply fmap_ext_in. intros c Hc. apply elem_of_js_filter in Hc as [_ Hc]. unfold cat_node in *.
  simpl_abs. strict_simpl.
  f_equal. apply js_filter_filter_implied. intros l _ Hl. strict_simpl. congruence.
Qed.

(** Deleting a panel removes its node, with its categories and their
    links. *)
Lemma abs_tree_deletePanel ps cs ls id :
  let cs' := List.filter (fun c => panelId c !== Some id) cs in
  abs_tree (List.filter (fun p => panel_id p !== id) ps) cs'
    (List.filter (fun l => set_has (cat_id <$> cs') (categoryId l)) ls) =
  List.filter (fun n => panel_id (node_panel n) !== id) (abs_tree ps cs ls).
Proof.
  intros cs'. unfold abs_tree.
  rewrite <- (fmap_filter_key (panel_node cs ls) (fun n => panel_id (node_panel n) !== id)).
  apply fmap_ext_in. intros p Hp. apply elem_of_js_filter in Hp as [_ Hp].
  unfold panel_node in *. simpl_abs. strict_simpl. f_equal. unfold cats_of at 1, cs'.
  rewrite js_filter_filter_implied by (intros c _ Hc; strict_simpl; congruence).
  apply fmap_ext_in. intros c Hc. unfold cat_node. simpl_abs. f_equal.
  apply js_filter_filter_implied. intros l _ Hl. strict_simpl.
  apply set_has_spec, list_elem_of_fmap. exists c. split; [done|].
  apply elem_of_js_filter in Hc as [Hc Hpc]. strict_simpl.
  apply elem_of_js_filter. split; [done|]. strict_simpl. congruence.
Qed.

Lemma abs_deletePanel d id : abs (fst (deletePanel d id true)) = t_deletePanel id (abs d).
Proof.
  pose proof (abs_tree_deletePanel (panels d) (categories d) (links d) id) as Ht.
  unfold abs, deletePanel, t_deletePanel. cbv zeta in *. cbn [tree current].
  rewrite <- Ht. destruct (currentPanelId d === Some id); simpl_dash; [|done].
  by destruct (List.filter _ (panels d)).
Qed.

(** In a well-formed state no category names a panel id that is not
    there, and no link a category id that is not there. *)
Lemma cats_of_fresh d pid : wf d -> pid ∉ panel_ids d -> cats_of (categories d) pid = [].
Proof.
  intros (_ & [Hrc _] & _) Hp. apply js_filter_none. eapply Forall_impl; [exact Hrc|].
  intros c Hc. apply not_true_iff_false. intros E. strict_simpl. unfold cat_ref_ok in Hc.
  rewrite E in Hc. apply list_elem_of_fmap in Hc as (q & [= ->] & Hq).
  apply Hp. by apply list_elem_of_fmap_2.
Qed.

Lemma catLinks_fresh d cid : wf d -> cid ∉ cat_ids d -> catLinks (links d) cid = [].
Proof.
  intros (_ & [_ Hrl] & _) Hc. apply js_filter_none. eapply Forall_impl; [exact Hrl|].
  intros l Hl. apply not_true_iff_false. intros E. strict_simpl. unfold link_ref_ok in Hl.
  by rewrite E in Hl.
Qed.

Lemma abs_createLink d u name desc cat newId :
  t_spec (abs d) (CreateLink u name desc cat newId) (abs (exec d (CreateLink u name desc cat newId))).
Proof.
  unfold exec, t_spec, handleLinkSubmit, abs, t_createLink. cbv zeta. form_fields. simpl_dash. f_equal.
  apply abs_tree_links. intros c. unfold cat_node, catLinks, push. simpl_abs.
  rewrite List.filter_app. cbn [List.filter]. rewrite strict_eq_sym.
  by destruct (_ === _); rewrite ?app_nil_r.
Qed.

Lemma abs_createPanel d name newId :
  wf d -> newId ∉ panel_ids d ->
  t_spec (abs d) (CreatePanel name newId) (abs (exec d (CreatePanel name newId))).
Proof.
  intros Hwf Hfresh. unfold exec, t_spec, handlePanelSubmit, abs, t_createPanel. cbv zeta. form_fields.
  simpl_dash. unfold abs_tree, push. rewrite fmap_app. simpl_abs. do 3 f_equal.
  rewrite fmap_cons. unfold panel_node. simpl_abs. by rewrite cats_of_fresh.
Qed.

Lemma abs_createCategory d name newId :
  wf d -> newId ∉ cat_ids d ->
  t_spec (abs d) (CreateCategory name newId) (abs (exec d (CreateCategory name newId))).
Proof.
  intros Hwf Hfresh. unfold exec, t_spec, handleCategorySubmit, abs, t_createCategory. cbv zeta. form_fields.
  simpl_abs. f_equal. unfold abs_tree. rewrite <- list_fmap_compose.
  apply fmap_ext_in. intros p _. unfold panel_node, cats_of, push. simpl_abs.
  rewrite List.filter_app, fmap_app. cbn [List.filter]. rewrite strict_eq_sym.
  destruct (_ === _); simpl_abs; rewrite ?app_nil_r; [|done].
  rewrite fmap_cons. unfold cat_node at 2. simpl_abs. by rewrite catLinks_fresh.
Qed.

Lemma abs_updatePanel d id name :
  NoDup (panel_ids d) -> truthy id = true ->
  t_spec (abs d) (UpdatePanel id name) (abs (exec d (UpdatePanel id name))).
Proof.
  intros Hnd Ht. unfold exec, t_spec, handlePanelSubmit, abs, t_updatePanel. cbv zeta.
  form_fields. rewrite Ht, edit_by_key by done. simpl_abs. f_equal.
  unfold abs_tree. rewrite <- !list_fmap_compose. apply fmap_ext_in. intros p _.
  unfold panel_node. simpl_abs. by destruct (panel_id p === id).
Qed.

Lemma abs_updateCategory d id name :
  NoDup (cat_ids d) -> truthy id = true ->
  t_spec (abs d) (UpdateCategory id name) (abs (exec d (UpdateCategory id name))).
Proof.
  intros Hnd Ht. unfold exec, t_spec, handleCategorySubmit, abs, t_updateCategory. cbv zeta.
  form_fields. rewrite Ht, edit_by_key by done. simpl_abs. f_equal.
  unfold abs_tree, map_cats. rewrite <- list_fmap_compose. apply fmap_ext_in. intros p _.
  unfold panel_node, cats_of. simpl_abs. f_equal.
  rewrite js_filter_fmap_inv by (intros c; by destruct (cat_id c === id)).
  rewrite <- !list_fmap_compose. apply fmap_ext_in. intros c _.
  unfold cat_node. simpl_abs. by destruct (cat_id c === id).
Qed.

(** ** The link edit *)

Lemma Forall2_fmap_diag {A B} (f g : A -> B) (P : B -> B -> Prop) l :
  Forall (fun x => P (f x) (g x)) l -> Forall2 P (f <$> l) (g <$> l).
Proof. intros H. apply Forall2_fmap_2, Forall_Forall2_diag, H. Qed.

Lemma insert_middle {A} (pre post : list A) x y :
  <[length pre := y]> (pre ++ x :: post) = pre ++ y :: post.
Proof. induction pre as [|z pre IH]; [done|]. exact (f_equal (cons z) IH). Qed.

(** The keys a list of links without the key [k] does not have. *)
Lemma keys_without (xs : list Link) k :
  Forall (fun z => link_id z <> k) xs -> k ∉ link_id <$> xs.
Proof.
  intros Hxs (z & Hz & Hin)%list_elem_of_fmap. rewrite Forall_forall in Hxs.
  by apply (Hxs z Hin).
Qed.

Lemma edit_key_none (xs : list Link) k l :
  Forall (fun z => link_id z <> k) xs -> (fun x => if link_id x === k then l else x) <$> xs = xs.
Proof.
  intros Hxs. rewrite <- (list_fmap_id xs) at 2. apply fmap_ext_in. intros z Hz.
  rewrite Forall_forall in Hxs. by rewrite (proj2 (strict_eq_false _ _) (Hxs z Hz)).
Qed.

Lemma Forall_catLinks (P : Link -> Prop) xs c : Forall P xs -> Forall P (catLinks xs c).
Proof.
  rewrite !Forall_forall. intros H z Hz. apply elem_of_catLinks in Hz as [Hz _]. by apply H.
Qed.

(** Replacing link [L] of the flat array by [l] with the same id changes
    the links of every category as [link_slot] says. *)
Lemma catLinks_edit pre L post l c :
  NoDup (link_id <$> pre ++ L :: post) -> link_id l = link_id L ->
  link_slot (link_id L) l c (catLinks (pre ++ L :: post) c) (catLinks (pre ++ l :: post) c).
Proof.
  intros Hnd Hid. destruct (NoDup_key_middle link_id pre L post Hnd) as [Hpre Hpost].
  pose proof (Forall_catLinks _ _ c Hpre) as Hpre'. pose proof (Forall_catLinks _ _ c Hpost) as Hpost'.
  unfold link_slot, catLinks in *. rewrite !List.filter_app. cbn [List.filter].
  destruct (categoryId l === c) eqn:El; destruct (categoryId L === c) eqn:EL.
  - rewrite decide_True.
    + rewrite fmap_app, fmap_cons, strict_eq_refl, !edit_key_none by done. done.
    + apply list_elem_of_fmap. exists L. split; [done|]. apply elem_of_app. right. by left.
  - rewrite decide_False; [by eexists _, _|].
    rewrite fmap_app. intros [H|H]%elem_of_app; revert H; by apply keys_without.
  - cbn [List.filter]. rewrite strict_eq_refl. cbn [negb].
    by rewrite !filter_key_all.
  - by rewrite !filter_key_all.
Qed.

(** Editing a link through its form, with the hidden id of an existing
    link, implements the link edit of the contract. *)
Lemma abs_updateLink d id u name desc cat :
  wf d -> id ∈ link_ids d -> truthy id = true ->
  t_spec (abs d) (UpdateLink id u name desc cat) (abs (exec d (UpdateLink id u name desc cat))).
Proof.
  intros ((_ & _ & Hnd) & _) Hid Ht.
  apply list_elem_of_fmap in Hid as (L & -> & HL).
  apply list_elem_of_split in HL as (pre & post & Hls).
  set (l := mkLink (link_id L) (js_trim name) (js_trim desc) (normalizeUrl u) cat).
  assert (Hex : exec d (UpdateLink (link_id L) u name desc cat) = set_links d (pre ++ l :: post)).
  { unfold exec. rewrite (proj1 (handleLinkSubmit_edit d (mkLinkForm u name desc cat (link_id L)) ""
                                   Ht Hnd) (length pre) L); [|by rewrite Hls, list_lookup_middle|done].
    cbn [fst]. rewrite Hls. by rewrite insert_middle. }
  cbn [t_spec]. rewrite Hex. unfold t_updateLink, abs. simpl_abs. split; [done|].
  unfold abs_tree. apply Forall2_fmap_diag, Forall_forall. intros p _.
  unfold panel_node. simpl_abs. split; [done|].
  apply Forall2_fmap_diag, Forall_forall. intros c _. unfold cat_node. simpl_abs. split; [done|].
  rewrite Hls. apply catLinks_edit; [unfold link_ids in Hnd; by rewrite <- Hls|done].
Qed.

(** An edit form ignores the id [generateId()] would give. *)
Lemma handleLinkSubmit_edit_newId d f n n' :
  truthy (link_form_id f) = true -> handleLinkSubmit d f n = handleLinkSubmit d f n'.
Proof. intros Ht. unfold handleLinkSubmit. cbv zeta. by rewrite Ht. Qed.

(** ** Simulation *)

Lemma exec_wf d c : wf d -> cmd_ok d c -> wf (exec d c).
Proof.
  intros Hwf Hok. destruct c; cbn [cmd_ok] in Hok; unfold exec.
  - by apply handlePanelSubmit_wf.
  - destruct Hok. by apply handleCategorySubmit_wf.
  - destruct Hok. by apply handleLinkSubmit_wf.
  - by apply handlePanelSubmit_rename_wf.
  - by apply handleCategorySubmit_rename_wf.
  - destruct Hok as (Ht & _ & Hcat).
    rewrite (handleLinkSubmit_edit_newId _ _ _ (infinite_fresh (link_ids d))) by done.
    apply handleLinkSubmit_wf; [done|done|apply infinite_is_fresh].
  - by apply deletePanel_wf.
  - by apply deleteCategory_wf.
  - by apply deleteLink_wf.
Qed.

Lemma exec_refines d c : wf d -> cmd_ok d c -> t_spec (abs d) c (abs (exec d c)).
Proof.
  intros Hwf Hok. pose proof Hwf as ((Hp & Hc & _) & _).
  destruct c; cbn [cmd_ok] in Hok.
  - by apply abs_createPanel.
  - apply abs_createCategory; [done|apply Hok].
  - apply abs_createLink.
  - by apply abs_updatePanel.
  - by apply abs_updateCategory.
  - destruct Hok as (Ht & Hid & _). by apply abs_updateLink.
  - apply abs_deletePanel.
  - apply abs_deleteCategory.
  - apply abs_deleteLink.
Qed.

(** C22: The handlers implement the CRUD contract of the specification on
    the hierarchical model: from a well-formed state, every sequence of
    commands the page can issue (creates with fresh generated ids under an
    existing current panel and category, edits of existing panels,
    categories and links, confirmed deletes) leads to a well-formed state
    whose tree of panels, categories and links and whose current panel
    the contract allows: exactly the prescribed ones, except that a link
    edited into another category may sit anywhere among that category's
    links. *)
Theorem run_refines d cs :
  wf d -> cmds_ok d cs -> t_runs (abs d) cs (abs (run d cs)) /\ wf (run d cs).
Proof.
  revert d. induction cs as [|c cs IH]; intros d Hwf Hok; [done|].
  destruct Hok as [Hc Hcs]. cbn [run t_runs].
  destruct (IH (exec d c)) as [Hr Hw]; [by apply exec_wf|done|].
  split; [|done]. exists (abs (exec d c)). split; [by apply exec_refines|done].
Qed.

(** ** Witnesses *)

(** Add a link to [Projects], move [Docs] to [Favorites] by editing it,
    rename the [Work] panel, then delete the [Projects] category with its
    remaining three links. *)
Definition sample_cmds : list Cmd :=
  [CreateLink "example.org" " Example " "" "c1" "l4"; UpdateLink "l1" "docs.example" "Docs" "" "c2";
   UpdatePanel "w" "Job"; DeleteCategory "c1"].

Lemma run_refines_witness :
  wf sample /\ cmds_ok sample sample_cmds /\
  t_runs (abs sample) sample_cmds (abs (run sample sample_cmds)) /\ wf (run sample sample_cmds) /\
  (node_cats <$> tree (abs (run sample sample_cmds))) =
    [[]; [mkCatNode (mkCategory "c2" "Favorites" (Some "h"))
          [mkLink "l1" "Docs" "" "https://docs.example" "c2";
           mkLink "l3" "News" "" "https://news.example" "c2"]]].
Proof.
  assert (Hwf : wf sample) by decide_true.
  assert (Hok : cmds_ok sample sample_cmds)
    by (cbn [cmds_ok cmd_ok sample_cmds]; split_and!; first [exact I | decide_true | reflexivity]).
  destruct (run_refines sample sample_cmds Hwf Hok) as [Hr Hw].
  split_and!; [exact Hwf|exact Hok|exact Hr|exact Hw|vm_compute; reflexivity].
Defined.
