(* ===== verification/Modal.v ===== *)
(** The modal dialogs of src/Dashboard/script.js: [openModal] (lines
    564-623), [closeModal] (625-630), [updateCategorySelect] (632-641) and
    the guards of the Add Link and Add Category buttons (250-265), over
    the state of the three forms.  The category [<select>] follows the
    HTML rules: it offers the current panel's categories, a reset or a
    fresh list selects the first option, and assigning a value that no
    option has leaves no option selected, so that [select.value] is [""].
    The text inputs reset to the empty string (the page's markup gives
    them no default value); the hidden id inputs are always assigned
    before a form is shown. *)

From S2P Require Import Prelude Model Repository Render.

(** ** The forms *)

Inductive ModalKind := MLink | MCategory | MPanel.

#[export] Instance ModalKind_eq_dec : EqDecision ModalKind.
Proof. solve_decision. Defined.

(** An option of the category select: its value and its text. *)
Definition SelectOption : Type := string * string.

Record Modals := mkModals {
  overlay_active : bool;
  active_modal : option ModalKind;
  link_title : string;
  category_title : string;
  panel_title : string;
  category_options : list SelectOption;
  link_fields : LinkForm;
  category_fields : CategoryForm;
  panel_fields : PanelForm
}.

Definition modals_init : Modals :=
  mkModals false None "" "" "" [] (mkLinkForm "" "" "" "" "") (mkCategoryForm "" "")
    (mkPanelForm "" "").

(** [select.value = v]: the first option with value [v] is selected, or
    none. *)
Definition select_set (opts : list SelectOption) (v : string) : string :=
  if decide (v ∈ opts.*1) then v else "".

(** A select whose options were replaced or reset shows its first
    option. *)
Definition select_first (opts : list SelectOption) : string :=
  match opts with (v, _) :: _ => v | [] => "" end.

(** Lines 632-641. *)
Definition updateCategorySelect (d : Dashboard) : list SelectOption :=
  (fun c => (cat_id c, cat_name c)) <$> panelCategories d.

(** Lines 625-630. *)
Definition closeModal (m : Modals) : Modals :=
  mkModals false None (link_title m) (category_title m) (panel_title m) (category_options m)
    (link_fields m) (category_fields m) (panel_fields m).

(** What the page asks [openModal] for: the kind, and the item of an
    edit. *)
Inductive OpenRequest :=
  | OpenLink (data : option Link)
  | OpenCategory (data : option Category)
  | OpenPanel (data : option Panel).

(** Lines 573-592: the link form after [updateCategorySelect()],
    [linkForm.reset()] and the branch on [data]. *)
Definition open_link_fields (d : Dashboard) (opts : list SelectOption) (data : option Link)
    : string * LinkForm :=
  match data with
  | Some l =>
      ("Edit Link",
       mkLinkForm (url l) (link_name l) (description l) (select_set opts (categoryId l)) (link_id l))
  | None =>
      ("Add Link",
       mkLinkForm "" "" ""
         (match panelCategories d with c :: _ => select_set opts (cat_id c) | [] => select_first opts end)
         "")
  end.

(** Lines 564-623. *)
Definition openModal (d : Dashboard) (m : Modals) (r : OpenRequest) : Modals :=
  let m0 := closeModal m in
  match r with
  | OpenLink data =>
      let opts := updateCategorySelect d in
      let '(title, f) := open_link_fields d opts data in
      mkModals true (Some MLink) title (category_title m0) (panel_title m0) opts f
        (category_fields m0) (panel_fields m0)
  | OpenCategory data =>
      let '(title, f) :=
        match data with
        | Some c => ("Edit Category", mkCategoryForm (cat_name c) (cat_id c))
        | None => ("Add Category", mkCategoryForm "" "")
        end in
      mkModals true (Some MCategory) (link_title m0) title (panel_title m0) (category_options m0)
        (link_fields m0) f (panel_fields m0)
  | OpenPanel data =>
      let '(title, f) :=
        match data with
        | Some p => ("Edit Panel", mkPanelForm (panel_name p) (panel_id p))
        | None => ("Add Panel", mkPanelForm "" "")
        end in
      mkModals true (Some MPanel) (link_title m0) (category_title m0) title (category_options m0)
        (link_fields m0) (category_fields m0) f
  end.

(** Lines 250-265: the Add Link button opens the form only when the
    current panel has a category, the Add Category button only when a
    panel is current; otherwise they alert. *)
Definition addLinkButton (d : Dashboard) : option OpenRequest :=
  if length (panelCategories d) =? 0 then None else Some (OpenLink None).

Definition addCategoryButton (d : Dashboard) : option OpenRequest :=
  if negb (truthy_opt (currentPanelId d)) then None else Some (OpenCategory None).

(** ** The link-name autofill (lines 286-297) *)

(** [hostname.split('.')[0]]. *)
Fixpoint first_label (s : string) : string :=
  match s with
  | EmptyString => EmptyString
  | String c r => if Ascii.eqb c "." then EmptyString else String c (first_label r)
  end.

(** [toUpperCase] of one character on the letters a host name can start
    with: the host names [new URL] returns are ASCII (IDNA), whose
    lower-case letters are a-z. *)
Definition upper_char (c : ascii) : ascii :=
  let n := nat_of_ascii c in if (97 <=? n) && (n <=? 122) then ascii_of_nat (n - 32) else c.

(** [s.charAt(0).toUpperCase() + s.slice(1)]. *)
Definition capitalize (s : string) : string :=
  match s with EmptyString => EmptyString | String c r => String (upper_char c) r end.

Section Autofill.
Variable URL_hostname : string -> option string.

(** The blur listener: with a non-empty URL and an empty name field, the
    name becomes the capitalised first label of the URL's domain. *)
Definition autofill_name (u name : string) : string :=
  let urlStr := js_trim u in
  if truthy urlStr && negb (truthy name) then
    let hostname := extractDomain URL_hostname urlStr in
    if truthy hostname then capitalize (first_label hostname) else name
  else name.
End Autofill.

(** ** What the user does in an open form *)

(** Typing into a text input, or picking the [i]-th option of the
    category select (the list offers nothing else). *)
Inductive FormInput :=
  | InputUrl (s : string)
  | InputName (s : string)
  | InputDescription (s : string)
  | ChooseCategory (i : nat)
  | InputCategoryName (s : string)
  | InputPanelName (s : string)
  | BlurUrl.

Section Inputs.
Variable URL_hostname : string -> option string.

Definition input (m : Modals) (i : FormInput) : Modals :=
  let lf := link_fields m in
  let cf := category_fields m in
  let pf := panel_fields m in
  let with_link f :=
    mkModals (overlay_active m) (active_modal m) (link_title m) (category_title m) (panel_title m)
      (category_options m) f cf pf in
  match i with
  | InputUrl s =>
      with_link (mkLinkForm s (link_form_name lf) (link_form_description lf) (link_form_category lf) (link_form_id lf))
  | InputName s =>
      with_link (mkLinkForm (link_form_url lf) s (link_form_description lf) (link_form_category lf) (link_form_id lf))
  | InputDescription s =>
      with_link (mkLinkForm (link_form_url lf) (link_form_name lf) s (link_form_category lf) (link_form_id lf))
  | ChooseCategory i =>
      match category_options m !! i with
      | Some (v, _) =>
          with_link (mkLinkForm (link_form_url lf) (link_form_name lf) (link_form_description lf)
                       v (link_form_id lf))
      | None => m
      end
  | InputCategoryName s =>
      mkModals (overlay_active m) (active_modal m) (link_title m) (category_title m) (panel_title m)
        (category_options m) lf (mkCategoryForm s (category_form_id cf)) pf
  | InputPanelName s =>
      mkModals (overlay_active m) (active_modal m) (link_title m) (category_title m) (panel_title m)
        (category_options m) lf cf (mkPanelForm s (panel_form_id pf))
  | BlurUrl =>
      with_link (mkLinkForm (link_form_url lf)
                   (autofill_name URL_hostname (link_form_url lf) (link_form_name lf))
                   (link_form_description lf) (link_form_category lf) (link_form_id lf))
  end.

Definition inputs (m : Modals) (ins : list FormInput) : Modals := fold_left input ins m.
End Inputs.

(** ** Lemmas *)

Section InputLemmas.
Variable hn : string -> option string.

Lemma updateCategorySelect_values d : (updateCategorySelect d).*1 = cat_id <$> panelCategories d.
Proof. unfold updateCategorySelect. by rewrite <- list_fmap_compose. Qed.

Lemma select_set_mem opts v : v ∈ opts.*1 -> select_set opts v = v.
Proof. intros Hv. unfold select_set. by rewrite decide_True. Qed.

Lemma select_set_not_mem opts v : v ∉ opts.*1 -> select_set opts v = "".
Proof. intros Hv. unfold select_set. by rewrite decide_False. Qed.

Lemma input_options m i : category_options (input hn m i) = category_options m.
Proof. destruct i; simpl; try done. by destruct (_ !! _) as [[]|]. Qed.

(** Inputs keep the selected category among the options. *)
Lemma input_category m i :
  link_form_category (link_fields m) ∈ (category_options m).*1 ->
  link_form_category (link_fields (input hn m i)) ∈ (category_options (input hn m i)).*1.
Proof.
  rewrite input_options. intros Hm. destruct i; simpl; try done.
  destruct (category_options m !! i) as [[v t]|] eqn:E; simpl; [|done].
  apply list_elem_of_fmap. exists (v, t). split; [done|]. by eapply list_elem_of_lookup_2.
Qed.

Lemma inputs_category m ins :
  link_form_category (link_fields m) ∈ (category_options m).*1 ->
  link_form_category (link_fields (inputs hn m ins)) ∈ (category_options (inputs hn m ins)).*1.
Proof.
  revert m. induction ins as [|i ins IH]; intros m Hm; [done|]. apply IH, input_category, Hm.
Qed.

Lemma inputs_options m ins : category_options (inputs hn m ins) = category_options m.
Proof.
  revert m. induction ins as [|i ins IH]; intros m; [done|]. cbn [inputs fold_left].
  rewrite <- (input_options m i). apply IH.
Qed.

Lemma openModal_link_options d m data :
  category_options (openModal d m (OpenLink data)) = updateCategorySelect d.
Proof. unfold openModal. by destruct (open_link_fields _ _ _). Qed.

(** The form [openModal('link', data)] shows selects one of the options:
    the edited link's category when it is offered, the current panel's
    first category for a new link. *)
Lemma openModal_link_category d m data :
  match data with
  | Some l => categoryId l ∈ cat_id <$> panelCategories d
  | None => panelCategories d <> []
  end ->
  link_form_category (link_fields (openModal d m (OpenLink data))) ∈
    (category_options (openModal d m (OpenLink data))).*1.
Proof.
  rewrite openModal_link_options, updateCategorySelect_values. intros Hd.
  unfold openModal, open_link_fields. destruct data as [l|]; cbn [link_fields link_form_category].
  - by rewrite select_set_mem by (by rewrite updateCategorySelect_values).
  - destruct (panelCategories d) as [|c cs] eqn:E; [done|].
    rewrite select_set_mem; [by left|]. rewrite updateCategorySelect_values, E. by left.
Qed.

Lemma addCategoryButton_current d r : addCategoryButton d = Some r -> currentPanelId d <> None.
Proof. unfold addCategoryButton. by destruct (currentPanelId d). Qed.

(** C23: The category a submitted link form names is one of the current
    panel's categories, whatever the user typed or picked, when the link
    dialog was opened by the Add Link button (past its guard) or to edit
    a link of the current panel: the form cannot create a link under a
    missing category. *)
Theorem link_dialog_category d m r ins :
  (addLinkButton d = Some r \/
   exists l, r = OpenLink (Some l) /\ categoryId l ∈ cat_id <$> panelCategories d) ->
  link_form_category (link_fields (inputs hn (openModal d m r) ins)) ∈ cat_id <$> panelCategories d.
Proof.
  intros Hr.
  assert (exists data, r = OpenLink data /\
    match data with
    | Some l => categoryId l ∈ cat_id <$> panelCategories d
    | None => panelCategories d <> []
    end) as (data & -> & Hd).
  { destruct Hr as [Hb|(l & -> & Hl)]; [|by exists (Some l)].
    unfold addLinkButton in Hb. destruct (Nat.eqb_spec (length (panelCategories d)) 0); [done|].
    injection Hb as <-. exists None. split; [done|]. by destruct (panelCategories d). }
  rewrite <- updateCategorySelect_values, <- (openModal_link_options d m data),
    <- (inputs_options _ ins).
  by apply inputs_category, openModal_link_category.
Qed.

(** The edit dialogs show the stored item: the fields [openModal] fills
    for a link of the current panel, a category and a panel are
    [linkFormOf], [categoryFormOf] and [panelFormOf]. *)
Lemma openModal_edit_link d m l :
  categoryId l ∈ cat_id <$> panelCategories d ->
  link_fields (openModal d m (OpenLink (Some l))) = linkFormOf l.
Proof.
  intros Hl. unfold openModal, open_link_fields. cbn [link_fields].
  by rewrite select_set_mem by (by rewrite updateCategorySelect_values).
Qed.

Lemma openModal_edit_category d m c :
  category_fields (openModal d m (OpenCategory (Some c))) = categoryFormOf c.
Proof. done. Qed.

Lemma openModal_edit_panel d m p : panel_fields (openModal d m (OpenPanel (Some p))) = panelFormOf p.
Proof. done. Qed.

(** C24: Editing through a dialog without changing anything changes
    nothing: in a well-formed state, the fields [openModal] shows for a
    link of the current panel, a category or a panel, submitted as they
    are, leave the dashboard as it was (and save it), when the item has a
    non-empty id and the fields the forms store it with. *)
Theorem edit_dialogs_resubmit d m l c p newId :
  wf d ->
  (l ∈ links d -> categoryId l ∈ cat_id <$> panelCategories d -> truthy (link_id l) = true ->
   link_canonical l ->
   handleLinkSubmit d (link_fields (openModal d m (OpenLink (Some l)))) newId = (d, [WSaveData])) /\
  (c ∈ categories d -> truthy (cat_id c) = true -> js_trim (cat_name c) = cat_name c ->
   handleCategorySubmit d (category_fields (openModal d m (OpenCategory (Some c)))) newId =
     (d, [WSaveData])) /\
  (p ∈ panels d -> truthy (panel_id p) = true -> js_trim (panel_name p) = panel_name p ->
   handlePanelSubmit d (panel_fields (openModal d m (OpenPanel (Some p)))) newId = (d, [WSaveData])).
Proof.
  intros ((Hp & Hc & Hl) & _). rewrite openModal_edit_category, openModal_edit_panel.
  split_and!.
  - intros HL Hcat Ht Hcan. rewrite openModal_edit_link by done. by apply linkFormOf_resubmit.
  - apply (proj1 (handleCategorySubmit_handlePanelSubmit_reopen d c p newId) Hc).
  - apply (proj2 (handleCategorySubmit_handlePanelSubmit_reopen d c p newId) Hp).
Qed.

End InputLemmas.

(** The autofill never overwrites a name the user typed. *)
Lemma autofill_keeps_typed_name hn u name : truthy name = true -> autofill_name hn u name = name.
Proof. intros Hn. unfold autofill_name. by rewrite Hn, andb_false_r. Qed.

Example autofill_github :
  autofill_name (fun _ => Some "www.github.com"%string) " https://www.github.com/x " "" = "Github"%string.
Proof. reflexivity. Qed.

(** ** Witnesses *)

Lemma link_dialog_category_witness :
  addLinkButton sample = Some (OpenLink None) /\
  link_form_category
    (link_fields (inputs (fun _ => None) (openModal sample modals_init (OpenLink None))
                    [InputUrl "example.org"; ChooseCategory 5; InputName "Example"]))
    ∈ cat_id <$> panelCategories sample.
Proof.
  assert (Hb : addLinkButton sample = Some (OpenLink None)) by reflexivity.
  split; [exact Hb|]. apply link_dialog_category. by left.
Defined.

Lemma edit_dialogs_resubmit_witness :
  wf sample /\
  handleLinkSubmit sample
    (link_fields (openModal sample modals_init (OpenLink (Some (mkLink "l1" "Docs" "" "https://docs.example" "c1")))))
    "n1" = (sample, [WSaveData]).
Proof.
  assert (Hwf : wf sample) by decide_true. split; [exact Hwf|].
  apply (proj1 (edit_dialogs_resubmit sample modals_init (mkLink "l1" "Docs" "" "https://docs.example" "c1")
           (mkCategory "c1" "Projects" (Some "w")) (mkPanel "w" "Work") "n1" Hwf));
    [decide_true|decide_true|reflexivity|split_and!; reflexivity].
Defined.
